(** * MajikUser: a shallow embedding of [src/utils.ts] and
      [src/core/majik-user.ts]

    The development follows the two source files.

    - [JsString]: ECMAScript strings as sequences of UTF-16 code units, with
      the few [String.prototype] methods the sources call.
    - [Regex]: the subset of ECMAScript regular expressions the sources use,
      with the backtracking semantics of the language and the [lastIndex]
      state of a [RegExp] object carrying the [g] flag.
    - [JsDate]: time values, the calendar functions of ECMA-262 and the
      ISO 8601 text form written by [toISOString] and read by [new Date].
    - [Utils]: [src/utils.ts].
    - [User]: the [MajikUser] class of [src/core/majik-user.ts].

    Every function that can throw returns a [result]; every function that
    reads the clock takes the clock reading as an argument; every function
    that touches the module-level [DANGER_PATTERNS] array takes and returns
    it. *)

From Stdlib Require Import ZArith NArith List String Ascii Bool Lia DecimalString.
Import ListNotations.

Set Implicit Arguments.
Local Open Scope Z_scope.

(* ------------------------------------------------------------------ *)
(** * Exceptions *)

(** A call either returns a value or throws; the payload of [Throw] is the
    [message] of the [Error] object. *)
Inductive result (A : Type) : Type :=
| Ok (a : A)
| Throw (message : string).

Arguments Ok {A} a.
Arguments Throw {A} message.

Definition bind {A B : Type} (r : result A) (f : A -> result B) : result B :=
  match r with
  | Ok a => f a
  | Throw m => Throw m
  end.

Notation "x <- r ;; k" := (bind r (fun x => k))
  (at level 61, r at next level, right associativity).

Definition succeeded {A : Type} (r : result A) : bool :=
  match r with Ok _ => true | Throw _ => false end.

(* ------------------------------------------------------------------ *)
(** * Strings of UTF-16 code units *)

Module JsString.

(** A code unit; the sources never build one above [0xFFFF]. *)
Definition char16 : Type := N.
Definition jsstring : Type := list char16.

(** An ASCII literal as a JavaScript string. *)
Definition js (s : string) : jsstring :=
  map N_of_ascii (list_ascii_of_string s).

Definition char (a : ascii) : char16 := N_of_ascii a.

Fixpoint eqb (s t : jsstring) : bool :=
  match s, t with
  | [], [] => true
  | c :: s', d :: t' => N.eqb c d && eqb s' t'
  | _, _ => false
  end.

(** [!s] for a string: the empty string is the only falsy one. *)
Definition is_empty (s : jsstring) : bool :=
  match s with [] => true | _ => false end.

Definition in_range (lo hi c : N) : bool := (N.leb lo c && N.leb c hi)%bool.

(** WhiteSpace and LineTerminator of ECMA-262: what [trim] removes and
    what [\s] matches. *)
Definition is_space (c : char16) : bool :=
  (in_range 9 13 c || N.eqb c 32 || N.eqb c 160 || N.eqb c 5760
   || in_range 8192 8202 c || N.eqb c 8232 || N.eqb c 8233
   || N.eqb c 8239 || N.eqb c 8287 || N.eqb c 12288 || N.eqb c 65279)%bool.

Definition is_digit (c : char16) : bool := in_range 48 57 c.

(** [\w] without the [u] flag. *)
Definition is_word (c : char16) : bool :=
  (in_range 97 122 c || in_range 65 90 c || is_digit c || N.eqb c 95)%bool.

Fixpoint trimStart (s : jsstring) : jsstring :=
  match s with
  | c :: s' => if is_space c then trimStart s' else s
  | [] => []
  end.

Definition trimEnd (s : jsstring) : jsstring := rev (trimStart (rev s)).

Definition trim (s : jsstring) : jsstring := trimEnd (trimStart s).

(** Canonicalize of ECMA-262 for a pattern without the [u] flag, on the
    ASCII range: a code unit of 128 or more never canonicalizes to an
    ASCII one, so it never matches an ASCII pattern character. *)
Definition upper (c : char16) : char16 :=
  if in_range 97 122 c then (c - 32)%N else c.

Definition eqb_ci (p c : char16) : bool :=
  (N.ltb c 128 && N.eqb (upper p) (upper c))%bool.

(** [s.split(sep)] for a one-unit separator. *)
Fixpoint split_on (sep : char16) (s : jsstring) : list jsstring :=
  match s with
  | [] => [[]]
  | c :: s' =>
      if N.eqb c sep then [] :: split_on sep s'
      else match split_on sep s' with
           | piece :: rest => (c :: piece) :: rest
           | [] => [[c]]
           end
  end.

End JsString.
Import JsString.

(* ------------------------------------------------------------------ *)
(** * Regular expressions *)

Module Regex.

(** The pattern syntax the sources use. [Class] is a one-unit matcher
    (a literal, a class escape or a bracket class); [Star] is the greedy
    [*]; [Bol] and [Eol] are [^] and [$] without the [m] flag. *)
Inductive regex : Type :=
| Eps
| Class (p : char16 -> bool)
| Cat (r1 r2 : regex)
| Alt (r1 r2 : regex)
| Star (r : regex)
| Bol
| Eol.

Definition Plus (r : regex) : regex := Cat r (Star r).
Definition Opt (r : regex) : regex := Alt r Eps.

(** [r{n}] *)
Fixpoint Times (n : nat) (r : regex) : regex :=
  match n with
  | O => Eps
  | S n' => Cat r (Times n' r)
  end.

(** [r{0,n}], greedy *)
Fixpoint UpTo (n : nat) (r : regex) : regex :=
  match n with
  | O => Eps
  | S n' => Opt (Cat r (UpTo n' r))
  end.

(** [r{n,m}] *)
Definition Range (n m : nat) (r : regex) : regex :=
  Cat (Times n r) (UpTo (m - n) r).

Definition Lit (a : ascii) : regex := Class (N.eqb (char a)).
Definition LitCi (a : ascii) : regex := Class (eqb_ci (char a)).

(** A literal word, and the same under the [i] flag. *)
Fixpoint Word (s : string) : regex :=
  match s with
  | EmptyString => Eps
  | String a s' => Cat (Lit a) (Word s')
  end.

Fixpoint WordCi (s : string) : regex :=
  match s with
  | EmptyString => Eps
  | String a s' => Cat (LitCi a) (WordCi s')
  end.

(** [a|b|c] with the alternatives tried left to right. *)
Fixpoint Alts (rs : list regex) : regex :=
  match rs with
  | [] => Class (fun _ => false)
  | [r] => r
  | r :: rs' => Alt r (Alts rs')
  end.

(** A matcher takes the index and the rest of the input there, and a
    continuation for what follows the sub-pattern; it answers with the end
    index of the whole match and the input left after it. *)
Definition cont : Type := nat -> jsstring -> option (nat * jsstring).
Definition matcher : Type := nat -> jsstring -> cont -> option (nat * jsstring).

(** RepeatMatcher of ECMA-262 for [*]: the body first (greedy), then the
    continuation; an iteration that consumed nothing is abandoned. Each
    iteration shortens the input, so [length s + 1] rounds are never used
    up ([rmatch_Star] below states the loop without the counter). *)
Fixpoint star_loop (body : matcher) (fuel : nat) (i : nat) (s : jsstring)
  (k : cont) : option (nat * jsstring) :=
  match fuel with
  | O => k i s
  | S fuel' =>
      match body i s (fun i' s' =>
               if Nat.ltb (List.length s') (List.length s)
               then star_loop body fuel' i' s' k
               else None) with
      | Some m => Some m
      | None => k i s
      end
  end.

Fixpoint rmatch (r : regex) (i : nat) (s : jsstring) (k : cont)
  : option (nat * jsstring) :=
  match r with
  | Eps => k i s
  | Class p =>
      match s with
      | c :: s' => if p c then k (S i) s' else None
      | [] => None
      end
  | Cat r1 r2 => rmatch r1 i s (fun i' s' => rmatch r2 i' s' k)
  | Alt r1 r2 =>
      match rmatch r1 i s k with
      | Some m => Some m
      | None => rmatch r2 i s k
      end
  | Star r1 => star_loop (rmatch r1) (S (List.length s)) i s k
  | Bol => if Nat.eqb i 0 then k i s else None
  | Eol => match s with [] => k i s | _ :: _ => None end
  end.

(** The match that starts at index [i], if any: its end index and the
    input after it. *)
Definition match_at (r : regex) (i : nat) (s : jsstring)
  : option (nat * jsstring) :=
  rmatch r i s (fun e rest => Some (e, rest)).

(** The loop of RegExpBuiltinExec: the first index from [i] on at which
    the pattern matches, with the end index of that match. [s] is the
    input from index [i]. *)
Fixpoint search (r : regex) (i : nat) (s : jsstring) : option (nat * nat) :=
  match match_at r i s with
  | Some (e, _) => Some (i, e)
  | None =>
      match s with
      | [] => None
      | _ :: s' => search r (S i) s'
      end
  end.

(** A [RegExp] object: its pattern, its [g] flag and its mutable
    [lastIndex] property. The [i] flag is part of the pattern. *)
Record RegExp : Type := mkRegExp {
  source : regex;
  global : bool;
  lastIndex : nat
}.

Definition set_lastIndex (re : RegExp) (n : nat) : RegExp :=
  mkRegExp (source re) (global re) n.

(** [re.test(s)]: RegExpBuiltinExec. Without [g] the search starts at 0
    and [lastIndex] is not written. With [g] it starts at [lastIndex],
    which is then set to the end of the match, or to 0 when there is
    none. *)
Definition test (re : RegExp) (s : jsstring) : bool * RegExp :=
  let start := if global re then lastIndex re else O in
  if Nat.ltb (List.length s) start then
    (false, if global re then set_lastIndex re 0 else re)
  else
    match search (source re) start (skipn start s) with
    | Some (_, e) => (true, if global re then set_lastIndex re e else re)
    | None => (false, if global re then set_lastIndex re 0 else re)
    end.

(** [test] on a regular expression literal evaluated at the call: a fresh
    object, whose state nobody sees afterwards. *)
Definition test_literal (r : regex) (s : jsstring) : bool :=
  fst (test (mkRegExp r false 0) s).

(** [s.replace(re, by)] for a [g] pattern and a replacement without [$]:
    matches are taken left to right, each search resuming where the
    previous match ended, one unit further after an empty match. [s] is
    the input from index [i]. Each round shortens the input, so
    [length s + 1] rounds are never used up ([replace_loop_fuel]). *)
Fixpoint replace_loop (r : regex) (by_ : jsstring) (fuel : nat) (i : nat)
  (s : jsstring) : jsstring :=
  match fuel with
  | O => s
  | S fuel' =>
      let step :=
        match s with
        | [] => []
        | c :: s' => c :: replace_loop r by_ fuel' (S i) s'
        end in
      match match_at r i s with
      | Some (e, rest) =>
          if Nat.ltb (List.length rest) (List.length s)
          then by_ ++ replace_loop r by_ fuel' e rest
          else by_ ++ step
      | None => step
      end
  end.

Definition replace_all (r : regex) (by_ : jsstring) (s : jsstring)
  : jsstring :=
  replace_loop r by_ (S (List.length s)) 0 s.

End Regex.
Import Regex.

(* ------------------------------------------------------------------ *)
(** * Dates *)

Module JsDate.

(** A [Date] object holds a time value: milliseconds since the epoch, or
    NaN ([None]) for an invalid date. *)
Definition Date : Type := option Z.

Definition msPerDay : Z := 86400000.
Definition maxTime : Z := 8640000000000000.

(** Calendar functions of ECMA-262, section "Time Values and Time
    Range" and following. *)
Definition Day (t : Z) : Z := t / msPerDay.
Definition TimeWithinDay (t : Z) : Z := t mod msPerDay.

Definition DayFromYear (y : Z) : Z :=
  365 * (y - 1970) + (y - 1969) / 4 - (y - 1901) / 100 + (y - 1601) / 400.

Definition InLeapYear (y : Z) : Z :=
  if ((y mod 4 =? 0) && (negb (y mod 100 =? 0) || (y mod 400 =? 0)))%bool
  then 1 else 0.

Definition DaysInYear (y : Z) : Z := 365 + InLeapYear y.

(** The largest year that starts on or before day [d]: an estimate from
    the mean length of a year, then one step either way. *)
Definition YearFromDay (d : Z) : Z :=
  let y := 1970 + (400 * d) / 146097 in
  if d <? DayFromYear y then y - 1
  else if DayFromYear (y + 1) <=? d then y + 1
  else y.

Definition YearFromTime (t : Z) : Z := YearFromDay (Day t).

Definition DayWithinYear (t : Z) : Z := Day t - DayFromYear (YearFromTime t).

(** Day within the year on which month [m] (0 to 11) starts. *)
Definition monthStart (leap m : Z) : Z :=
  if m <=? 0 then 0
  else if m =? 1 then 31
  else if m =? 2 then 59 + leap
  else if m =? 3 then 90 + leap
  else if m =? 4 then 120 + leap
  else if m =? 5 then 151 + leap
  else if m =? 6 then 181 + leap
  else if m =? 7 then 212 + leap
  else if m =? 8 then 243 + leap
  else if m =? 9 then 273 + leap
  else if m =? 10 then 304 + leap
  else 334 + leap.

Definition monthOfDay (leap d : Z) : Z :=
  if d <? 31 then 0
  else if d <? 59 + leap then 1
  else if d <? 90 + leap then 2
  else if d <? 120 + leap then 3
  else if d <? 151 + leap then 4
  else if d <? 181 + leap then 5
  else if d <? 212 + leap then 6
  else if d <? 243 + leap then 7
  else if d <? 273 + leap then 8
  else if d <? 304 + leap then 9
  else if d <? 334 + leap then 10
  else 11.

Definition MonthFromTime (t : Z) : Z :=
  monthOfDay (InLeapYear (YearFromTime t)) (DayWithinYear t).

Definition DateFromTime (t : Z) : Z :=
  DayWithinYear t
  - monthStart (InLeapYear (YearFromTime t)) (MonthFromTime t) + 1.

Definition HourFromTime (t : Z) : Z := (t / 3600000) mod 24.
Definition MinFromTime (t : Z) : Z := (t / 60000) mod 60.
Definition SecFromTime (t : Z) : Z := (t / 1000) mod 60.
Definition msFromTime (t : Z) : Z := t mod 1000.

Definition MakeTime (h m s ms : Z) : Z :=
  h * 3600000 + m * 60000 + s * 1000 + ms.

(** The month may lie outside 0..11 and the date outside the month; both
    carry over. *)
Definition MakeDay (year month date : Z) : Z :=
  let ym := year + month / 12 in
  let mn := month mod 12 in
  DayFromYear ym + monthStart (InLeapYear ym) mn + date - 1.

Definition MakeDate (day time : Z) : Z := day * msPerDay + time.

Definition TimeClip (t : Z) : Date :=
  if Z.abs t <=? maxTime then Some t else None.

(** The host's zone offset, taken to be zero: local time is UTC. In
    [YYYYMMDDToDate] a constant offset would cancel, the constructor
    subtracting what the getters add; in [dateToYYYYMMDD] it would decide
    which day is written for an instant near midnight. *)
Definition LocalTZA : Z := 0.
Definition LocalTime (t : Z) : Z := t + LocalTZA.
Definition UTC (t : Z) : Z := t - LocalTZA.

(** [new Date(year, monthIndex, day)]: local midnight; a year from 0 to
    99 means 1900 + year. *)
Definition Date_of_fields (year monthIndex day : Z) : Date :=
  let yr := if ((0 <=? year) && (year <=? 99))%bool
            then 1900 + year else year in
  TimeClip (UTC (MakeDate (MakeDay yr monthIndex day) 0)).

Definition getFullYear (t : Z) : Z := YearFromTime (LocalTime t).
Definition getMonth (t : Z) : Z := MonthFromTime (LocalTime t).
Definition getDate (t : Z) : Z := DateFromTime (LocalTime t).

(** ** Decimal text *)

Definition digit (n : Z) : char16 := Z.to_N (48 + n).

(** The [w] low decimal digits of [n], most significant first. *)
Fixpoint digits (w : nat) (n : Z) : jsstring :=
  match w with
  | O => []
  | S w' => digit ((n / 10 ^ Z.of_nat w') mod 10) :: digits w' n
  end.

(** [w] decimal digits at the head of [s], read into [acc]. *)
Fixpoint read_digits (w : nat) (acc : Z) (s : jsstring)
  : option (Z * jsstring) :=
  match w with
  | O => Some (acc, s)
  | S w' =>
      match s with
      | c :: s' =>
          if is_digit c
          then read_digits w' (acc * 10 + (Z.of_N c - 48)) s'
          else None
      | [] => None
      end
  end.

Definition expect (a : ascii) (s : jsstring) : option jsstring :=
  match s with
  | c :: s' => if N.eqb c (char a) then Some s' else None
  | [] => None
  end.

(** [String(n)] for an integer [n]. *)
Definition String_of_int (n : Z) : jsstring :=
  js (DecimalString.NilZero.string_of_int (Z.to_int n)).

(** [s.padStart(n, fill)] for a one-unit filler. *)
Definition padStart (n : nat) (fill : ascii) (s : jsstring) : jsstring :=
  repeat (char fill) (n - List.length s) ++ s.

(** ** The date-time string format *)

(** The year of [toISOString]: four digits from 0 to 9999, otherwise a
    sign and six digits. *)
Definition year_text (y : Z) : jsstring :=
  if ((0 <=? y) && (y <=? 9999))%bool then digits 4 y
  else (if y <? 0 then js "-" else js "+") ++ digits 6 (Z.abs y).

(** The text of a valid time value: [YYYY-MM-DDTHH:mm:ss.sssZ]. *)
Definition iso_text (t : Z) : jsstring :=
  year_text (YearFromTime t) ++ js "-"
  ++ digits 2 (MonthFromTime t + 1) ++ js "-"
  ++ digits 2 (DateFromTime t) ++ js "T"
  ++ digits 2 (HourFromTime t) ++ js ":"
  ++ digits 2 (MinFromTime t) ++ js ":"
  ++ digits 2 (SecFromTime t) ++ js "."
  ++ digits 3 (msFromTime t) ++ js "Z".

(** [d.toISOString()]: a RangeError on an invalid date. *)
Definition toISOString (d : Date) : result jsstring :=
  match d with
  | None => Throw "Invalid time value"
  | Some t => Ok (iso_text t)
  end.

Definition obind {A B : Type} (o : option A) (f : A -> option B)
  : option B :=
  match o with Some a => f a | None => None end.

Notation "x <-? o ;; k" := (obind o (fun x => k))
  (at level 61, o at next level, right associativity).

(** The year at the head of a date-time string. The expanded year
    [-000000] is not a year. *)
Definition read_year (s : jsstring) : option (Z * jsstring) :=
  match s with
  | c :: s' =>
      if N.eqb c (char "+") then read_digits 6 0 s'
      else if N.eqb c (char "-") then
        ys <-? read_digits 6 0 s' ;;
        if fst ys =? 0 then None else Some (- fst ys, snd ys)
      else read_digits 4 0 s
  | [] => None
  end.

Definition fields_ok (mo d h mi sec ms : Z) : bool :=
  ((1 <=? mo) && (mo <=? 12) && (1 <=? d) && (d <=? 31)
   && (h <=? 24) && (mi <=? 59) && (sec <=? 59)
   && (negb (h =? 24) || ((mi =? 0) && (sec =? 0) && (ms =? 0))))%bool.

(** The time value of a string in the date-time string format. Two forms
    are read: the date-only form [YYYY-MM-DD] and the full form
    [YYYY-MM-DDTHH:mm:ss.sssZ], both in UTC and both with a four-digit or
    an expanded year. Any other text gives NaN: the remaining forms of
    the format and the host's own fallback are not part of this model. *)
Definition parse_time (s : jsstring) : option Z :=
  ys <-? read_year s ;;
  s1 <-? expect "-" (snd ys) ;;
  ms_ <-? read_digits 2 0 s1 ;;
  s2 <-? expect "-" (snd ms_) ;;
  ds <-? read_digits 2 0 s2 ;;
  let y := fst ys in
  let mo := fst ms_ in
  let d := fst ds in
  match snd ds with
  | [] =>
      if fields_ok mo d 0 0 0 0
      then Some (MakeDate (MakeDay y (mo - 1) d) 0)
      else None
  | _ =>
      s3 <-? expect "T" (snd ds) ;;
      hs <-? read_digits 2 0 s3 ;;
      s4 <-? expect ":" (snd hs) ;;
      mis <-? read_digits 2 0 s4 ;;
      s5 <-? expect ":" (snd mis) ;;
      ss <-? read_digits 2 0 s5 ;;
      s6 <-? expect "." (snd ss) ;;
      mss <-? read_digits 3 0 s6 ;;
      s7 <-? expect "Z" (snd mss) ;;
      match s7 with
      | [] =>
          if fields_ok mo d (fst hs) (fst mis) (fst ss) (fst mss)
          then Some (MakeDate (MakeDay y (mo - 1) d)
                       (MakeTime (fst hs) (fst mis) (fst ss) (fst mss)))
          else None
      | _ :: _ => None
      end
  end.

(** [new Date(s)] for a string [s]. *)
Definition Date_of_string (s : jsstring) : Date :=
  match parse_time s with
  | Some t => TimeClip t
  | None => None
  end.

(** [new Date(d)] for a [Date] [d]: a copy of its time value. *)
Definition Date_of_Date (d : Date) : Date := d.

(** [isNaN(d.getTime())] *)
Definition isInvalid (d : Date) : bool :=
  match d with Some _ => false | None => true end.

(** [a <= b] on dates: false when either is invalid. *)
Definition Date_le (a b : Date) : Prop :=
  match a, b with
  | Some x, Some y => x <= y
  | _, _ => False
  end.

(** A time value a [Date] object can hold. *)
Definition valid_instant (d : Date) : Prop :=
  exists t, d = Some t /\ Z.abs t <= maxTime.

End JsDate.
Import JsDate.

(* ------------------------------------------------------------------ *)
(** * [src/utils.ts] *)

Module Utils.

Definition Number_of_digits (s : jsstring) : Z :=
  fold_left (fun acc c => acc * 10 + (Z.of_N c - 48)) s 0.

(** [/^\d{4}-\d{2}-\d{2}$/] *)
Definition dateRegex : regex :=
  Cat Bol (Cat (Times 4 (Class is_digit)) (Cat (Lit "-")
    (Cat (Times 2 (Class is_digit)) (Cat (Lit "-")
      (Cat (Times 2 (Class is_digit)) Eol))))).

(** The strict form [YYYY-MM-DD] said directly: ten units, digits but for
    the two hyphens. [dateRegex_shape] shows the pattern above to mean
    this. *)
Definition is_YYYY_MM_DD (s : jsstring) : bool :=
  match s with
  | [y1; y2; y3; y4; h1; m1; m2; h2; d1; d2] =>
      (is_digit y1 && is_digit y2 && is_digit y3 && is_digit y4
       && N.eqb (char "-") h1 && is_digit m1 && is_digit m2
       && N.eqb (char "-") h2 && is_digit d1 && is_digit d2)%bool
  | _ => false
  end.

(** [dateToYYYYMMDD]: the year is not padded. *)
Definition dateToYYYYMMDD (date : Date) : result jsstring :=
  match date with
  | None => Throw "Invalid Date object"
  | Some t =>
      let y := String_of_int (getFullYear t) in
      let m := padStart 2 "0" (String_of_int (getMonth t + 1)) in
      let d := padStart 2 "0" (String_of_int (getDate t)) in
      Ok (y ++ js "-" ++ m ++ js "-" ++ d)
  end.

(** [YYYYMMDDToDate] *)
Definition YYYYMMDDToDate (yyyymmdd : jsstring) : result Date :=
  if negb (test_literal dateRegex yyyymmdd) then
    Throw "Invalid ISO date format. Expected YYYY-MM-DD"
  else
    match map Number_of_digits (split_on (char "-") yyyymmdd) with
    | [year; month; day] =>
        let date := Date_of_fields year (month - 1) day in
        match date with
        | Some t =>
            if (negb (getFullYear t =? year)
                || negb (getMonth t =? month - 1)
                || negb (getDate t =? day))%bool
            then Throw "Invalid calendar date"
            else Ok date
        | None => Throw "Invalid calendar date"
        end
    | _ => Throw "Invalid calendar date"
    end.

(** The options object handed to the host sanitizer; [None] is an absent
    key. *)
Record SanitizeConfig : Type := mkConfig {
  ALLOWED_TAGS : list jsstring;
  ALLOWED_ATTR : list jsstring;
  KEEP_CONTENT : option bool
}.

(** The host sanitizing primitive, [DOMPurify.sanitize]: it returns a
    string or throws. *)
Definition sanitizer : Type := jsstring -> SanitizeConfig -> result jsstring.

(** What the import of [isomorphic-dompurify] resolves to. *)
Record DOMPurifyModule : Type := mkDOMPurify {
  dp_sanitize : option sanitizer;
  dp_default_sanitize : option sanitizer
}.

(** [getSafeSanitizer]: [dp?.sanitize || dp?.default?.sanitize] if that
    is a function, otherwise [null]. *)
Definition getSafeSanitizer (dp : DOMPurifyModule) : option sanitizer :=
  match dp_sanitize dp with
  | Some f => Some f
  | None => dp_default_sanitize dp
  end.

Definition not_gt (c : char16) : bool := negb (N.eqb c (char ">")).
Definition hash_or_word (c : char16) : bool :=
  (N.eqb c (char "#") || is_word c)%bool.

(** [/<[^>]*>/] *)
Definition anyTag : regex :=
  Cat (Lit "<") (Cat (Star (Class not_gt)) (Lit ">")).

(** [/&[#\w]+;/] *)
Definition anyEntity : regex :=
  Cat (Lit "&") (Cat (Plus (Class hash_or_word)) (Lit ";")).

Definition handlerAttrs : regex :=
  Alts [WordCi "onload="; WordCi "onerror="; WordCi "onclick="].

(** [DANGER_PATTERNS] as the module is loaded: four [RegExp] objects that
    live as long as the module; the last one carries the [g] flag. *)
Definition DANGER_PATTERNS : list RegExp :=
  [ mkRegExp (Alts [WordCi "<svg"; WordCi "<img"; WordCi "<script";
                    WordCi "<iframe"; WordCi "<object"; WordCi "<embed";
                    WordCi "<link"; WordCi "<meta"; WordCi "<style";
                    WordCi "<base"]) false 0;
    mkRegExp handlerAttrs false 0;
    mkRegExp (Alts [WordCi "javascript:"; WordCi "data:"]) false 0;
    mkRegExp (Alt anyTag anyEntity) true 0 ].

(** [patterns.some((pattern) => pattern.test(input))]: the patterns are
    tested in order until one matches; each tested object keeps what the
    test wrote to it. *)
Fixpoint some_test (patterns : list RegExp) (input : jsstring)
  : bool * list RegExp :=
  match patterns with
  | [] => (false, [])
  | p :: rest =>
      let (hit, p') := test p input in
      if hit then (true, p' :: rest)
      else let (hit', rest') := some_test rest input in
           (hit', p' :: rest')
  end.

Section WithSanitizer.

(** The module-level constant [internalSanitize]. *)
Variable internalSanitize : option sanitizer.

(** [checkForHTMLTags]. The array of patterns is module state: the call
    takes it as it stands and returns it as it leaves it. *)
Definition checkForHTMLTags (patterns : list RegExp) (input : jsstring)
  : bool * list RegExp :=
  if (is_empty input || is_empty (trim input))%bool then (false, patterns)
  else
    let (hasPatterns, patterns') := some_test patterns input in
    if hasPatterns then (true, patterns')
    else
      match internalSanitize with
      | Some sanitize =>
          match sanitize input (mkConfig [] [] None) with
          | Ok clean =>
              (negb (JsString.eqb (trim input) (trim clean)), patterns')
          | Throw _ => (false, patterns')
          end
      | None => (false, patterns')
      end.

(** The body of the [catch] block of [sanitizeInput]. *)
Definition hardenedFallback (input : jsstring) : jsstring :=
  let hardened :=
    replace_all handlerAttrs (js "prevented=")
      (replace_all (WordCi "data:") (js "[removed]")
         (replace_all (WordCi "javascript:") (js "[removed]") input)) in
  trim (replace_all anyTag [] hardened).

(** [sanitizeInput]: the [try] block returns when the sanitizer is
    there and answers; the [catch] block runs when it throws; the
    statement after the [try] runs when there is no sanitizer. *)
Definition sanitizeInput (input : jsstring) : jsstring :=
  if is_empty input then []
  else
    match internalSanitize with
    | Some sanitize =>
        match sanitize input (mkConfig [] [] (Some true)) with
        | Ok clean => trim clean
        | Throw _ => hardenedFallback input
        end
    | None => trim input
    end.

End WithSanitizer.

End Utils.
Import Utils.

(* ------------------------------------------------------------------ *)
(** * [src/types.ts] *)

Module Types.

(** A value of type [unknown] or [any] that the class stores or copies
    without looking inside. *)
Inductive jsval : Type :=
| VUndefined
| VNull
| VBool (b : bool)
| VNumber (n : Z)
| VString (s : jsstring).

(** [!v] negated: the truthiness of a value. *)
Definition truthy (v : jsval) : bool :=
  match v with
  | VUndefined | VNull => false
  | VBool b => b
  | VNumber n => negb (n =? 0)
  | VString s => negb (is_empty s)
  end.

(** An optional string property: absent, or a string. *)
Definition truthy_str (o : option jsstring) : bool :=
  match o with
  | Some s => negb (is_empty s)
  | None => false
  end.

(** A plain object used as a map from keys to values, in insertion
    order. *)
Definition object (V : Type) : Type := list (jsstring * V).

(** [obj[key] = v] *)
Fixpoint obj_set {V : Type} (key : jsstring) (v : V) (obj : object V)
  : object V :=
  match obj with
  | [] => [(key, v)]
  | (k, w) :: rest =>
      if JsString.eqb k key then (k, v) :: rest
      else (k, w) :: obj_set key v rest
  end.

(** [obj[key]] *)
Fixpoint obj_get {V : Type} (key : jsstring) (obj : object V) : option V :=
  match obj with
  | [] => None
  | (k, w) :: rest => if JsString.eqb k key then Some w else obj_get key rest
  end.

(** [delete obj[key]] *)
Fixpoint obj_delete {V : Type} (key : jsstring) (obj : object V)
  : object V :=
  match obj with
  | [] => []
  | (k, w) :: rest =>
      if JsString.eqb k key then rest else (k, w) :: obj_delete key rest
  end.

(** [{ ...a, ...b }] *)
Definition obj_spread {V : Type} (a b : object V) : object V :=
  fold_left (fun acc kv => obj_set (fst kv) (snd kv) acc) b a.

Inductive UserGenderOptions : Type := Male | Female | Other.

Record FullName : Type := mkFullName {
  first_name : jsstring;
  last_name : jsstring;
  middle_name : option jsstring;
  suffix : option jsstring
}.

(** The two coordinates are numbers that are only carried along; they
    stand here as the integers of their bit patterns. *)
Record Address : Type := mkAddress {
  country : option jsstring;
  city : option jsstring;
  region : option jsstring;
  area : option jsstring;
  street : option jsstring;
  building : option jsstring;
  zip : option jsstring;
  country_code : option jsstring;
  coordinates : option (Z * Z)
}.

Record ContactInformation : Type := mkContact {
  contact_email : option jsstring;
  contact_phone : option jsstring;
  website : option jsstring
}.

Record CompanyInformation : Type := mkCompany {
  company_name : jsstring;
  role : jsstring;
  contact : ContactInformation;
  company_address : option jsstring
}.

Record Verification : Type := mkVerification {
  email_verified : bool;
  phone_verified : bool;
  identity_verified : bool
}.

Record UserBasicInformation : Type := mkInfo {
  name : option FullName;
  picture : option jsstring;
  phone : option jsstring;
  gender : option UserGenderOptions;
  birthdate : option jsstring;
  address : option Address;
  pronouns : option jsstring;
  bio : option jsstring;
  language : option jsstring;
  timezone : option jsstring;
  verification : option Verification;
  social_links : option (object jsstring);
  company : option CompanyInformation
}.

(** [{}] as metadata. *)
Definition noInfo : UserBasicInformation :=
  mkInfo None None None None None None None None None None None None None.

Record SystemSettings : Type := mkSystem {
  isRestricted : bool;
  restrictedUntil : option Date
}.

(** [extra] holds the keys of the index signature, those other than
    [notifications] and [system]. *)
Record UserSettings : Type := mkSettings {
  notifications : bool;
  system : SystemSettings;
  extra : object jsval
}.

(** [MajikUserJSON] as [fromJSON] receives it: the four fields it checks
    are of any type, the others are absent or of their declared type. *)
Record MajikUserJSON : Type := mkJSON {
  json_id : jsval;
  json_email : jsval;
  json_displayName : jsval;
  json_hash : jsval;
  json_metadata : option UserBasicInformation;
  json_settings : option UserSettings;
  json_createdAt : option jsstring;
  json_lastUpdate : option jsstring
}.

(** The keys of [user_metadata] that [fromSupabase] reads. *)
Record SupabaseUserMetadata : Type := mkUserMeta {
  um_display_name : option jsstring;
  um_full_name : option jsstring;
  um_name : option jsstring;
  um_first_name : option jsstring;
  um_family_name : option jsstring;
  um_middle_name : option jsstring;
  um_suffix : option jsstring;
  um_picture : option jsstring;
  um_avatar_url : option jsstring;
  um_bio : option jsstring;
  um_phone : option jsstring;
  um_gender : option UserGenderOptions;
  um_birthdate : option jsstring;
  um_language : option jsstring;
  um_timezone : option jsstring;
  um_pronouns : option jsstring;
  um_address : option Address;
  um_social_links : option (object jsstring);
  um_company : option CompanyInformation
}.

(** [app_metadata]: the three keys [fromSupabase] reads by name, and
    every other key. *)
Record SupabaseUserAppMetadata : Type := mkAppMeta {
  am_notifications : option bool;
  am_is_restricted : option bool;
  am_restricted_until : option jsstring;
  am_other : object jsval
}.

Record SupabaseUser : Type := mkSupabaseUser {
  su_id : jsstring;
  su_email : option jsstring;
  su_user_metadata : option SupabaseUserMetadata;
  su_app_metadata : option SupabaseUserAppMetadata;
  su_created_at : jsstring;
  su_updated_at : option jsstring;
  su_email_confirmed_at : option jsstring;
  su_phone_confirmed_at : option jsstring
}.

End Types.
Import Types.

(* ------------------------------------------------------------------ *)
(** * [src/core/majik-user.ts] *)

Module User.

(** [MajikUserData], the argument of the constructor. *)
Record MajikUserData : Type := mkData {
  data_id : jsstring;
  data_email : jsstring;
  data_displayName : jsstring;
  data_hash : jsstring;
  data_metadata : UserBasicInformation;
  data_settings : UserSettings;
  data_createdAt : Date;
  data_lastUpdate : Date
}.

(** The fields of a [MajikUser] instance. *)
Record MajikUser : Type := mkUser {
  id : jsstring;
  _email : jsstring;
  _displayName : jsstring;
  _hash : jsstring;
  _metadata : UserBasicInformation;
  _settings : UserSettings;
  createdAt : Date;
  _lastUpdate : Date
}.

Definition constructor (data : MajikUserData) : MajikUser :=
  mkUser (data_id data) (data_email data) (data_displayName data)
    (data_hash data) (data_metadata data) (data_settings data)
    (Date_of_Date (data_createdAt data))
    (Date_of_Date (data_lastUpdate data)).

(** Assignments to one field of [this]. *)
Definition with_email (v : jsstring) (u : MajikUser) : MajikUser :=
  mkUser (id u) v (_displayName u) (_hash u) (_metadata u) (_settings u)
    (createdAt u) (_lastUpdate u).

Definition with_displayName (v : jsstring) (u : MajikUser) : MajikUser :=
  mkUser (id u) (_email u) v (_hash u) (_metadata u) (_settings u)
    (createdAt u) (_lastUpdate u).

Definition with_hash (v : jsstring) (u : MajikUser) : MajikUser :=
  mkUser (id u) (_email u) (_displayName u) v (_metadata u) (_settings u)
    (createdAt u) (_lastUpdate u).

Definition with_metadata (v : UserBasicInformation) (u : MajikUser)
  : MajikUser :=
  mkUser (id u) (_email u) (_displayName u) (_hash u) v (_settings u)
    (createdAt u) (_lastUpdate u).

Definition with_settings (v : UserSettings) (u : MajikUser) : MajikUser :=
  mkUser (id u) (_email u) (_displayName u) (_hash u) (_metadata u) v
    (createdAt u) (_lastUpdate u).

(** [updateTimestamp]: [now] is what [new Date()] answers. *)
Definition updateTimestamp (now : Z) (u : MajikUser) : MajikUser :=
  mkUser (id u) (_email u) (_displayName u) (_hash u) (_metadata u)
    (_settings u) (createdAt u) (Some now).

(** [/^[^\s@]+@[^\s@]+\.[^\s@]+$/] *)
Definition notSpaceAt (c : char16) : bool :=
  negb (is_space c || N.eqb c (char "@")).

Definition emailRegex : regex :=
  Cat Bol (Cat (Plus (Class notSpaceAt)) (Cat (Lit "@")
    (Cat (Plus (Class notSpaceAt)) (Cat (Lit ".")
      (Cat (Plus (Class notSpaceAt)) Eol))))).

(** [/^\+?[1-9]\d{1,14}$/] *)
Definition phoneRegex : regex :=
  Cat Bol (Cat (Opt (Lit "+")) (Cat (Class (in_range 49 57))
    (Cat (Range 1 14 (Class is_digit)) Eol))).

Definition validateEmail (email : jsstring) : result unit :=
  if negb (test_literal emailRegex email)
  then Throw "Invalid email format"
  else Ok tt.

Definition defaultVerification : Verification :=
  mkVerification false false false.

Definition defaultSettings : UserSettings :=
  mkSettings true (mkSystem false None) [].

(** ** Factories *)

Section Factories.

(** [MajikUser.hashID]: SHA-256 of the identifier in Base64, from
    [@stablelib/sha256]. *)
Variable hashID : jsstring -> jsstring.

(** [initialize]. [generated] is what [generateID] answers; [now1] and
    [now2] are the two readings of the clock, in the order taken. *)
Definition initialize (email displayName : jsstring)
  (id_ : option jsstring) (generated : jsstring) (now1 now2 : Z)
  : result MajikUser :=
  if is_empty email then Throw "Email cannot be empty"
  else if is_empty displayName then Throw "Display name cannot be empty"
  else
    let userID :=
      match id_ with
      | Some i => if is_empty (trim i) then generated else i
      | None => generated
      end in
    let instance :=
      constructor
        (mkData userID email displayName (hashID userID)
           (mkInfo None None None None None None None None None None
              (Some (mkVerification false false false)) None None)
           (mkSettings true (mkSystem false None) [])
           (Some now1) (Some now2)) in
    _ <- validateEmail email ;;
    Ok instance.

(** The first truthy operand of a chain of [||] that ends in a
    string. *)
Fixpoint first_truthy (operands : list (option jsstring))
  (last : jsstring) : jsstring :=
  match operands with
  | [] => last
  | Some s :: rest => if is_empty s then first_truthy rest last else s
  | None :: rest => first_truthy rest last
  end.

(** [if (x) metadata.key = x] for a string [x]. *)
Definition if_truthy (o : option jsstring) : option jsstring :=
  if truthy_str o then o else None.

Definition reserved_key (k : jsstring) : bool :=
  existsb (JsString.eqb k)
    [js "notifications"; js "is_restricted"; js "restricted_until"].

Definition metadata_of_supabase (su : SupabaseUser)
  : UserBasicInformation :=
  let v := mkVerification (truthy_str (su_email_confirmed_at su))
             (truthy_str (su_phone_confirmed_at su)) false in
  match su_user_metadata su with
  | None =>
      mkInfo None None None None None None None None None None
        (Some v) None None
  | Some um =>
      mkInfo
        (if (truthy_str (um_first_name um)
             || truthy_str (um_family_name um))%bool
         then Some (mkFullName (first_truthy [um_first_name um] [])
                      (first_truthy [um_family_name um] [])
                      (um_middle_name um) (um_suffix um))
         else None)
        (if_truthy (if truthy_str (um_picture um) then um_picture um
                    else um_avatar_url um))
        (if_truthy (um_phone um))
        (um_gender um)
        (if_truthy (um_birthdate um))
        (um_address um)
        (if_truthy (um_pronouns um))
        (if_truthy (um_bio um))
        (if_truthy (um_language um))
        (if_truthy (um_timezone um))
        (Some v)
        (um_social_links um)
        (um_company um)
  end.

Definition settings_of_supabase (su : SupabaseUser) : UserSettings :=
  match su_app_metadata su with
  | None => mkSettings true (mkSystem false None) []
  | Some am =>
      mkSettings
        (match am_notifications am with Some b => b | None => true end)
        (mkSystem
           (match am_is_restricted am with Some b => b | None => false end)
           (match am_restricted_until am with
            | Some s => if is_empty s then None
                        else Some (Date_of_string s)
            | None => None
            end))
        (fold_left
           (fun acc kv =>
              if reserved_key (fst kv) then acc
              else obj_set (fst kv) (snd kv) acc)
           (am_other am) [])
  end.

(** [fromSupabase] *)
Definition fromSupabase (su : SupabaseUser) : result MajikUser :=
  if is_empty (su_id su) then Throw "Invalid Supabase user: missing id"
  else
    match su_email su with
    | None => Throw "Invalid Supabase user: missing email"
    | Some email =>
        if is_empty email then Throw "Invalid Supabase user: missing email"
        else
          let um f :=
            match su_user_metadata su with
            | Some m => f m
            | None => None
            end in
          let displayName :=
            first_truthy
              [um um_display_name; um um_full_name; um um_name]
              (hd [] (split_on (char "@") email)) in
          Ok (constructor
                (mkData (su_id su) email displayName (hashID (su_id su))
                   (metadata_of_supabase su) (settings_of_supabase su)
                   (Date_of_string (su_created_at su))
                   (Date_of_string
                      (first_truthy [su_updated_at su]
                         (su_created_at su)))))
    end.

End Factories.

(** A field that [fromJSON] requires: a non-empty string. *)
Definition required_string (v : jsval) (what : string)
  : result jsstring :=
  match v with
  | VString s =>
      if is_empty s then Throw ("Invalid user data: missing or invalid " ++ what)
      else Ok s
  | _ => Throw ("Invalid user data: missing or invalid " ++ what)
  end.

(** [value ? new Date(value) : new Date()] *)
Definition date_or_now (value : option jsstring) (now : Z) : Date :=
  match value with
  | Some s => if is_empty s then Some now else Date_of_string s
  | None => Some now
  end.

(** [fromJSON] on a parsed payload. [now1] and [now2] are what the clock
    answers if it is read for [createdAt] and for [lastUpdate]. *)
Definition fromJSON (data : MajikUserJSON) (now1 now2 : Z)
  : result MajikUser :=
  i <- required_string (json_id data) "id" ;;
  e <- required_string (json_email data) "email" ;;
  n <- required_string (json_displayName data) "displayName" ;;
  h <- required_string (json_hash data) "hash" ;;
  Ok (constructor
        (mkData i e n h
           (match json_metadata data with Some m => m | None => noInfo end)
           (match json_settings data with
            | Some s => s
            | None => mkSettings true (mkSystem false None) []
            end)
           (date_or_now (json_createdAt data) now1)
           (date_or_now (json_lastUpdate data) now2))).

(** ** Getters *)

Definition email (u : MajikUser) : jsstring := _email u.
Definition displayName (u : MajikUser) : jsstring := _displayName u.
Definition hash (u : MajikUser) : jsstring := _hash u.
Definition metadata (u : MajikUser) : UserBasicInformation := _metadata u.
Definition settings (u : MajikUser) : UserSettings := _settings u.
Definition lastUpdate (u : MajikUser) : Date := Date_of_Date (_lastUpdate u).

Definition isEmailVerified (u : MajikUser) : bool :=
  match verification (_metadata u) with
  | Some v => email_verified v
  | None => false
  end.

Definition isPhoneVerified (u : MajikUser) : bool :=
  match verification (_metadata u) with
  | Some v => phone_verified v
  | None => false
  end.

Definition isIdentityVerified (u : MajikUser) : bool :=
  match verification (_metadata u) with
  | Some v => identity_verified v
  | None => false
  end.

(** ** Metadata *)

(** One key of a [Partial<TMetadata>] with its value; [None] is the
    value [undefined]. *)
Inductive MetaUpdate : Type :=
| U_name (v : option FullName)
| U_picture (v : option jsstring)
| U_phone (v : option jsstring)
| U_gender (v : option UserGenderOptions)
| U_birthdate (v : option jsstring)
| U_address (v : option Address)
| U_pronouns (v : option jsstring)
| U_bio (v : option jsstring)
| U_language (v : option jsstring)
| U_timezone (v : option jsstring)
| U_verification (v : option Verification)
| U_social_links (v : option (object jsstring))
| U_company (v : option CompanyInformation).

(** [{ ...m, key: v }] *)
Definition assign (m : UserBasicInformation) (upd : MetaUpdate)
  : UserBasicInformation :=
  match upd with
  | U_name v =>
      mkInfo v (picture m) (phone m) (gender m) (birthdate m) (address m)
        (pronouns m) (bio m) (language m) (timezone m) (verification m)
        (social_links m) (company m)
  | U_picture v =>
      mkInfo (name m) v (phone m) (gender m) (birthdate m) (address m)
        (pronouns m) (bio m) (language m) (timezone m) (verification m)
        (social_links m) (company m)
  | U_phone v =>
      mkInfo (name m) (picture m) v (gender m) (birthdate m) (address m)
        (pronouns m) (bio m) (language m) (timezone m) (verification m)
        (social_links m) (company m)
  | U_gender v =>
      mkInfo (name m) (picture m) (phone m) v (birthdate m) (address m)
        (pronouns m) (bio m) (language m) (timezone m) (verification m)
        (social_links m) (company m)
  | U_birthdate v =>
      mkInfo (name m) (picture m) (phone m) (gender m) v (address m)
        (pronouns m) (bio m) (language m) (timezone m) (verification m)
        (social_links m) (company m)
  | U_address v =>
      mkInfo (name m) (picture m) (phone m) (gender m) (birthdate m) v
        (pronouns m) (bio m) (language m) (timezone m) (verification m)
        (social_links m) (company m)
  | U_pronouns v =>
      mkInfo (name m) (picture m) (phone m) (gender m) (birthdate m)
        (address m) v (bio m) (language m) (timezone m) (verification m)
        (social_links m) (company m)
  | U_bio v =>
      mkInfo (name m) (picture m) (phone m) (gender m) (birthdate m)
        (address m) (pronouns m) v (language m) (timezone m)
        (verification m) (social_links m) (company m)
  | U_language v =>
      mkInfo (name m) (picture m) (phone m) (gender m) (birthdate m)
        (address m) (pronouns m) (bio m) v (timezone m) (verification m)
        (social_links m) (company m)
  | U_timezone v =>
      mkInfo (name m) (picture m) (phone m) (gender m) (birthdate m)
        (address m) (pronouns m) (bio m) (language m) v (verification m)
        (social_links m) (company m)
  | U_verification v =>
      mkInfo (name m) (picture m) (phone m) (gender m) (birthdate m)
        (address m) (pronouns m) (bio m) (language m) (timezone m) v
        (social_links m) (company m)
  | U_social_links v =>
      mkInfo (name m) (picture m) (phone m) (gender m) (birthdate m)
        (address m) (pronouns m) (bio m) (language m) (timezone m)
        (verification m) v (company m)
  | U_company v =>
      mkInfo (name m) (picture m) (phone m) (gender m) (birthdate m)
        (address m) (pronouns m) (bio m) (language m) (timezone m)
        (verification m) (social_links m) v
  end.

(** [{ ...m, ...updates }] *)
Definition merge (m : UserBasicInformation) (updates : list MetaUpdate)
  : UserBasicInformation :=
  fold_left assign updates m.

(** [updateMetadata] *)
Definition updateMetadata (updates : list MetaUpdate) (now : Z)
  (u : MajikUser) : MajikUser :=
  updateTimestamp now (with_metadata (merge (_metadata u) updates) u).

(** [setMetadata] *)
Definition setMetadata (upd : MetaUpdate) (now : Z) (u : MajikUser)
  : MajikUser :=
  updateTimestamp now (with_metadata (assign (_metadata u) upd) u).

(** [this._metadata.verification.key = false], under
    [if (this._metadata.verification)]. *)
Definition clear_email_verified (u : MajikUser) : MajikUser :=
  match verification (_metadata u) with
  | Some v =>
      with_metadata
        (assign (_metadata u)
           (U_verification
              (Some (mkVerification false (phone_verified v)
                       (identity_verified v))))) u
  | None => u
  end.

Definition clear_phone_verified (u : MajikUser) : MajikUser :=
  match verification (_metadata u) with
  | Some v =>
      with_metadata
        (assign (_metadata u)
           (U_verification
              (Some (mkVerification (email_verified v) false
                       (identity_verified v))))) u
  | None => u
  end.

(** ** Setters *)

(** [set fullNameObject] *)
Definition set_fullNameObject (value : FullName) (now : Z) (u : MajikUser)
  : result MajikUser :=
  if (is_empty (trim (first_name value))
      || is_empty (trim (last_name value)))%bool
  then Throw "Full name must contain first and last names"
  else Ok (updateTimestamp now
             (with_metadata (assign (_metadata u) (U_name (Some value))) u)).

(** [set email] *)
Definition set_email (value : jsstring) (now : Z) (u : MajikUser)
  : result MajikUser :=
  _ <- validateEmail value ;;
  Ok (updateTimestamp now (clear_email_verified (with_email value u))).

(** [set displayName] *)
Definition set_displayName (value : jsstring) (now : Z) (u : MajikUser)
  : result MajikUser :=
  if (is_empty value || (List.length (trim value) =? 0)%nat)%bool
  then Throw "Display name cannot be empty"
  else Ok (updateTimestamp now (with_displayName value u)).

(** [set hash] *)
Definition set_hash (value : jsstring) (now : Z) (u : MajikUser)
  : result MajikUser :=
  if (is_empty value || (List.length value =? 0)%nat)%bool
  then Throw "Hash cannot be empty"
  else Ok (updateTimestamp now (with_hash value u)).

Definition setName (value : FullName) (now : Z) (u : MajikUser)
  : MajikUser :=
  updateMetadata [U_name (Some value)] now u.

Definition setPicture (url : jsstring) (now : Z) (u : MajikUser)
  : MajikUser :=
  updateMetadata [U_picture (Some url)] now u.

Definition setPhone (value : jsstring) (now : Z) (u : MajikUser)
  : MajikUser :=
  clear_phone_verified (updateMetadata [U_phone (Some value)] now u).

Definition setAddress (value : Address) (now : Z) (u : MajikUser)
  : MajikUser :=
  updateMetadata [U_address (Some value)] now u.

(** [setBirthdate]: the argument is a string or a [Date]. *)
Definition setBirthdate (value : jsstring + Date) (now : Z)
  (u : MajikUser) : result MajikUser :=
  formatted <-
    match value with
    | inr d =>
        if isInvalid d then Throw "Invalid Date object"
        else dateToYYYYMMDD d
    | inl s =>
        if negb (test_literal dateRegex s)
        then Throw "Invalid birthdate format. Use YYYY-MM-DD"
        else Ok s
    end ;;
  Ok (updateMetadata [U_birthdate (Some formatted)] now u).

Definition setGender (value : UserGenderOptions) (now : Z) (u : MajikUser)
  : MajikUser :=
  updateMetadata [U_gender (Some value)] now u.

Definition setBio (value : jsstring) (now : Z) (u : MajikUser)
  : MajikUser :=
  updateMetadata [U_bio (Some value)] now u.

Definition setLanguage (value : jsstring) (now : Z) (u : MajikUser)
  : MajikUser :=
  updateMetadata [U_language (Some value)] now u.

Definition setTimezone (value : jsstring) (now : Z) (u : MajikUser)
  : MajikUser :=
  updateMetadata [U_timezone (Some value)] now u.

(** [setSocialLink] *)
Definition setSocialLink (platform url : jsstring) (now : Z)
  (u : MajikUser) : MajikUser :=
  let socialLinks :=
    obj_set platform url
      (match social_links (_metadata u) with
       | Some links => links
       | None => []
       end) in
  updateMetadata [U_social_links (Some socialLinks)] now u.

(** [removeSocialLink] *)
Definition removeSocialLink (platform : jsstring) (now : Z)
  (u : MajikUser) : MajikUser :=
  match social_links (_metadata u) with
  | None => u
  | Some links =>
      updateMetadata [U_social_links (Some (obj_delete platform links))]
        now u
  end.

(** ** Verification *)

Definition currentVerification (u : MajikUser) : Verification :=
  match verification (_metadata u) with
  | Some v => v
  | None => mkVerification false false false
  end.

Definition put_email_verified (b : bool) (now : Z) (u : MajikUser)
  : MajikUser :=
  let v := currentVerification u in
  updateMetadata
    [U_verification
       (Some (mkVerification b (phone_verified v) (identity_verified v)))]
    now u.

Definition put_phone_verified (b : bool) (now : Z) (u : MajikUser)
  : MajikUser :=
  let v := currentVerification u in
  updateMetadata
    [U_verification
       (Some (mkVerification (email_verified v) b (identity_verified v)))]
    now u.

Definition put_identity_verified (b : bool) (now : Z) (u : MajikUser)
  : MajikUser :=
  let v := currentVerification u in
  updateMetadata
    [U_verification
       (Some (mkVerification (email_verified v) (phone_verified v) b))]
    now u.

Definition verifyEmail := put_email_verified true.
Definition unverifyEmail := put_email_verified false.
Definition verifyPhone := put_phone_verified true.
Definition unverifyPhone := put_phone_verified false.
Definition verifyIdentity := put_identity_verified true.
Definition unverifyIdentity := put_identity_verified false.

(** ** Settings *)

(** The argument pair of [setSetting]: a key with a value of the type
    declared for it. *)
Inductive SettingUpdate : Type :=
| S_notifications (b : bool)
| S_system (sys : SystemSettings)
| S_extra (key : jsstring) (v : jsval).

(** [setSetting] *)
Definition setSetting (upd : SettingUpdate) (now : Z) (u : MajikUser)
  : MajikUser :=
  let s := _settings u in
  updateTimestamp now
    (with_settings
       (match upd with
        | S_notifications b => mkSettings b (system s) (extra s)
        | S_system sys => mkSettings (notifications s) sys (extra s)
        | S_extra key v =>
            mkSettings (notifications s) (system s) (obj_set key v (extra s))
        end) u).

(** The [system] key of a [Partial<UserSettings>]. [sys_restrictedUntil]
    tells an absent key ([None]) from a key that is there, whatever its
    value ([Some]). *)
Record SystemUpdate : Type := mkSystemUpdate {
  sys_isRestricted : bool;
  sys_restrictedUntil : option (option Date)
}.

Record SettingsUpdates : Type := mkSettingsUpdates {
  upd_notifications : option bool;
  upd_system : option SystemUpdate;
  upd_extra : object jsval
}.

(** [updateSettings] *)
Definition updateSettings (updates : SettingsUpdates) (now : Z)
  (u : MajikUser) : MajikUser :=
  let s := _settings u in
  updateTimestamp now
    (with_settings
       (mkSettings
          (match upd_notifications updates with
           | Some b => b
           | None => notifications s
           end)
          (match upd_system updates with
           | Some sys =>
               mkSystem (sys_isRestricted sys)
                 (match sys_restrictedUntil sys with
                  | Some d => d
                  | None => restrictedUntil (system s)
                  end)
           | None => system s
           end)
          (obj_spread (extra s) (upd_extra updates))) u).

Definition enableNotifications (now : Z) (u : MajikUser) : MajikUser :=
  updateSettings (mkSettingsUpdates (Some true) None []) now u.

Definition disableNotifications (now : Z) (u : MajikUser) : MajikUser :=
  updateSettings (mkSettingsUpdates (Some false) None []) now u.

(** [restrict(until?)] *)
Definition restrict (until : option Date) (now : Z) (u : MajikUser)
  : MajikUser :=
  updateSettings
    (mkSettingsUpdates None (Some (mkSystemUpdate true (Some until))) [])
    now u.

Definition unrestrict (now : Z) (u : MajikUser) : MajikUser :=
  updateSettings
    (mkSettingsUpdates None (Some (mkSystemUpdate false (Some None))) [])
    now u.

(** ** Validation and serialization *)

Record ValidationReport : Type := mkReport {
  isValid : bool;
  errors : list string
}.

Definition push_if (b : bool) (message : string) (errs : list string)
  : list string :=
  if b then errs ++ [message] else errs.

(** [validate]: the statements of the method in their order, each one
    appending to [errors]. *)
Definition validate (u : MajikUser) : ValidationReport :=
  let errs := [] in
  let errs := push_if (is_empty (id u)) "ID is required" errs in
  let errs := push_if (is_empty (_email u)) "Email is required" errs in
  let errs :=
    push_if (is_empty (_displayName u)) "Display name is required" errs in
  let errs := push_if (is_empty (_hash u)) "Hash is required" errs in
  let errs :=
    match validateEmail (_email u) with
    | Ok _ => errs
    | Throw e => errs ++ [("Invalid email format: " ++ ("Error: " ++ e))%string]
    end in
  let errs := push_if (isInvalid (createdAt u)) "Invalid createdAt date" errs in
  let errs :=
    push_if (isInvalid (_lastUpdate u)) "Invalid lastUpdate date" errs in
  let errs :=
    match phone (_metadata u) with
    | Some p =>
        push_if (negb (is_empty p) && negb (test_literal phoneRegex p))
          "Invalid phone number format" errs
    | None => errs
    end in
  let errs :=
    match birthdate (_metadata u) with
    | Some b =>
        push_if (negb (is_empty b) && negb (test_literal dateRegex b))
          "Invalid birthdate format" errs
    | None => errs
    end in
  mkReport (Nat.eqb (List.length errs) 0) errs.

(** [clone] *)
Definition clone (u : MajikUser) : MajikUser :=
  constructor
    (mkData (id u) (_email u) (_displayName u) (_hash u) (_metadata u)
       (_settings u) (createdAt u) (_lastUpdate u)).

(** [toJSON]: [toISOString] throws on an invalid date. *)
Definition toJSON (u : MajikUser) : result MajikUserJSON :=
  c <- toISOString (createdAt u) ;;
  l <- toISOString (_lastUpdate u) ;;
  Ok (mkJSON (VString (id u)) (VString (_email u))
        (VString (_displayName u)) (VString (_hash u))
        (Some (_metadata u)) (Some (_settings u)) (Some c) (Some l)).

(** ** The public mutating operations *)

Inductive call : Type :=
| Set_fullNameObject (value : FullName)
| Set_email (value : jsstring)
| Set_displayName (value : jsstring)
| Set_hash (value : jsstring)
| SetName (value : FullName)
| SetPicture (url : jsstring)
| SetPhone (value : jsstring)
| SetAddress (value : Address)
| SetBirthdate (value : jsstring + Date)
| SetGender (value : UserGenderOptions)
| SetBio (value : jsstring)
| SetLanguage (value : jsstring)
| SetTimezone (value : jsstring)
| SetSocialLink (platform url : jsstring)
| RemoveSocialLink (platform : jsstring)
| SetMetadata (upd : MetaUpdate)
| UpdateMetadata (updates : list MetaUpdate)
| VerifyEmail
| UnverifyEmail
| VerifyPhone
| UnverifyPhone
| VerifyIdentity
| UnverifyIdentity
| SetSetting (upd : SettingUpdate)
| UpdateSettings (updates : SettingsUpdates)
| EnableNotifications
| DisableNotifications
| Restrict (until : option Date)
| Unrestrict.

(** One call on [u] when the clock reads [now]. *)
Definition exec (c : call) (now : Z) (u : MajikUser) : result MajikUser :=
  match c with
  | Set_fullNameObject v => set_fullNameObject v now u
  | Set_email v => set_email v now u
  | Set_displayName v => set_displayName v now u
  | Set_hash v => set_hash v now u
  | SetName v => Ok (setName v now u)
  | SetPicture v => Ok (setPicture v now u)
  | SetPhone v => Ok (setPhone v now u)
  | SetAddress v => Ok (setAddress v now u)
  | SetBirthdate v => setBirthdate v now u
  | SetGender v => Ok (setGender v now u)
  | SetBio v => Ok (setBio v now u)
  | SetLanguage v => Ok (setLanguage v now u)
  | SetTimezone v => Ok (setTimezone v now u)
  | SetSocialLink p v => Ok (setSocialLink p v now u)
  | RemoveSocialLink p => Ok (removeSocialLink p now u)
  | SetMetadata upd => Ok (setMetadata upd now u)
  | UpdateMetadata updates => Ok (updateMetadata updates now u)
  | VerifyEmail => Ok (verifyEmail now u)
  | UnverifyEmail => Ok (unverifyEmail now u)
  | VerifyPhone => Ok (verifyPhone now u)
  | UnverifyPhone => Ok (unverifyPhone now u)
  | VerifyIdentity => Ok (verifyIdentity now u)
  | UnverifyIdentity => Ok (unverifyIdentity now u)
  | SetSetting upd => Ok (setSetting upd now u)
  | UpdateSettings updates => Ok (updateSettings updates now u)
  | EnableNotifications => Ok (enableNotifications now u)
  | DisableNotifications => Ok (disableNotifications now u)
  | Restrict until => Ok (restrict until now u)
  | Unrestrict => Ok (unrestrict now u)
  end.

(** A history: calls with the clock reading of each, run in order until
    one throws. *)
Fixpoint run (history : list (call * Z)) (u : MajikUser)
  : result MajikUser :=
  match history with
  | [] => Ok u
  | (c, now) :: rest => u' <- exec c now u ;; run rest u'
  end.

(** The clock never goes back: the readings of a history are in order,
    starting no earlier than [t]. *)
Fixpoint clock_ordered (t : Z) (history : list (call * Z)) : Prop :=
  match history with
  | [] => True
  | (_, now) :: rest => t <= now /\ clock_ordered now rest
  end.

(** [createdAt <= lastUpdate <= t], all three being instants. *)
Definition timestamps_ok (t : Z) (u : MajikUser) : Prop :=
  exists c l, createdAt u = Some c /\ _lastUpdate u = Some l /\ c <= l <= t.

(** What [toJSON] can write and [fromJSON] accepts: the four strings are
    not empty and the two timestamps are valid instants. *)
Definition storable (u : MajikUser) : Prop :=
  id u <> [] /\ _email u <> [] /\ _displayName u <> [] /\ _hash u <> []
  /\ valid_instant (createdAt u) /\ valid_instant (_lastUpdate u).

(** Every clock reading of a history is an instant a [Date] can hold. *)
Definition clock_in_range (history : list (call * Z)) : Prop :=
  Forall (fun entry => Z.abs (snd entry) <= maxTime) history.

(** The last clock reading of a history that starts at [t]. *)
Fixpoint last_reading (t : Z) (history : list (call * Z)) : Z :=
  match history with
  | [] => t
  | (_, now) :: rest => last_reading now rest
  end.

End User.
Import User.

(* ------------------------------------------------------------------ *)
(** * Sample data *)

Module Examples.

Definition verified_info : UserBasicInformation :=
  mkInfo None None None None None None None None None None
    (Some (mkVerification true true true)) None None.

(** A user whose three verification flags are set. *)
Definition verified_user : MajikUser :=
  mkUser (js "u-1") (js "old@example.com") (js "Josef") (js "aGFzaA==")
    verified_info defaultSettings (Some 1000) (Some 2000).

(** A user without email, with a phone and a birthdate that do not have
    the expected shape. *)
Definition broken_user : MajikUser :=
  mkUser (js "u-2") [] (js "Josef") (js "aGFzaA==")
    (assign (assign noInfo (U_phone (Some (js "0123"))))
       (U_birthdate (Some (js "30/02/2023"))))
    defaultSettings (Some 1000) (Some 2000).

Definition payload (created updated : option jsstring) : MajikUserJSON :=
  mkJSON (VString (js "u-3")) (VString (js "a@b.co"))
    (VString (js "Josef")) (VString (js "aGFzaA=="))
    None None created updated.

(** A payload whose [createdAt] is in the date-time format but beyond the
    last instant a [Date] can hold. *)
Definition payload_out_of_range : MajikUserJSON :=
  payload (Some (js "+275761-01-01T00:00:00.000Z"))
    (Some (js "2024-01-01T00:00:00.000Z")).

(** A payload updated four years before it was created. *)
Definition payload_backwards : MajikUserJSON :=
  payload (Some (js "2024-01-01T00:00:00.000Z"))
    (Some (js "2020-01-01T00:00:00.000Z")).

(** A payload updated in 2030. *)
Definition payload_ahead : MajikUserJSON :=
  payload (Some (js "2024-01-01T00:00:00.000Z"))
    (Some (js "2030-01-01T00:00:00.000Z")).

(** A user with an empty display name, as the constructor accepts it. *)
Definition nameless_user : MajikUser :=
  constructor
    (mkData (js "u-4") (js "a@b.co") [] (js "aGFzaA==") noInfo
       defaultSettings (Some 1000) (Some 2000)).

(** What [toJSON] writes for it. *)
Definition nameless_json : MajikUserJSON :=
  mkJSON (VString (js "u-4")) (VString (js "a@b.co")) (VString [])
    (VString (js "aGFzaA==")) (Some noInfo) (Some defaultSettings)
    (Some (js "1970-01-01T00:00:01.000Z"))
    (Some (js "1970-01-01T00:00:02.000Z")).

(** The user [fromJSON] builds from [payload c l], with the dates it read. *)
Definition payload_user (c l : Date) : MajikUser :=
  mkUser (js "u-3") (js "a@b.co") (js "Josef") (js "aGFzaA==") noInfo
    defaultSettings c l.

(** A provider record whose email has nothing before the [@]. *)
Definition provider_record : SupabaseUser :=
  mkSupabaseUser (js "u-5") (Some (js "@example.com")) None None
    (js "2024-01-01T00:00:00.000Z") None None None.

(** A stand-in for the digest, for running the factories on samples. *)
Definition sample_hashID (i : jsstring) : jsstring := js "sha256:" ++ i.

(** The user [initialize] builds when the clock reads 10 twice. *)
Definition fresh_user : MajikUser :=
  mkUser (js "generated-id") (js "user@example.com") (js "Josef")
    (sample_hashID (js "generated-id"))
    (assign noInfo (U_verification (Some defaultVerification)))
    defaultSettings (Some 10) (Some 10).

Definition sample_history : list (call * Z) :=
  [(SetBio (js "hello"), 20); (Set_email (js "new@example.com"), 30)].

(** [fresh_user] after [sample_history]. *)
Definition updated_user : MajikUser :=
  mkUser (js "generated-id") (js "new@example.com") (js "Josef")
    (sample_hashID (js "generated-id"))
    (assign (assign noInfo (U_verification (Some defaultVerification)))
       (U_bio (Some (js "hello"))))
    defaultSettings (Some 10) (Some 30).

End Examples.
Import Examples.

(* ------------------------------------------------------------------ *)
(** * [src/core/majik-user.ts]: computed properties *)

Module Views.

(** [get isFullyVerified] *)
Definition isFullyVerified (u : MajikUser) : bool :=
  (isEmailVerified u && isPhoneVerified u && isIdentityVerified u)%bool.

(** [isCurrentlyRestricted]: [now] is what [new Date()] answers. A [Date]
    object is truthy even when invalid, and [<] on an invalid date is
    false. *)
Definition isCurrentlyRestricted (now : Z) (u : MajikUser) : bool :=
  let sys := system (_settings u) in
  if negb (isRestricted sys) then false
  else
    match restrictedUntil sys with
    | None => true
    | Some until =>
        match until with
        | Some t => now <? t
        | None => false
        end
    end.

(** [equals] *)
Definition equals (u other : MajikUser) : bool := JsString.eqb (id u) (id other).

(** [hasCompleteProfile]: five truthiness tests. An object is truthy, a
    string is truthy when not empty. *)
Definition hasCompleteProfile (u : MajikUser) : bool :=
  let m := _metadata u in
  (match name m with Some _ => true | None => false end
   && truthy_str (phone m)
   && truthy_str (birthdate m)
   && match address m with Some _ => true | None => false end
   && match gender m with Some _ => true | None => false end)%bool.

Definition has_key {A : Type} (o : option A) : nat :=
  match o with Some _ => 1 | None => 0 end.

(** [Object.keys(address).length] *)
Definition address_keys (a : Address) : nat :=
  has_key (country a) + has_key (city a) + has_key (region a)
  + has_key (area a) + has_key (street a) + has_key (building a)
  + has_key (zip a) + has_key (country_code a) + has_key (coordinates a).

(** The filter of [getProfileCompletionPercentage] on each of its seven
    fields, in the order of the source: an object counts when it has a
    key (a [FullName] always has two), anything else when it is truthy. *)
Definition completed (u : MajikUser) : list bool :=
  let m := _metadata u in
  [ match name m with Some _ => true | None => false end;
    truthy_str (picture m);
    truthy_str (phone m);
    match gender m with Some _ => true | None => false end;
    truthy_str (birthdate m);
    match address m with
    | Some a => Nat.ltb 0 (address_keys a)
    | None => false
    end;
    truthy_str (bio m) ].

Definition completedFields (u : MajikUser) : nat :=
  List.length (filter (fun b => b) (completed u)).

(** [Math.round(x)] for the quotient [n / d] of two naturals: the nearest
    integer, halves upward. *)
Definition Math_round_div (n d : Z) : Z := (2 * n + d) / (2 * d).

(** [getProfileCompletionPercentage]:
    [Math.round((completedFields / fields.length) * 100)]. None of the
    eight quotients is near a half, so rounding the exact quotient is
    rounding the computed one. *)
Definition getProfileCompletionPercentage (u : MajikUser) : Z :=
  Math_round_div (Z.of_nat (completedFields u) * 100) 7.

(** [this._metadata.social_links?.[platform]] *)
Definition socialLink (platform : jsstring) (u : MajikUser)
  : option jsstring :=
  match social_links (_metadata u) with
  | Some links => obj_get platform links
  | None => None
  end.

(** The keys of an object are distinct. *)
Definition keys {V : Type} (obj : object V) : list jsstring := map fst obj.

Definition links_distinct (u : MajikUser) : Prop :=
  match social_links (_metadata u) with
  | Some links => NoDup (keys links)
  | None => True
  end.

End Views.
Import Views.

(* ------------------------------------------------------------------ *)
(** * Kinds of calls *)

Module Kinds.

(** The six calls that write one verification flag. *)
Definition is_verify_call (c : call) : bool :=
  match c with
  | VerifyEmail | VerifyPhone | VerifyIdentity => true
  | _ => false
  end.

Definition is_VerifyEmail (c : call) : bool :=
  match c with VerifyEmail => true | _ => false end.
Definition is_VerifyPhone (c : call) : bool :=
  match c with VerifyPhone => true | _ => false end.
Definition is_VerifyIdentity (c : call) : bool :=
  match c with VerifyIdentity => true | _ => false end.

Definition is_Set_email (c : call) : bool :=
  match c with Set_email _ => true | _ => false end.
Definition is_Set_displayName (c : call) : bool :=
  match c with Set_displayName _ => true | _ => false end.
Definition is_Set_hash (c : call) : bool :=
  match c with Set_hash _ => true | _ => false end.

(** The calls that go through [setSetting] or [updateSettings]. *)
Definition is_settings_call (c : call) : bool :=
  match c with
  | SetSetting _ | UpdateSettings _ | EnableNotifications
  | DisableNotifications | Restrict _ | Unrestrict => true
  | _ => false
  end.

(** The calls of a history. *)
Definition calls (history : list (call * Z)) : list call := map fst history.

End Kinds.
Import Kinds.

(* ------------------------------------------------------------------ *)
(** * What the checks of the class come to *)

Module Conditions.

(** The nine conditions of [validate], each as the method tests it. *)
Definition all_checks (u : MajikUser) : bool :=
  (negb (is_empty (id u))
   && negb (is_empty (_email u))
   && negb (is_empty (_displayName u))
   && negb (is_empty (_hash u))
   && test_literal emailRegex (_email u)
   && negb (isInvalid (createdAt u))
   && negb (isInvalid (_lastUpdate u))
   && match phone (_metadata u) with
      | Some p => is_empty p || test_literal phoneRegex p
      | None => true
      end
   && match birthdate (_metadata u) with
      | Some b => is_empty b || test_literal dateRegex b
      | None => true
      end)%bool.

(** A value that [fromJSON] takes for a required field. *)
Definition nonempty_string (v : jsval) : bool :=
  match v with
  | VString s => negb (is_empty s)
  | _ => false
  end.

(** The id a new user gets: the one given unless it is absent or blank. *)
Definition chosen_id (id_ : option jsstring) (generated : jsstring)
  : jsstring :=
  match id_ with
  | Some i => if is_empty (trim i) then generated else i
  | None => generated
  end.

(** The length of month [m] (0 to 11) in year [y]. *)
Definition DaysInMonth (y m : Z) : Z :=
  if m =? 1 then 28 + InLeapYear y
  else if ((m =? 3) || (m =? 5) || (m =? 8) || (m =? 10))%bool then 30
  else 31.

(** Month [m] (1 to 12) and day [d] name a day of year [y]. *)
Definition is_calendar_date (y m d : Z) : bool :=
  ((1 <=? m) && (m <=? 12) && (1 <=? d) && (d <=? DaysInMonth y (m - 1)))%bool.

(** The three numbers of a string of the form [YYYY-MM-DD], as
    [YYYYMMDDToDate] reads them. *)
Definition date_numbers (s : jsstring) : list Z :=
  map Number_of_digits (split_on (char "-") s).

(** Four digits. *)
Definition is_four_digits (s : jsstring) : bool :=
  match s with
  | [y1; y2; y3; y4] =>
      (is_digit y1 && is_digit y2 && is_digit y3 && is_digit y4)%bool
  | _ => false
  end.

(** The integers from [lo], [n] of them. *)
Fixpoint Z_range (lo : Z) (n : nat) : list Z :=
  match n with
  | O => []
  | S n' => lo :: Z_range (lo + 1) n'
  end.

(** The year range in which [dateToYYYYMMDD] writes four digits. *)
Definition four_digit_year (y : Z) : bool :=
  ((1000 <=? y) && (y <=? 9999))%bool.

(** [String(y)] is four digits exactly for [y] from 1000 to 9999, and then
    the four digits of [y]. *)
Definition year_text_ok (y : Z) : bool :=
  if four_digit_year y
  then (is_four_digits (String_of_int y)
        && JsString.eqb (String_of_int y) (digits 4 y))%bool
  else negb (is_four_digits (String_of_int y)).

(** [String(n).padStart(2, "0")] is the two digits of [n]. *)
Definition pad_ok (n : Z) : bool :=
  JsString.eqb (padStart 2 "0" (String_of_int n)) (digits 2 n).

(** The first [>] of [s]: how many units come before it, and what comes
    after it. *)
Fixpoint after_gt (s : jsstring) : option (nat * jsstring) :=
  match s with
  | [] => None
  | c :: s' =>
      if N.eqb c (char ">") then Some (O, s')
      else match after_gt s' with
           | Some (n, rest) => Some (S n, rest)
           | None => None
           end
  end.

(** [s] holds a [<] with a [>] somewhere after it. *)
Fixpoint has_tag (s : jsstring) : bool :=
  match s with
  | [] => false
  | c :: s' =>
      (N.eqb (char "<") c
       && match after_gt s' with Some _ => true | None => false end
       || has_tag s')%bool
  end.

(** [DANGER_PATTERNS] with [lastIndex] of its [g] pattern at [n]: the
    states the array can be in, [test] writing to no other property. *)
Definition patterns_at (n : nat) : list RegExp :=
  firstn 3 DANGER_PATTERNS ++ [mkRegExp (Alt anyTag anyEntity) true n].

(** The three patterns without the [g] flag. *)
Definition literal_patterns : list regex :=
  map source (firstn 3 DANGER_PATTERNS).

End Conditions.
Import Conditions.

(* ------------------------------------------------------------------ *)
(** * More sample data *)

Module MoreExamples.

(** A user with the five fields [hasCompleteProfile] asks for and nothing
    more: the address is an object without keys. *)
Definition bare_complete_user : MajikUser :=
  mkUser (js "u-6") (js "a@b.co") (js "Josef") (js "aGFzaA==")
    (mkInfo (Some (mkFullName (js "Josef") (js "Fabian") None None))
       None (Some (js "+639123456789")) (Some Male)
       (Some (js "1995-10-26"))
       (Some (mkAddress None None None None None None None None None))
       None None None None None None None)
    defaultSettings (Some 1000) (Some 2000).

(** A user with two social links. *)
Definition linked_user : MajikUser :=
  setSocialLink (js "Website URL") (js "https://thezelijah.world") 2000
    (setSocialLink (js "X") (js "https://x.com/josef") 1500 fresh_user).

(** The user [initialize] builds for an id given with spaces around it. *)
Definition spaced_id_user : MajikUser :=
  mkUser (js " my-id ") (js "user@example.com") (js "Josef")
    (sample_hashID (js " my-id "))
    (assign noInfo (U_verification (Some defaultVerification)))
    defaultSettings (Some 10) (Some 10).

(** A provider record with a confirmed email, no user metadata, and an
    application bag that repeats a key read by name among its other keys. *)
Definition confirmed_record : SupabaseUser :=
  mkSupabaseUser (js "u-7") (Some (js "josef@example.com")) None
    (Some (mkAppMeta None (Some true) None
             [(js "provider", VString (js "email"));
              (js "is_restricted", VBool true)]))
    (js "2024-01-01T00:00:00.000Z") None
    (Some (js "2024-01-02T00:00:00.000Z")) None.

(** What [fromSupabase] makes of it. *)
Definition confirmed_user : MajikUser :=
  mkUser (js "u-7") (js "josef@example.com") (js "josef")
    (sample_hashID (js "u-7"))
    (assign noInfo (U_verification (Some (mkVerification true false false))))
    (mkSettings true (mkSystem true None)
       [(js "provider", VString (js "email"))])
    (Some 1704067200000) (Some 1704067200000).

End MoreExamples.
Import MoreExamples.

(* ------------------------------------------------------------------ *)
(** * [src/core/majik-user.ts]: the verification record as a shared object *)

(** The definitions of [User] take an instance by its value. That is all
    there is to it but for one object: the [verification] record, which
    [set email] and [setPhone] write in place
    ([this._metadata.verification.email_verified = false]) and which
    [clone], like the [metadata] getter and [toJSON], hands on by
    reference, [{ ...this._metadata }] copying one level only. Here the
    records live in a store and an instance holds a reference to its own.
    No other object below [_metadata] or [_settings] is written in place
    by the class. *)
Module Shared.

Definition ref : Type := nat.
Definition store : Type := list Verification.

Definition read (r : ref) (st : store) : option Verification :=
  nth_error st r.

(** An assignment to properties of the record at [r]. *)
Fixpoint write (r : ref) (f : Verification -> Verification) (st : store)
  : store :=
  match st, r with
  | [], _ => []
  | v :: st', O => f v :: st'
  | v :: st', S r' => v :: write r' f st'
  end.

(** An object literal: a new record. *)
Definition alloc (v : Verification) (st : store) : ref * store :=
  (List.length st, st ++ [v]).

(** An instance: its fields, and the reference that [_metadata] has under
    [verification]; the [verification] of [fields] itself is not read. *)
Record instance : Type := mkInstance {
  fields : MajikUser;
  verification_ref : option ref
}.

(** [this._metadata.verification] *)
Definition record_of (st : store) (o : instance) : option Verification :=
  match verification_ref o with
  | Some r => read r st
  | None => None
  end.

(** The instance by value, as [User] has it, in a given store. *)
Definition view (st : store) (o : instance) : MajikUser :=
  with_metadata
    (assign (_metadata (fields o)) (U_verification (record_of st o)))
    (fields o).

(** [clone]: the copy of [_metadata] names the same record. *)
Definition clone (o : instance) : instance :=
  mkInstance (User.clone (fields o)) (verification_ref o).

(** [set email] *)
Definition set_email (value : jsstring) (now : Z) (o : instance)
  (st : store) : result (instance * store) :=
  _ <- validateEmail value ;;
  let st' :=
    match verification_ref o with
    | Some r =>
        write r (fun v => mkVerification false (phone_verified v)
                            (identity_verified v)) st
    | None => st
    end in
  Ok (mkInstance (updateTimestamp now (with_email value (fields o)))
        (verification_ref o), st').

(** [setPhone] *)
Definition setPhone (value : jsstring) (now : Z) (o : instance)
  (st : store) : instance * store :=
  let o' := mkInstance (updateMetadata [U_phone (Some value)] now (fields o))
              (verification_ref o) in
  (o', match verification_ref o' with
       | Some r =>
           write r (fun v => mkVerification (email_verified v) false
                               (identity_verified v)) st
       | None => st
       end).

(** [this._metadata.verification || { ... }] *)
Definition currentVerification (st : store) (o : instance) : Verification :=
  match record_of st o with
  | Some v => v
  | None => mkVerification false false false
  end.

(** [verifyEmail] and [unverifyEmail]: [updateMetadata] with a record made
    by an object literal, so a new one; the other keys of [_metadata] are
    copied. *)
Definition put_email_verified (b : bool) (now : Z) (o : instance)
  (st : store) : instance * store :=
  let v := currentVerification st o in
  let (r, st') :=
    alloc (mkVerification b (phone_verified v) (identity_verified v)) st in
  (mkInstance (updateMetadata [] now (fields o)) (Some r), st').

Definition put_phone_verified (b : bool) (now : Z) (o : instance)
  (st : store) : instance * store :=
  let v := currentVerification st o in
  let (r, st') :=
    alloc (mkVerification (email_verified v) b (identity_verified v)) st in
  (mkInstance (updateMetadata [] now (fields o)) (Some r), st').

Definition put_identity_verified (b : bool) (now : Z) (o : instance)
  (st : store) : instance * store :=
  let v := currentVerification st o in
  let (r, st') :=
    alloc (mkVerification (email_verified v) (phone_verified v) b) st in
  (mkInstance (updateMetadata [] now (fields o)) (Some r), st').

Definition verifyEmail := put_email_verified true.
Definition unverifyEmail := put_email_verified false.
Definition verifyPhone := put_phone_verified true.
Definition unverifyPhone := put_phone_verified false.
Definition verifyIdentity := put_identity_verified true.
Definition unverifyIdentity := put_identity_verified false.

(** A store with the record of a fully verified user, and an instance
    that names it. *)
Definition sample_store : store := [mkVerification true true true].
Definition sample_instance : instance := mkInstance verified_user (Some O).

End Shared.

(* ------------------------------------------------------------------ *)
(** * Facts about strings and objects *)

Section StringFacts.

Lemma string_eqb_refl (s : jsstring) : JsString.eqb s s = true.
Proof.
  induction s as [|c s IH]; [reflexivity|].
  cbn [JsString.eqb]. now rewrite N.eqb_refl, IH.
Qed.

Lemma string_eqb_eq (s t : jsstring) : JsString.eqb s t = true <-> s = t.
Proof.
  split; [|intros ->; apply string_eqb_refl].
  revert t. induction s as [|c s IH]; intros [|d t]; cbn [JsString.eqb];
    try discriminate; [reflexivity|].
  intros H. apply andb_prop in H as [Hc Hs].
  apply N.eqb_eq in Hc. apply IH in Hs. now subst.
Qed.

Lemma is_empty_false (s : jsstring) : is_empty s = false <-> s <> [].
Proof. destruct s; cbn; split; congruence. Qed.

Lemma is_empty_length (s : jsstring) :
  Nat.eqb (List.length s) 0 = is_empty s.
Proof. now destruct s. Qed.

Lemma obj_get_set (V : Type) (key : jsstring) (v : V) (obj : object V) :
  obj_get key (obj_set key v obj) = Some v.
Proof.
  induction obj as [|[k w] rest IH]; cbn [obj_set obj_get].
  - now rewrite string_eqb_refl.
  - destruct (JsString.eqb k key) eqn:E; cbn [obj_get]; now rewrite E.
Qed.

End StringFacts.

(* ------------------------------------------------------------------ *)
(** * Facts about patterns *)

Section RegexFacts.

(** A pattern that starts with [^] matches at index 0 or nowhere. *)
Lemma search_anchored r s : forall i, search (Cat Bol r) (S i) s = None.
Proof.
  induction s as [|c s IH]; intros i; cbn [search match_at rmatch Nat.eqb].
  - reflexivity.
  - apply IH.
Qed.

Lemma test_anchored r s :
  test_literal (Cat Bol r) s
  = match match_at r 0 s with Some _ => true | None => false end.
Proof.
  unfold test_literal, test.
  cbn [global source lastIndex Nat.ltb Nat.leb skipn].
  destruct s as [|c s]; cbn [search skipn].
  - change (match_at (Cat Bol r) 0 []) with (match_at r 0 []).
    now destruct (match_at r 0 []) as [[e rest]|].
  - change (match_at (Cat Bol r) 0 (c :: s)) with (match_at r 0 (c :: s)).
    destruct (match_at r 0 (c :: s)) as [[e rest]|]; [reflexivity|].
    now rewrite search_anchored.
Qed.

(** Two continuations that agree give the same match. *)
Lemma star_loop_ext (body : matcher) :
  (forall i s k1 k2, (forall i' s', k1 i' s' = k2 i' s') ->
                     body i s k1 = body i s k2) ->
  forall fuel i s k1 k2, (forall i' s', k1 i' s' = k2 i' s') ->
    star_loop body fuel i s k1 = star_loop body fuel i s k2.
Proof.
  intros Hbody fuel.
  induction fuel as [|fuel IH]; intros i s k1 k2 Hk; cbn [star_loop].
  - apply Hk.
  - rewrite (Hk i s).
    match goal with
    | |- match body i s ?f with _ => _ end = match body i s ?g with _ => _ end =>
        rewrite (Hbody i s f g); [reflexivity|]
    end.
    intros i' s'. destruct (Nat.ltb _ _); [|reflexivity]. now apply IH.
Qed.

Lemma rmatch_ext r : forall i s k1 k2,
  (forall i' s', k1 i' s' = k2 i' s') -> rmatch r i s k1 = rmatch r i s k2.
Proof.
  induction r as [|p|r1 IH1 r2 IH2|r1 IH1 r2 IH2|r IH| |];
    intros i s k1 k2 Hk; cbn [rmatch].
  - apply Hk.
  - destruct s as [|c s]; [reflexivity|]. destruct (p c); [apply Hk|reflexivity].
  - apply IH1. intros i' s'. now apply IH2.
  - rewrite (IH1 i s k1 k2 Hk), (IH2 i s k1 k2 Hk). reflexivity.
  - now apply star_loop_ext.
  - destruct (Nat.eqb i 0); [apply Hk|reflexivity].
  - destruct s; [apply Hk|reflexivity].
Qed.

(** The counter of [star_loop] is never used up. *)
Lemma star_loop_fuel r : forall fuel fuel' i s k,
  (List.length s < fuel)%nat -> (List.length s < fuel')%nat ->
  star_loop (rmatch r) fuel i s k = star_loop (rmatch r) fuel' i s k.
Proof.
  induction fuel as [|fuel IH]; intros fuel' i s k H H'; [lia|].
  destruct fuel' as [|fuel']; [lia|]. cbn [star_loop].
  match goal with
  | |- match rmatch r i s ?f with _ => _ end
       = match rmatch r i s ?g with _ => _ end =>
      rewrite (@rmatch_ext r i s f g); [reflexivity|]
  end.
  intros i' s'.
  destruct (Nat.ltb_spec (List.length s') (List.length s)); [|reflexivity].
  apply IH; lia.
Qed.

(** RepeatMatcher without the counter. *)
Lemma rmatch_Star r i s k :
  rmatch (Star r) i s k
  = match rmatch r i s (fun i' s' =>
             if Nat.ltb (List.length s') (List.length s)
             then rmatch (Star r) i' s' k
             else None) with
    | Some m => Some m
    | None => k i s
    end.
Proof.
  change (rmatch (Star r) i s k)
    with (star_loop (rmatch r) (S (List.length s)) i s k).
  cbn [star_loop].
  match goal with
  | |- match rmatch r i s ?f with _ => _ end
       = match rmatch r i s ?g with _ => _ end =>
      rewrite (@rmatch_ext r i s f g); [reflexivity|]
  end.
  intros i' s'.
  destruct (Nat.ltb_spec (List.length s') (List.length s)); [|reflexivity].
  change (rmatch (Star r) i' s' k)
    with (star_loop (rmatch r) (S (List.length s')) i' s' k).
  apply star_loop_fuel; lia.
Qed.

(** The counter of [replace_loop] is never used up. *)
Lemma replace_loop_fuel r by_ : forall fuel fuel' i s,
  (List.length s < fuel)%nat -> (List.length s < fuel')%nat ->
  replace_loop r by_ fuel i s = replace_loop r by_ fuel' i s.
Proof.
  induction fuel as [|fuel IH]; intros fuel' i s H H'; [lia|].
  destruct fuel' as [|fuel']; [lia|]. cbn [replace_loop].
  assert (Hstep :
    match s with [] => [] | c :: s' => c :: replace_loop r by_ fuel (S i) s' end
    = match s with [] => [] | c :: s' => c :: replace_loop r by_ fuel' (S i) s' end).
  { destruct s as [|c s']; [reflexivity|]. f_equal. cbn in H, H'. apply IH; lia. }
  rewrite Hstep.
  destruct (match_at r i s) as [[e rest]|]; [|reflexivity].
  destruct (Nat.ltb_spec (List.length rest) (List.length s)); [|reflexivity].
  f_equal. apply IH; lia.
Qed.

Lemma replace_loop_S r by_ fuel i s :
  replace_loop r by_ (S fuel) i s
  = let step := match s with
                | [] => []
                | c :: s' => c :: replace_loop r by_ fuel (S i) s'
                end in
    match match_at r i s with
    | Some (e, rest) =>
        if Nat.ltb (List.length rest) (List.length s)
        then by_ ++ replace_loop r by_ fuel e rest
        else by_ ++ step
    | None => step
    end.
Proof. reflexivity. Qed.

(** [replace] without the counter: what is left after a match, or after
    one unit, is replaced in the same way. *)
Lemma replace_all_unfold r by_ s :
  replace_all r by_ s
  = let step := match s with
                | [] => []
                | c :: s' => c :: replace_loop r by_ (S (List.length s')) 1 s'
                end in
    match match_at r 0 s with
    | Some (e, rest) =>
        if Nat.ltb (List.length rest) (List.length s)
        then by_ ++ replace_loop r by_ (S (List.length rest)) e rest
        else by_ ++ step
    | None => step
    end.
Proof.
  unfold replace_all. rewrite replace_loop_S. cbv zeta.
  destruct (match_at r 0 s) as [[e rest]|].
  - destruct (Nat.ltb_spec (List.length rest) (List.length s)).
    + f_equal. apply replace_loop_fuel; lia.
    + destruct s; reflexivity.
  - destruct s; reflexivity.
Qed.

End RegexFacts.

(** Case analysis on the one-unit tests of a pattern under evaluation. *)
Ltac split_tests :=
  repeat (cbn [rmatch andb];
          match goal with
          | |- context [if is_digit ?c then _ else _] => destruct (is_digit c)
          | |- context [if N.eqb ?c ?d then _ else _] => destruct (N.eqb c d)
          end);
  cbn [rmatch andb]; try reflexivity.

(** [/^\d{4}-\d{2}-\d{2}$/] accepts exactly the strings of the strict
    form. *)
Lemma dateRegex_shape s : test_literal dateRegex s = is_YYYY_MM_DD s.
Proof.
  unfold dateRegex. rewrite test_anchored. unfold match_at, is_YYYY_MM_DD.
  cbn [Times]. unfold Lit.
  destruct s
    as [|y1 [|y2 [|y3 [|y4 [|h1 [|m1 [|m2 [|h2 [|d1 [|d2 [|x s]]]]]]]]]]];
    split_tests.
Qed.

(* ------------------------------------------------------------------ *)
(** * Checks by evaluation *)

Section Checks.

Example trim_both_ends : trim (js "  a b  ") = js "a b".
Proof. reflexivity. Qed.

Example trim_blank : trim (js "   ") = [].
Proof. reflexivity. Qed.

Example email_plain :
  test_literal emailRegex (js "business@thezelijah.world") = true.
Proof. reflexivity. Qed.

Example email_dotted_domain :
  test_literal emailRegex (js "a@b.c.d") = true.
Proof. reflexivity. Qed.

Example email_without_dot :
  test_literal emailRegex (js "user@example") = false.
Proof. reflexivity. Qed.

Example email_with_space :
  test_literal emailRegex (js "us er@example.com") = false.
Proof. reflexivity. Qed.

Example email_two_ats :
  test_literal emailRegex (js "a@b@c.d") = false.
Proof. reflexivity. Qed.

Example phone_plain : test_literal phoneRegex (js "+639123456789") = true.
Proof. reflexivity. Qed.

Example phone_fifteen_digits :
  test_literal phoneRegex (js "123456789012345") = true.
Proof. reflexivity. Qed.

Example phone_sixteen_digits :
  test_literal phoneRegex (js "1234567890123456") = false.
Proof. reflexivity. Qed.

Example phone_one_digit : test_literal phoneRegex (js "7") = false.
Proof. reflexivity. Qed.

Example phone_leading_zero : test_literal phoneRegex (js "0123") = false.
Proof. reflexivity. Qed.

Example tag_is_flagged :
  fst (checkForHTMLTags None DANGER_PATTERNS (js "<ScRiPt>x</script>")) = true.
Proof. reflexivity. Qed.

Example handler_is_flagged :
  fst (checkForHTMLTags None DANGER_PATTERNS (js "a ONCLICK=b")) = true.
Proof. reflexivity. Qed.

Example plain_text_is_not_flagged :
  fst (checkForHTMLTags None DANGER_PATTERNS (js "hello world")) = false.
Proof. reflexivity. Qed.

Example fallback_in_order :
  hardenedFallback
    (js " I love <b>coding</b> <img src=x onerror=alert(1)> JavaScript:x ")
  = js "I love coding  [removed]x".
Proof. vm_compute. reflexivity. Qed.

Example fallback_nested_brackets :
  hardenedFallback (js "a < b > c <<x>> d") = js "a  c > d".
Proof. vm_compute. reflexivity. Qed.

Example epoch_text : toISOString (Some 0) = Ok (js "1970-01-01T00:00:00.000Z").
Proof. vm_compute. reflexivity. Qed.

Example recent_text :
  toISOString (Some 1700000000123) = Ok (js "2023-11-14T22:13:20.123Z").
Proof. vm_compute. reflexivity. Qed.

Example negative_year_text :
  toISOString (Some (-62198755200001))
  = Ok (js "-000002-12-31T23:59:59.999Z").
Proof. vm_compute. reflexivity. Qed.

Example last_instant_text :
  toISOString (Some maxTime) = Ok (js "+275760-09-13T00:00:00.000Z").
Proof. vm_compute. reflexivity. Qed.

Example read_recent_text :
  Date_of_string (js "2023-11-14T22:13:20.123Z") = Some 1700000000123.
Proof. vm_compute. reflexivity. Qed.

Example read_past_last_instant :
  Date_of_string (js "+275760-09-13T00:00:00.001Z") = None.
Proof. vm_compute. reflexivity. Qed.

Example leap_day_is_a_date :
  YYYYMMDDToDate (js "2024-02-29") = Ok (Some 1709164800000).
Proof. vm_compute. reflexivity. Qed.

Example no_leap_day_in_2023 :
  YYYYMMDDToDate (js "2023-02-29") = Throw "Invalid calendar date".
Proof. vm_compute. reflexivity. Qed.

Example month_thirteen :
  YYYYMMDDToDate (js "2023-13-01") = Throw "Invalid calendar date".
Proof. vm_compute. reflexivity. Qed.

Example short_month_text :
  YYYYMMDDToDate (js "2023-2-28")
  = Throw "Invalid ISO date format. Expected YYYY-MM-DD".
Proof. vm_compute. reflexivity. Qed.

Example date_to_text :
  dateToYYYYMMDD (Some 1700000000123) = Ok (js "2023-11-14").
Proof. vm_compute. reflexivity. Qed.

End Checks.

(* ------------------------------------------------------------------ *)
(** * Facts about the calendar and the date-time format *)

Section DateFacts.

Lemma digit_ok d : 0 <= d <= 9 ->
  is_digit (digit d) = true /\ Z.of_N (digit d) - 48 = d.
Proof.
  intros H. unfold is_digit, in_range, digit. split.
  - apply andb_true_intro; split; apply N.leb_le; lia.
  - lia.
Qed.

Lemma digit_not_sign d : 0 <= d < 10 ->
  N.eqb (digit d) (char "+") = false /\ N.eqb (digit d) (char "-") = false.
Proof.
  intros H. unfold digit.
  split; apply N.eqb_neq;
    change (char "+") with 43%N; change (char "-") with 45%N; lia.
Qed.

(** Reading back the digits that were written. *)
Lemma read_digits_digits w : forall n acc rest, 0 <= n ->
  read_digits w acc (digits w n ++ rest)
  = Some (acc * 10 ^ Z.of_nat w + n mod 10 ^ Z.of_nat w, rest).
Proof.
  induction w as [|w IH]; intros n acc rest Hn.
  - simpl. rewrite Z.mod_1_r. f_equal. f_equal. lia.
  - cbn [digits read_digits app].
    assert (Hd : 0 <= (n / 10 ^ Z.of_nat w) mod 10 <= 9)
      by (pose proof (Z.mod_pos_bound (n / 10 ^ Z.of_nat w) 10); lia).
    destruct (digit_ok Hd) as [-> ->].
    rewrite IH by assumption. f_equal. f_equal.
    rewrite Nat2Z.inj_succ, Z.pow_succ_r by lia.
    assert (Hp : 0 < 10 ^ Z.of_nat w) by (apply Z.pow_pos_nonneg; lia).
    rewrite (Z.mul_comm 10), Z.rem_mul_r by lia. lia.
Qed.

Lemma read_two n rest : 0 <= n <= 99 ->
  read_digits 2 0 (digits 2 n ++ rest) = Some (n, rest).
Proof.
  intros H. rewrite read_digits_digits by lia.
  change (10 ^ Z.of_nat 2) with 100. rewrite Z.mod_small by lia.
  f_equal.
Qed.

Lemma read_three n rest : 0 <= n <= 999 ->
  read_digits 3 0 (digits 3 n ++ rest) = Some (n, rest).
Proof.
  intros H. rewrite read_digits_digits by lia.
  change (10 ^ Z.of_nat 3) with 1000. rewrite Z.mod_small by lia.
  f_equal.
Qed.

Lemma expect_head a rest : expect a (char a :: rest) = Some rest.
Proof. unfold expect. now rewrite N.eqb_refl. Qed.

(** [YearFromDay] is the year ECMA-262 asks for: the one whose first day
    is the last to be on or before [d]. *)
Lemma YearFromDay_spec d :
  DayFromYear (YearFromDay d) <= d < DayFromYear (YearFromDay d + 1).
Proof.
  unfold YearFromDay.
  destruct (Z.ltb_spec d (DayFromYear (1970 + 400 * d / 146097)));
    [|destruct (Z.leb_spec (DayFromYear (1970 + 400 * d / 146097 + 1)) d)].
  all: unfold DayFromYear in *.
  all: Z.div_mod_to_equations; lia.
Qed.

Lemma DayFromYear_succ y :
  DayFromYear (y + 1) = DayFromYear y + DaysInYear y.
Proof.
  unfold DayFromYear, DaysInYear, InLeapYear.
  destruct (Z.eqb_spec (y mod 4) 0); destruct (Z.eqb_spec (y mod 100) 0);
    destruct (Z.eqb_spec (y mod 400) 0); cbn [andb orb negb];
    Z.div_mod_to_equations; lia.
Qed.

Lemma InLeapYear_01 y : 0 <= InLeapYear y <= 1.
Proof. unfold InLeapYear. destruct (_ && _)%bool; lia. Qed.

Lemma DayWithinYear_range t :
  0 <= DayWithinYear t < 365 + InLeapYear (YearFromTime t).
Proof.
  unfold DayWithinYear, YearFromTime.
  pose proof (YearFromDay_spec (Day t)) as H.
  rewrite DayFromYear_succ in H. unfold DaysInYear in H. lia.
Qed.

Lemma month_range leap d : 0 <= leap <= 1 -> 0 <= d < 365 + leap ->
  0 <= monthOfDay leap d <= 11
  /\ 1 <= d - monthStart leap (monthOfDay leap d) + 1 <= 31.
Proof.
  intros Hl Hd. unfold monthOfDay.
  repeat match goal with
         | |- context [?a <? ?b] => destruct (Z.ltb_spec a b)
         end;
    cbn [monthStart Z.leb Z.eqb Z.compare Pos.compare Pos.compare_cont
           Pos.eqb];
    lia.
Qed.

Lemma year_bounds t : Z.abs t <= maxTime ->
  -271821 <= YearFromTime t <= 275760.
Proof.
  intros H. unfold YearFromTime.
  pose proof (YearFromDay_spec (Day t)) as S.
  set (y := YearFromDay (Day t)) in *. clearbody y.
  unfold DayFromYear, Day, msPerDay, maxTime in *.
  Z.div_mod_to_equations; lia.
Qed.

Lemma time_fields t :
  MakeTime (HourFromTime t) (MinFromTime t) (SecFromTime t) (msFromTime t)
  = TimeWithinDay t.
Proof.
  unfold MakeTime, HourFromTime, MinFromTime, SecFromTime, msFromTime,
    TimeWithinDay, msPerDay.
  Z.div_mod_to_equations; lia.
Qed.

Lemma date_fields t :
  MakeDay (YearFromTime t) (MonthFromTime t) (DateFromTime t) = Day t.
Proof.
  pose proof (DayWithinYear_range t) as Hd.
  destruct (month_range (InLeapYear_01 (YearFromTime t)) Hd) as [Hm _].
  unfold MakeDay, DateFromTime. fold (MonthFromTime t) in Hm.
  rewrite Z.div_small, Z.mod_small by lia.
  rewrite Z.add_0_r. unfold DayWithinYear. lia.
Qed.

Lemma read_year_text y rest : -999999 <= y <= 999999 ->
  read_year (year_text y ++ rest) = Some (y, rest).
Proof.
  intros Hy. unfold year_text.
  destruct (Z.leb_spec 0 y) as [H0|H0];
    [destruct (Z.leb_spec y 9999) as [H1|H1]|]; cbn [andb].
  - pose proof (read_digits_digits 4 0 rest H0) as R.
    change (10 ^ Z.of_nat 4) with 10000 in R.
    rewrite Z.mod_small in R by lia.
    unfold read_year.
    change (digits 4 y)
      with (digit ((y / 10 ^ Z.of_nat 3) mod 10) :: digits 3 y) in *.
    cbn [app] in *.
    destruct (digit_not_sign
                (Z.mod_pos_bound (y / 10 ^ Z.of_nat 3) 10 eq_refl))
      as [-> ->].
    rewrite R. reflexivity.
  - destruct (Z.ltb_spec y 0); [lia|].
    assert (Hp : 0 <= Z.abs y) by lia.
    pose proof (read_digits_digits 6 0 rest Hp) as R.
    change (10 ^ Z.of_nat 6) with 1000000 in R.
    rewrite Z.mod_small in R by lia.
    change (js "+" ++ digits 6 (Z.abs y))
      with (char "+" :: digits 6 (Z.abs y)).
    cbn [app]. unfold read_year. rewrite N.eqb_refl, R.
    f_equal. f_equal. lia.
  - destruct (Z.ltb_spec y 0); [|lia].
    assert (Hp : 0 <= Z.abs y) by lia.
    pose proof (read_digits_digits 6 0 rest Hp) as R.
    change (10 ^ Z.of_nat 6) with 1000000 in R.
    rewrite Z.mod_small in R by lia.
    change (js "-" ++ digits 6 (Z.abs y))
      with (char "-" :: digits 6 (Z.abs y)).
    cbn [app]. unfold read_year.
    change (N.eqb (char "-") (char "+")) with false. cbv iota.
    rewrite N.eqb_refl, R. cbn [obind fst snd].
    destruct (Z.eqb_spec (0 * 1000000 + Z.abs y) 0); [lia|].
    f_equal. f_equal. lia.
Qed.

(** The text of an instant reads back as that instant. *)
Lemma parse_time_iso_text t : Z.abs t <= maxTime ->
  parse_time (iso_text t) = Some t.
Proof.
  intros Ht.
  pose proof (year_bounds t Ht) as Hy.
  pose proof (DayWithinYear_range t) as Hd.
  destruct (month_range (InLeapYear_01 (YearFromTime t)) Hd) as [Hm Hdate].
  fold (MonthFromTime t) in Hm, Hdate. fold (DateFromTime t) in Hdate.
  assert (Hh : 0 <= HourFromTime t <= 23)
    by (unfold HourFromTime;
        pose proof (Z.mod_pos_bound (t / 3600000) 24); lia).
  assert (Hmi : 0 <= MinFromTime t <= 59)
    by (unfold MinFromTime; pose proof (Z.mod_pos_bound (t / 60000) 60); lia).
  assert (Hs : 0 <= SecFromTime t <= 59)
    by (unfold SecFromTime; pose proof (Z.mod_pos_bound (t / 1000) 60); lia).
  assert (Hms : 0 <= msFromTime t <= 999)
    by (unfold msFromTime; pose proof (Z.mod_pos_bound t 1000); lia).
  unfold parse_time, iso_text.
  rewrite read_year_text by lia. cbn [obind fst snd].
  change (js "-" ++ ?r) with (char "-" :: r).
  rewrite expect_head. cbn [obind].
  rewrite read_two by lia. cbn [obind fst snd].
  change (js "-" ++ ?r) with (char "-" :: r).
  rewrite expect_head. cbn [obind].
  rewrite read_two by lia. cbn [obind fst snd].
  change (js "T" ++ ?r) with (char "T" :: r). cbv iota.
  rewrite expect_head. cbn [obind].
  rewrite read_two by lia. cbn [obind fst snd].
  change (js ":" ++ ?r) with (char ":" :: r).
  rewrite expect_head. cbn [obind].
  rewrite read_two by lia. cbn [obind fst snd].
  change (js ":" ++ ?r) with (char ":" :: r).
  rewrite expect_head. cbn [obind].
  rewrite read_two by lia. cbn [obind fst snd].
  change (js "." ++ ?r) with (char "." :: r).
  rewrite expect_head. cbn [obind].
  rewrite read_three by lia. cbn [obind fst snd].
  change (js "Z") with [char "Z"].
  rewrite expect_head. cbn [obind].
  replace (fields_ok _ _ _ _ _ _) with true.
  - replace (MonthFromTime t + 1 - 1) with (MonthFromTime t) by lia.
    rewrite date_fields, time_fields. unfold MakeDate, Day, TimeWithinDay.
    f_equal. pose proof (Z.div_mod t msPerDay). unfold msPerDay in *. lia.
  - symmetry. unfold fields_ok.
    repeat (apply andb_true_intro; split); try (apply Z.leb_le; lia).
    destruct (Z.eqb_spec (HourFromTime t) 24); [lia|reflexivity].
Qed.

Lemma iso_text_not_empty t : is_empty (iso_text t) = false.
Proof.
  unfold iso_text, year_text.
  destruct ((0 <=? YearFromTime t) && (YearFromTime t <=? 9999))%bool;
    [reflexivity|].
  destruct (YearFromTime t <? 0); reflexivity.
Qed.

(** [new Date(d.toISOString())] is [d] for every valid [d]. *)
Lemma Date_of_string_toISOString d :
  valid_instant d ->
  exists s, toISOString d = Ok s /\ is_empty s = false
            /\ Date_of_string s = d.
Proof.
  intros (t & -> & Ht). exists (iso_text t).
  split; [reflexivity|]. split; [apply iso_text_not_empty|].
  unfold Date_of_string, TimeClip. rewrite parse_time_iso_text by assumption.
  destruct (Z.leb_spec (Z.abs t) maxTime); [reflexivity|lia].
Qed.

End DateFacts.

(* ------------------------------------------------------------------ *)
(** * The sanitizing helpers of [src/utils.ts] *)

Section SanitizerFacts.

(** A string that [checkForHTMLTags] flags is not blank. *)
Lemma flagged_not_blank san patterns input :
  fst (checkForHTMLTags san patterns input) = true ->
  is_empty input = false /\ is_empty (trim input) = false.
Proof.
  unfold checkForHTMLTags.
  destruct (is_empty input); [discriminate|].
  destruct (is_empty (trim input)); [discriminate|]. auto.
Qed.

(** When the sanitizer throws, [sanitizeInput] answers with the fallback
    of its [catch] block. *)
Lemma sanitizeInput_when_sanitizer_throws (f : sanitizer) input message :
  input <> [] ->
  f input (mkConfig [] [] (Some true)) = Throw message ->
  sanitizeInput (Some f) input = hardenedFallback input.
Proof.
  intros Hne Hthrow. unfold sanitizeInput.
  apply is_empty_false in Hne. now rewrite Hne, Hthrow.
Qed.

(** When the sanitizer answers, [sanitizeInput] trims its answer. *)
Lemma sanitizeInput_when_sanitizer_answers (f : sanitizer) input clean :
  input <> [] ->
  f input (mkConfig [] [] (Some true)) = Ok clean ->
  sanitizeInput (Some f) input = trim clean.
Proof.
  intros Hne Hok. unfold sanitizeInput.
  apply is_empty_false in Hne. now rewrite Hne, Hok.
Qed.

(** Without a sanitizer, [sanitizeInput] only trims. *)
Lemma sanitizeInput_without_sanitizer input :
  sanitizeInput None input = trim input.
Proof. unfold sanitizeInput. now destruct input. Qed.

End SanitizerFacts.

(** C4. With no sanitizer resolved ([internalSanitize] is [null]),
    [sanitizeInput] does not take the fallback of its [catch] block: it
    returns the trimmed input, tags included. On ["<b>x</b>"] it returns
    ["<b>x</b>"] where the fallback gives ["x"]; on
    ["javascript:alert(1)"] it returns the input where the fallback
    replaces the scheme. *)
Theorem sanitizeInput_null_sanitizer_skips_fallback :
  (forall input, sanitizeInput None input = trim input)
  /\ sanitizeInput None (js "<b>x</b>") = js "<b>x</b>"
  /\ hardenedFallback (js "<b>x</b>") = js "x"
  /\ sanitizeInput None (js "javascript:alert(1)") = js "javascript:alert(1)"
  /\ hardenedFallback (js "javascript:alert(1)") = js "[removed]alert(1)".
Proof.
  split; [exact sanitizeInput_without_sanitizer|].
  repeat split; vm_compute; reflexivity.
Qed.

(** C10. [checkForHTMLTags] is not a function of its input alone: the
    fourth pattern of [DANGER_PATTERNS] has the [g] flag, so [test] leaves
    its [lastIndex] at the end of the match and the next call searches from
    there. With no sanitizer resolved, the first call on ["<b>"] in a
    freshly loaded module answers [true] and the second answers [false]. *)
Theorem checkForHTMLTags_second_call_differs :
  let first := checkForHTMLTags None DANGER_PATTERNS (js "<b>") in
  let second := checkForHTMLTags None (snd first) (js "<b>") in
  fst first = true
  /\ map lastIndex (snd first) = [0; 0; 0; 3]%nat
  /\ fst second = false.
Proof. vm_compute. repeat split; reflexivity. Qed.

(** The same with a sanitizer that answers: a text such as ["a &amp; b"],
    which a sanitizer returns as it is, is flagged by the first call and
    not by the second. *)
Lemma checkForHTMLTags_second_call_differs_with_sanitizer (f : sanitizer) :
  f (js "a &amp; b") (mkConfig [] [] None) = Ok (js "a &amp; b") ->
  let first := checkForHTMLTags (Some f) DANGER_PATTERNS (js "a &amp; b") in
  let second := checkForHTMLTags (Some f) (snd first) (js "a &amp; b") in
  fst first = true /\ fst second = false.
Proof.
  intros Hf. split; [reflexivity|].
  cbv zeta.
  change (snd (checkForHTMLTags (Some f) DANGER_PATTERNS (js "a &amp; b")))
    with (snd (checkForHTMLTags None DANGER_PATTERNS (js "a &amp; b"))).
  set (p := snd (checkForHTMLTags None DANGER_PATTERNS (js "a &amp; b"))).
  vm_compute in p. subst p.
  unfold checkForHTMLTags.
  change (is_empty (js "a &amp; b") || is_empty (trim (js "a &amp; b")))%bool
    with false. cbv iota.
  match goal with
  | |- context [some_test ?ps ?i] =>
      let r := eval vm_compute in (fst (some_test ps i)) in
      assert (E : fst (some_test ps i) = r) by (vm_compute; reflexivity);
      destruct (some_test ps i) as [hit ps']
  end.
  cbn [fst] in E. subst hit. rewrite Hf.
  cbn [fst]. now rewrite string_eqb_refl.
Qed.

(* ------------------------------------------------------------------ *)
(** * The mutators of [MajikUser] *)

Section MutatorFacts.

Lemma validateEmail_not_empty value :
  validateEmail value = Ok tt -> is_empty value = false.
Proof. destruct value; [discriminate|reflexivity]. Qed.

Lemma isEmailVerified_clear u :
  isEmailVerified (clear_email_verified u) = false.
Proof.
  unfold clear_email_verified, isEmailVerified.
  destruct (verification (_metadata u)) eqn:E; cbn; [reflexivity|].
  now rewrite E.
Qed.

Lemma isPhoneVerified_clear u :
  isPhoneVerified (clear_phone_verified u) = false.
Proof.
  unfold clear_phone_verified, isPhoneVerified.
  destruct (verification (_metadata u)) eqn:E; cbn; [reflexivity|].
  now rewrite E.
Qed.

Lemma phone_after_clear u :
  phone (_metadata (clear_phone_verified u)) = phone (_metadata u).
Proof.
  unfold clear_phone_verified.
  now destruct (verification (_metadata u)).
Qed.

End MutatorFacts.

(** C1. The [displayName] setter and [initialize] accept every string that
    [checkForHTMLTags] flags, whatever the sanitizer and the state of the
    patterns: the setter succeeds and stores the string as given, and
    [initialize] with a well-formed email builds a user whose display name
    is that string. No prior value is kept. *)
Theorem displayName_accepts_flagged_strings
  (san : option sanitizer) (patterns : list RegExp) (value : jsstring) :
  fst (checkForHTMLTags san patterns value) = true ->
  (forall now u,
      set_displayName value now u
      = Ok (updateTimestamp now (with_displayName value u)))
  /\ (forall hashID email id_ generated now1 now2,
         validateEmail email = Ok tt ->
         exists u,
           initialize hashID email value id_ generated now1 now2 = Ok u
           /\ _displayName u = value).
Proof.
  intros Hflag. destruct (flagged_not_blank _ _ _ Hflag) as [H1 H2]. split.
  - intros now u. unfold set_displayName.
    now rewrite is_empty_length, H1, H2.
  - intros hashID email id_ generated now1 now2 Hemail.
    unfold initialize.
    rewrite (validateEmail_not_empty _ Hemail), H1, Hemail.
    cbn [bind]. eexists. split; reflexivity.
Qed.

Lemma displayName_accepts_flagged_strings_witness :
  fst (checkForHTMLTags None DANGER_PATTERNS (js "<script>x</script>")) = true
  /\ set_displayName (js "<script>x</script>") 3000 verified_user
     = Ok (updateTimestamp 3000
             (with_displayName (js "<script>x</script>") verified_user))
  /\ exists u,
       initialize sample_hashID (js "user@example.com")
         (js "<script>x</script>") None (js "generated-id") 1 2 = Ok u
       /\ _displayName u = js "<script>x</script>".
Proof.
  split; [reflexivity|].
  destruct (@displayName_accepts_flagged_strings None DANGER_PATTERNS
              (js "<script>x</script>") eq_refl) as [Hset Hinit].
  split.
  - apply Hset.
  - apply Hinit. reflexivity.
Defined.

(** C2. [setPicture] and [setSocialLink] cannot fail and store the URI they
    are given, whatever its scheme: after [setPicture] with
    ["javascript:alert(1)"] the picture is that string, and after
    [setSocialLink] with it the map holds it under the platform. *)
Theorem uri_mutators_store_javascript_scheme
  (platform : jsstring) (now : Z) (u : MajikUser) :
  let uri := js "javascript:alert(1)" in
  exec (SetPicture uri) now u = Ok (setPicture uri now u)
  /\ picture (_metadata (setPicture uri now u)) = Some uri
  /\ exec (SetSocialLink platform uri) now u
     = Ok (setSocialLink platform uri now u)
  /\ (exists links,
         social_links (_metadata (setSocialLink platform uri now u))
         = Some links
         /\ obj_get platform links = Some uri).
Proof.
  cbv zeta. repeat split.
  eexists. split; [reflexivity|]. apply obj_get_set.
Qed.

(** C3. [setBio] stores its argument as given: after
    [setBio("I love <b>coding</b>")] the bio is ["I love <b>coding</b>"],
    not ["I love coding"]. *)
Theorem setBio_stores_markup (now : Z) (u : MajikUser) :
  (forall value, bio (_metadata (setBio value now u)) = Some value)
  /\ bio (_metadata (setBio (js "I love <b>coding</b>") now u))
     = Some (js "I love <b>coding</b>")
  /\ bio (_metadata (setBio (js "I love <b>coding</b>") now u))
     <> Some (js "I love coding").
Proof.
  split; [reflexivity|]. split; [reflexivity|].
  cbn. discriminate.
Qed.

(** C5. Whenever the email setter returns, [isEmailVerified] is [false]
    and the email is the new one; [setPhone] always returns, and then
    [isPhoneVerified] is [false] and the phone is the new one. Both hold
    whatever the flags were before. *)
Theorem contact_change_clears_verification :
  (forall value now u u',
      set_email value now u = Ok u' ->
      isEmailVerified u' = false /\ _email u' = value)
  /\ (forall value now u,
         isPhoneVerified (setPhone value now u) = false
         /\ phone (_metadata (setPhone value now u)) = Some value).
Proof.
  split.
  - intros value now u u'. unfold set_email.
    destruct (validateEmail value); [|discriminate].
    cbn [bind]. intros [= <-].
    split.
    + change (isEmailVerified
                (updateTimestamp now (clear_email_verified (with_email value u))))
        with (isEmailVerified (clear_email_verified (with_email value u))).
      apply isEmailVerified_clear.
    + unfold clear_email_verified.
      now destruct (verification (_metadata (with_email value u))).
  - intros value now u. unfold setPhone. split.
    + apply isPhoneVerified_clear.
    + now rewrite phone_after_clear.
Qed.

Lemma contact_change_clears_verification_witness :
  isEmailVerified verified_user = true
  /\ (exists u',
         set_email (js "new@example.com") 3000 verified_user = Ok u'
         /\ isEmailVerified u' = false /\ _email u' = js "new@example.com")
  /\ isPhoneVerified verified_user = true
  /\ isPhoneVerified (setPhone (js "+639123456789") 3000 verified_user)
     = false.
Proof.
  destruct contact_change_clears_verification as [Hemail Hphone].
  split; [reflexivity|]. split.
  - eexists. split; [reflexivity|].
    apply (Hemail (js "new@example.com") 3000 verified_user). reflexivity.
  - split; [reflexivity|].
    apply (Hphone (js "+639123456789") 3000 verified_user).
Defined.

(** C7. [setBirthdate] checks the shape of a string and nothing else: it
    returns exactly on the strings of the strict form [YYYY-MM-DD], and
    stores them. It accepts ["2023-02-30"], a date that [YYYYMMDDToDate]
    of [src/utils.ts] rejects as no calendar date. *)
Theorem setBirthdate_accepts_impossible_date (now : Z) (u : MajikUser) :
  (forall value,
      setBirthdate (inl value) now u
      = if is_YYYY_MM_DD value
        then Ok (updateMetadata [U_birthdate (Some value)] now u)
        else Throw "Invalid birthdate format. Use YYYY-MM-DD")
  /\ setBirthdate (inl (js "2023-02-30")) now u
     = Ok (updateMetadata [U_birthdate (Some (js "2023-02-30"))] now u)
  /\ birthdate
       (_metadata (updateMetadata [U_birthdate (Some (js "2023-02-30"))] now u))
     = Some (js "2023-02-30")
  /\ YYYYMMDDToDate (js "2023-02-30") = Throw "Invalid calendar date".
Proof.
  split.
  - intros value. unfold setBirthdate. rewrite dateRegex_shape.
    now destruct (is_YYYY_MM_DD value).
  - repeat split.
Qed.

(* ------------------------------------------------------------------ *)
(** * [validate] *)

Section ValidateFacts.

Lemma push_if_app b message errs :
  push_if b message errs = errs ++ push_if b message [].
Proof. unfold push_if. destruct b; [reflexivity|]. now rewrite app_nil_r. Qed.

Lemma In_push_if_nil b (message x : string) :
  In x (push_if b message []) <-> b = true /\ message = x.
Proof.
  unfold push_if. destruct b; cbn [app In]; intuition congruence.
Qed.

(** The report is valid exactly when no error was collected. *)
Lemma isValid_iff u : isValid (validate u) = true <-> errors (validate u) = [].
Proof.
  unfold validate. cbn [isValid errors].
  match goal with |- Nat.eqb (List.length ?l) 0 = true <-> _ => destruct l end;
    cbn; split; congruence.
Qed.

(** The errors of [validate], violation by violation: nine parts, each
    there or not by its own test, in the order of the statements. *)
Lemma validate_errors u :
  errors (validate u)
  = push_if (is_empty (id u)) "ID is required" []
    ++ push_if (is_empty (_email u)) "Email is required" []
    ++ push_if (is_empty (_displayName u)) "Display name is required" []
    ++ push_if (is_empty (_hash u)) "Hash is required" []
    ++ push_if (negb (test_literal emailRegex (_email u)))
         "Invalid email format: Error: Invalid email format" []
    ++ push_if (isInvalid (createdAt u)) "Invalid createdAt date" []
    ++ push_if (isInvalid (_lastUpdate u)) "Invalid lastUpdate date" []
    ++ match phone (_metadata u) with
       | Some p =>
           push_if (negb (is_empty p) && negb (test_literal phoneRegex p))
             "Invalid phone number format" []
       | None => []
       end
    ++ match birthdate (_metadata u) with
       | Some b =>
           push_if (negb (is_empty b) && negb (test_literal dateRegex b))
             "Invalid birthdate format" []
       | None => []
       end.
Proof.
  unfold validate, validateEmail. cbv zeta. cbn [errors].
  destruct (birthdate (_metadata u)) as [b|];
    destruct (phone (_metadata u)) as [p|];
    destruct (test_literal emailRegex (_email u)); cbn [negb bind].
  all: repeat match goal with
              | |- context [push_if ?c ?m ?errs] =>
                  lazymatch errs with
                  | [] => fail
                  | _ => rewrite (@push_if_app c m errs)
                  end
              end.
  all: change (push_if true ?m []) with [m];
    change (push_if false ?m []) with (@nil string).
  all: cbn [app]; rewrite ?app_nil_r, <- ?app_assoc; reflexivity.
Qed.

(** A message is in the report exactly when it is the message of a
    violation that is there. *)
Lemma In_validate (x : string) (u : MajikUser) :
  In x (errors (validate u))
  <-> (is_empty (id u) = true /\ "ID is required"%string = x)
      \/ (is_empty (_email u) = true /\ "Email is required"%string = x)
      \/ (is_empty (_displayName u) = true
          /\ "Display name is required"%string = x)
      \/ (is_empty (_hash u) = true /\ "Hash is required"%string = x)
      \/ (negb (test_literal emailRegex (_email u)) = true
          /\ "Invalid email format: Error: Invalid email format"%string = x)
      \/ (isInvalid (createdAt u) = true
          /\ "Invalid createdAt date"%string = x)
      \/ (isInvalid (_lastUpdate u) = true
          /\ "Invalid lastUpdate date"%string = x)
      \/ (exists p, phone (_metadata u) = Some p
                    /\ (negb (is_empty p)
                        && negb (test_literal phoneRegex p))%bool = true
                    /\ "Invalid phone number format"%string = x)
      \/ (exists b, birthdate (_metadata u) = Some b
                    /\ (negb (is_empty b)
                        && negb (test_literal dateRegex b))%bool = true
                    /\ "Invalid birthdate format"%string = x).
Proof.
  rewrite validate_errors, !in_app_iff, !In_push_if_nil.
  assert (Hp : In x match phone (_metadata u) with
                    | Some p =>
                        push_if (negb (is_empty p)
                                 && negb (test_literal phoneRegex p))
                          "Invalid phone number format" []
                    | None => []
                    end
               <-> exists p, phone (_metadata u) = Some p
                    /\ (negb (is_empty p)
                        && negb (test_literal phoneRegex p))%bool = true
                    /\ "Invalid phone number format"%string = x).
  { destruct (phone (_metadata u)) as [p|].
    - rewrite In_push_if_nil. split.
      + intros [H1 H2]. now exists p.
      + intros (p' & [= <-] & H1 & H2). auto.
    - split; [intros []|intros (p' & E & _); discriminate E]. }
  assert (Hb : In x match birthdate (_metadata u) with
                    | Some b =>
                        push_if (negb (is_empty b)
                                 && negb (test_literal dateRegex b))
                          "Invalid birthdate format" []
                    | None => []
                    end
               <-> exists b, birthdate (_metadata u) = Some b
                    /\ (negb (is_empty b)
                        && negb (test_literal dateRegex b))%bool = true
                    /\ "Invalid birthdate format"%string = x).
  { destruct (birthdate (_metadata u)) as [b|].
    - rewrite In_push_if_nil. split.
      + intros [H1 H2]. now exists b.
      + intros (b' & [= <-] & H1 & H2). auto.
    - split; [intros []|intros (b' & E & _); discriminate E]. }
  rewrite Hp, Hb. reflexivity.
Qed.

End ValidateFacts.

(** One message of the report, by the one violation that puts it there:
    the other eight messages are other strings. *)
Ltac one_message :=
  rewrite In_validate; split;
  [ let H := fresh "H" in
    let H1 := fresh "Hviolated" in
    let w := fresh "w" in
    let Hw := fresh "Hw" in
    intros [[H1 H]|[[H1 H]|[[H1 H]|[[H1 H]|[[H1 H]|[[H1 H]|[[H1 H]|
      [(w & Hw & H1 & H)|(w & Hw & H1 & H)]]]]]]]];
    try discriminate H; clear H
  | ].

(** C8. [validate] is a total function: it returns a report for every
    user, the one call that can throw being caught inside it and turned
    into a message. For every user the errors of the report are the
    messages of the violations that are there, each of the nine tests
    made whatever the others gave, in the order of the statements, and
    the report is valid exactly when there is none. So the report holds
    ["Email is required"] exactly when the email is empty, the phone
    error exactly when a phone is there and malformed, the birthdate
    error exactly when a birthdate is there and malformed, whatever the
    email is; and with an empty email the report is not valid. *)
Theorem validate_reports_every_violation (u : MajikUser) :
  errors (validate u)
  = push_if (is_empty (id u)) "ID is required" []
    ++ push_if (is_empty (_email u)) "Email is required" []
    ++ push_if (is_empty (_displayName u)) "Display name is required" []
    ++ push_if (is_empty (_hash u)) "Hash is required" []
    ++ push_if (negb (test_literal emailRegex (_email u)))
         "Invalid email format: Error: Invalid email format" []
    ++ push_if (isInvalid (createdAt u)) "Invalid createdAt date" []
    ++ push_if (isInvalid (_lastUpdate u)) "Invalid lastUpdate date" []
    ++ match phone (_metadata u) with
       | Some p =>
           push_if (negb (is_empty p) && negb (test_literal phoneRegex p))
             "Invalid phone number format" []
       | None => []
       end
    ++ match birthdate (_metadata u) with
       | Some b =>
           push_if (negb (is_empty b) && negb (test_literal dateRegex b))
             "Invalid birthdate format" []
       | None => []
       end
  /\ (isValid (validate u) = true <-> errors (validate u) = [])
  /\ (forall e, validateEmail (_email u) = Throw e ->
                In ("Invalid email format: Error: " ++ e)%string
                  (errors (validate u)))
  /\ (In "Email is required"%string (errors (validate u)) <-> _email u = [])
  /\ (In "Invalid phone number format"%string (errors (validate u))
      <-> exists p, phone (_metadata u) = Some p /\ p <> []
                    /\ test_literal phoneRegex p = false)
  /\ (In "Invalid birthdate format"%string (errors (validate u))
      <-> exists b, birthdate (_metadata u) = Some b /\ b <> []
                    /\ test_literal dateRegex b = false)
  /\ (_email u = [] -> isValid (validate u) = false).
Proof.
  split; [apply validate_errors|].
  split; [apply isValid_iff|].
  split.
  { intros e. unfold validateEmail.
    destruct (test_literal emailRegex (_email u)) eqn:E; cbn [negb];
      [discriminate|].
    intros [= <-]. apply In_validate. do 4 right. left.
    rewrite E. now split. }
  assert (Hemail : In "Email is required"%string (errors (validate u))
                   <-> _email u = []).
  { one_message.
    - now destruct (_email u).
    - intros ->. right. left. now split. }
  split; [exact Hemail|]. split; [|split].
  - one_message.
    + apply andb_prop in Hviolated as [N1 N2].
      apply negb_true_iff in N1, N2. apply is_empty_false in N1.
      eauto.
    + intros (p & Hp & Hne & Hbad). apply is_empty_false in Hne.
      do 7 right. left. exists p. now rewrite Hne, Hbad.
  - one_message.
    + apply andb_prop in Hviolated as [N1 N2].
      apply negb_true_iff in N1, N2. apply is_empty_false in N1.
      eauto.
    + intros (b & Hb & Hne & Hbad). apply is_empty_false in Hne.
      do 8 right. exists b. now rewrite Hne, Hbad.
  - intros He. apply Hemail in He.
    destruct (isValid (validate u)) eqn:E; [|reflexivity].
    apply isValid_iff in E. rewrite E in He. destruct He.
Qed.

Lemma validate_reports_every_violation_witness :
  _email broken_user = []
  /\ isValid (validate broken_user) = false
  /\ In "Email is required"%string (errors (validate broken_user))
  /\ In "Invalid phone number format"%string (errors (validate broken_user))
  /\ In "Invalid birthdate format"%string (errors (validate broken_user)).
Proof.
  destruct (validate_reports_every_violation broken_user)
    as (_ & _ & _ & Hemail & Hphone & Hbirth & Hvalid).
  split; [reflexivity|]. split; [exact (Hvalid eq_refl)|].
  split; [exact (proj2 Hemail eq_refl)|]. split.
  - apply Hphone. exists (js "0123").
    split; [reflexivity|]. split; [discriminate|reflexivity].
  - apply Hbirth. exists (js "30/02/2023").
    split; [reflexivity|]. split; [discriminate|reflexivity].
Defined.

(* ------------------------------------------------------------------ *)
(** * Serialization *)

Section JsonFacts.

Lemma required_string_ok s what :
  s <> [] -> required_string (VString s) what = Ok s.
Proof.
  intros H. apply is_empty_false in H. unfold required_string.
  now rewrite H.
Qed.

Lemma date_or_now_text s now :
  is_empty s = false -> date_or_now (Some s) now = Date_of_string s.
Proof. intros H. unfold date_or_now. now rewrite H. Qed.

(** The provider record with nothing before the [@] of its email becomes
    a user with an empty display name, which [toJSON] writes and
    [fromJSON] refuses; the digest plays no part. *)
Lemma fromSupabase_empty_displayName (hashID : jsstring -> jsstring) :
  exists u j,
    fromSupabase hashID provider_record = Ok u
    /\ _displayName u = []
    /\ toJSON u = Ok j
    /\ fromJSON j 0 0
       = Throw "Invalid user data: missing or invalid displayName".
Proof.
  eexists. eexists. split; [reflexivity|]. split; [reflexivity|].
  split; [reflexivity|]. reflexivity.
Qed.

(** [fromJSON] undoes [toJSON] on every storable user. *)
Lemma fromJSON_toJSON (u : MajikUser) (now1 now2 : Z) :
  storable u ->
  exists j, toJSON u = Ok j /\ fromJSON j now1 now2 = Ok u.
Proof.
  intros (Hid & Hemail & Hname & Hhash & Hc & Hl).
  destruct (Date_of_string_toISOString Hc) as (c & Ec & Nc & Pc).
  destruct (Date_of_string_toISOString Hl) as (l & El & Nl & Pl).
  unfold toJSON. rewrite Ec, El. cbn [bind].
  eexists. split; [reflexivity|].
  unfold fromJSON. cbn [json_id json_email json_displayName json_hash
                          json_metadata json_settings json_createdAt
                          json_lastUpdate].
  rewrite !required_string_ok by assumption. cbn [bind].
  rewrite !date_or_now_text by assumption. rewrite Pc, Pl.
  now destruct u.
Qed.

Lemma clear_email_verified_fields u :
  let u' := clear_email_verified u in
  id u' = id u /\ _email u' = _email u /\ _displayName u' = _displayName u
  /\ _hash u' = _hash u /\ createdAt u' = createdAt u
  /\ _lastUpdate u' = _lastUpdate u.
Proof.
  cbv zeta. unfold clear_email_verified.
  destruct (verification (_metadata u)); repeat split.
Qed.

Lemma clear_phone_verified_fields u :
  let u' := clear_phone_verified u in
  id u' = id u /\ _email u' = _email u /\ _displayName u' = _displayName u
  /\ _hash u' = _hash u /\ createdAt u' = createdAt u
  /\ _lastUpdate u' = _lastUpdate u.
Proof.
  cbv zeta. unfold clear_phone_verified.
  destruct (verification (_metadata u)); repeat split.
Qed.

Ltac stamped now Hnow :=
  repeat split; try assumption;
  try (exists now; split; [reflexivity|exact Hnow]).

Lemma exec_storable c now u u' :
  storable u -> Z.abs now <= maxTime -> exec c now u = Ok u' ->
  storable u'.
Proof.
  intros (Hid & Hemail & Hname & Hhash & Hc & Hl) Hnow.
  destruct c; cbn [exec].
  - unfold set_fullNameObject. destruct (_ || _)%bool; [discriminate|].
    intros [= <-]. stamped now Hnow.
  - unfold set_email. destruct (validateEmail value) as [[]|] eqn:E; [|discriminate].
    cbn [bind]. intros [= <-].
    destruct (clear_email_verified_fields (with_email value u))
      as (E1 & E2 & E3 & E4 & E5 & E6).
    unfold storable. cbn [updateTimestamp id _email _displayName _hash createdAt _lastUpdate].
    rewrite E1, E2, E3, E4, E5. cbn.
    stamped now Hnow.
    apply is_empty_false. now apply validateEmail_not_empty.
  - unfold set_displayName.
    destruct (is_empty value) eqn:E; [discriminate|]. cbn [orb].
    destruct (Nat.eqb _ _); [discriminate|].
    intros [= <-]. stamped now Hnow. now apply is_empty_false.
  - unfold set_hash.
    destruct (is_empty value) eqn:E; [discriminate|]. cbn [orb].
    destruct (Nat.eqb _ _); [discriminate|].
    intros [= <-]. stamped now Hnow. now apply is_empty_false.
  - intros [= <-]. stamped now Hnow.
  - intros [= <-]. stamped now Hnow.
  - intros [= <-]. unfold setPhone.
    destruct (clear_phone_verified_fields
                (updateMetadata [U_phone (Some value)] now u))
      as (E1 & E2 & E3 & E4 & E5 & E6).
    unfold storable. rewrite E1, E2, E3, E4, E5, E6. cbn.
    stamped now Hnow.
  - intros [= <-]. stamped now Hnow.
  - unfold setBirthdate.
    match goal with |- bind ?r _ = _ -> _ => destruct r end; [|discriminate].
    cbn [bind]. intros [= <-]. stamped now Hnow.
  - intros [= <-]. stamped now Hnow.
  - intros [= <-]. stamped now Hnow.
  - intros [= <-]. stamped now Hnow.
  - intros [= <-]. stamped now Hnow.
  - intros [= <-]. stamped now Hnow.
  - intros [= <-]. unfold removeSocialLink.
    destruct (social_links (_metadata u)); stamped now Hnow.
  - intros [= <-]. stamped now Hnow.
  - intros [= <-]. stamped now Hnow.
  - intros [= <-]. stamped now Hnow.
  - intros [= <-]. stamped now Hnow.
  - intros [= <-]. stamped now Hnow.
  - intros [= <-]. stamped now Hnow.
  - intros [= <-]. stamped now Hnow.
  - intros [= <-]. stamped now Hnow.
  - intros [= <-]. stamped now Hnow.
  - intros [= <-]. stamped now Hnow.
  - intros [= <-]. stamped now Hnow.
  - intros [= <-]. stamped now Hnow.
  - intros [= <-]. stamped now Hnow.
  - intros [= <-]. stamped now Hnow.
Qed.

Lemma run_storable history : forall u u',
  storable u -> clock_in_range history -> run history u = Ok u' ->
  storable u'.
Proof.
  induction history as [|[c now] rest IH]; intros u u' Hu Hclock Hrun.
  - cbn in Hrun. now injection Hrun as <-.
  - cbn [run] in Hrun. inversion Hclock as [|? ? Hnow Hrest]; subst.
    destruct (exec c now u) as [u1|] eqn:E; [|discriminate].
    cbn [bind] in Hrun.
    exact (IH _ _ (@exec_storable c now u u1 Hu Hnow E) Hrest Hrun).
Qed.

(** [initialize] gives a storable user when the generator and the digest
    give non-empty strings. *)
Lemma initialize_storable hashID email displayName id_ generated now1 now2 u :
  (forall i, hashID i <> []) -> generated <> [] ->
  Z.abs now1 <= maxTime -> Z.abs now2 <= maxTime ->
  initialize hashID email displayName id_ generated now1 now2 = Ok u ->
  storable u.
Proof.
  intros Hhash Hgen H1 H2. unfold initialize.
  destruct (is_empty email) eqn:Ee; [discriminate|].
  destruct (is_empty displayName) eqn:En; [discriminate|].
  destruct (validateEmail email); [|discriminate].
  cbn [bind]. intros [= <-].
  repeat split; cbn; try (now apply is_empty_false); try apply Hhash.
  - destruct id_ as [i|]; [|assumption].
    destruct (is_empty (trim i)) eqn:Ei; [assumption|].
    intros ->. discriminate.
  - exists now1. split; [reflexivity|assumption].
  - exists now2. split; [reflexivity|assumption].
Qed.

(** The round trip holds for every user built by [initialize] and changed
    by its own methods since. *)
Lemma round_trip_after_history
  hashID email displayName id_ generated now1 now2 u0 history u n1 n2 :
  (forall i, hashID i <> []) -> generated <> [] ->
  Z.abs now1 <= maxTime -> Z.abs now2 <= maxTime ->
  clock_in_range history ->
  initialize hashID email displayName id_ generated now1 now2 = Ok u0 ->
  run history u0 = Ok u ->
  exists j, toJSON u = Ok j /\ fromJSON j n1 n2 = Ok u.
Proof.
  intros Hhash Hgen H1 H2 Hclock Hinit Hrun.
  apply fromJSON_toJSON.
  pose proof (@initialize_storable hashID email displayName id_ generated
                now1 now2 u0 Hhash Hgen H1 H2 Hinit) as H0.
  exact (@run_storable history u0 u H0 Hclock Hrun).
Qed.

End JsonFacts.

(** C6, as stated, fails on entities the class can hold. [fromJSON] keeps
    a [createdAt] that is in the date-time format but out of range as an
    invalid date, and [toJSON] then throws; the constructor accepts an
    empty display name, which [toJSON] writes and [fromJSON] refuses. *)
Lemma json_round_trip_fails :
  fromJSON payload_out_of_range 0 0
  = Ok (payload_user None (Some 1704067200000))
  /\ toJSON (payload_user None (Some 1704067200000))
     = Throw "Invalid time value"
  /\ toJSON nameless_user = Ok nameless_json
  /\ fromJSON nameless_json 0 0
     = Throw "Invalid user data: missing or invalid displayName".
Proof. repeat split; vm_compute; reflexivity. Qed.

(** C6, amended. For every user whose id, email, display name and hash are
    not empty and whose two timestamps are valid instants, [toJSON]
    succeeds and [fromJSON] of its result succeeds and gives back the same
    user: the same id, email, display name, hash, metadata and settings,
    and the same two instants. The clock is not consulted. *)
Theorem json_round_trip (u : MajikUser) (now1 now2 : Z) :
  id u <> [] -> _email u <> [] -> _displayName u <> [] -> _hash u <> [] ->
  valid_instant (createdAt u) -> valid_instant (_lastUpdate u) ->
  exists j,
    toJSON u = Ok j
    /\ exists u',
         fromJSON j now1 now2 = Ok u'
         /\ id u' = id u /\ email u' = email u
         /\ displayName u' = displayName u /\ hash u' = hash u
         /\ metadata u' = metadata u /\ settings u' = settings u
         /\ createdAt u' = createdAt u /\ lastUpdate u' = lastUpdate u.
Proof.
  intros Hid Hemail Hname Hhash Hc Hl.
  destruct (@fromJSON_toJSON u now1 now2) as (j & Hj & Hback).
  { repeat split; assumption. }
  exists j. split; [exact Hj|]. exists u. repeat split. exact Hback.
Qed.

Lemma json_round_trip_witness :
  exists j,
    toJSON verified_user = Ok j
    /\ exists u',
         fromJSON j 7 8 = Ok u'
         /\ id u' = id verified_user /\ email u' = email verified_user
         /\ displayName u' = displayName verified_user
         /\ hash u' = hash verified_user
         /\ metadata u' = metadata verified_user
         /\ settings u' = settings verified_user
         /\ createdAt u' = createdAt verified_user
         /\ lastUpdate u' = lastUpdate verified_user.
Proof.
  apply (@json_round_trip verified_user 7 8); try discriminate.
  - exists 1000. split; [reflexivity|]. unfold maxTime. lia.
  - exists 2000. split; [reflexivity|]. unfold maxTime. lia.
Defined.

(* ------------------------------------------------------------------ *)
(** * Timestamps *)

Section TimestampFacts.

Lemma clear_email_verified_dates u :
  createdAt (clear_email_verified u) = createdAt u
  /\ _lastUpdate (clear_email_verified u) = _lastUpdate u.
Proof.
  unfold clear_email_verified.
  now destruct (verification (_metadata u)).
Qed.

Lemma clear_phone_verified_dates u :
  createdAt (clear_phone_verified u) = createdAt u
  /\ _lastUpdate (clear_phone_verified u) = _lastUpdate u.
Proof.
  unfold clear_phone_verified.
  now destruct (verification (_metadata u)).
Qed.

(** A successful call keeps [createdAt], and either stamps [lastUpdate]
    with the clock reading or leaves it. *)
Lemma exec_dates c now u u' :
  exec c now u = Ok u' ->
  createdAt u' = createdAt u
  /\ (_lastUpdate u' = Some now \/ _lastUpdate u' = _lastUpdate u).
Proof.
  destruct c; cbn [exec].
  - unfold set_fullNameObject. destruct (_ || _)%bool; [discriminate|].
    intros [= <-]. auto.
  - unfold set_email. destruct (validateEmail value); [|discriminate].
    cbn [bind]. intros [= <-]. cbn [updateTimestamp createdAt _lastUpdate].
    split; [|auto].
    now destruct (clear_email_verified_dates (with_email value u)).
  - unfold set_displayName. destruct (_ || _)%bool; [discriminate|].
    intros [= <-]. auto.
  - unfold set_hash. destruct (_ || _)%bool; [discriminate|].
    intros [= <-]. auto.
  - intros [= <-]. auto.
  - intros [= <-]. auto.
  - intros [= <-]. unfold setPhone.
    destruct (clear_phone_verified_dates
                (updateMetadata [U_phone (Some value)] now u)) as [-> ->].
    auto.
  - intros [= <-]. auto.
  - unfold setBirthdate.
    match goal with |- bind ?r _ = _ -> _ => destruct r end;
      [|discriminate].
    cbn [bind]. intros [= <-]. auto.
  - intros [= <-]. auto.
  - intros [= <-]. auto.
  - intros [= <-]. auto.
  - intros [= <-]. auto.
  - intros [= <-]. auto.
  - intros [= <-]. unfold removeSocialLink.
    destruct (social_links (_metadata u)); auto.
  - intros [= <-]. auto.
  - intros [= <-]. auto.
  - intros [= <-]. auto.
  - intros [= <-]. auto.
  - intros [= <-]. auto.
  - intros [= <-]. auto.
  - intros [= <-]. auto.
  - intros [= <-]. auto.
  - intros [= <-]. auto.
  - intros [= <-]. auto.
  - intros [= <-]. auto.
  - intros [= <-]. auto.
  - intros [= <-]. auto.
  - intros [= <-]. auto.
Qed.

Lemma exec_keeps_timestamps c t now u u' :
  timestamps_ok t u -> t <= now -> exec c now u = Ok u' ->
  timestamps_ok now u'
  /\ Date_le (_lastUpdate u) (_lastUpdate u')
  /\ createdAt u' = createdAt u.
Proof.
  intros (c0 & l0 & Hc & Hl & Hle) Hnow Hexec.
  destruct (exec_dates _ _ _ Hexec) as [Hc' [Hl'|Hl']].
  - split; [|split; [|assumption]].
    + exists c0, now. rewrite Hc', Hc, Hl'. repeat split; lia.
    + rewrite Hl, Hl'. cbn. lia.
  - split; [|split; [|assumption]].
    + exists c0, l0. rewrite Hc', Hc, Hl', Hl. repeat split; lia.
    + rewrite Hl', Hl. cbn. lia.
Qed.

Lemma run_keeps_timestamps history : forall t u u',
  timestamps_ok t u -> clock_ordered t history -> run history u = Ok u' ->
  timestamps_ok (last_reading t history) u'
  /\ Date_le (_lastUpdate u) (_lastUpdate u')
  /\ createdAt u' = createdAt u.
Proof.
  induction history as [|[c now] rest IH]; intros t u u' Hok Hclock Hrun.
  - cbn in Hrun. injection Hrun as <-. cbn [last_reading].
    split; [assumption|]. split; [|reflexivity].
    destruct Hok as (c0 & l0 & _ & -> & _). cbn. lia.
  - cbn [run] in Hrun. destruct Hclock as [Hnow Hrest].
    destruct (exec c now u) as [u1|] eqn:E; [|discriminate].
    cbn [bind] in Hrun.
    destruct (exec_keeps_timestamps _ Hok Hnow E) as (Hok1 & Hle1 & Hc1).
    destruct (IH _ _ _ Hok1 Hrest Hrun) as (Hok' & Hle' & Hc').
    cbn [last_reading]. split; [assumption|]. split; [|congruence].
    destruct (_lastUpdate u), (_lastUpdate u1), (_lastUpdate u');
      cbn in *; try contradiction; lia.
Qed.

Lemma timestamps_ok_le t u :
  timestamps_ok t u -> Date_le (createdAt u) (_lastUpdate u).
Proof. intros (c & l & -> & -> & H). cbn. lia. Qed.

(** [fromJSON] takes each timestamp from the payload when it is there. *)
Lemma fromJSON_dates data now1 now2 u :
  fromJSON data now1 now2 = Ok u ->
  createdAt u = date_or_now (json_createdAt data) now1
  /\ _lastUpdate u = date_or_now (json_lastUpdate data) now2.
Proof.
  unfold fromJSON.
  destruct (required_string (json_id data) "id"); [|discriminate].
  destruct (required_string (json_email data) "email"); [|discriminate].
  destruct (required_string (json_displayName data) "displayName");
    [|discriminate].
  destruct (required_string (json_hash data) "hash"); [|discriminate].
  cbn [bind]. intros [= <-]. split; reflexivity.
Qed.

(** [fromSupabase] copies the two timestamps of the provider record. *)
Lemma fromSupabase_dates hashID su u :
  fromSupabase hashID su = Ok u ->
  createdAt u = Date_of_string (su_created_at su)
  /\ _lastUpdate u
     = Date_of_string (first_truthy [su_updated_at su] (su_created_at su)).
Proof.
  unfold fromSupabase. destruct (is_empty (su_id su)); [discriminate|].
  destruct (su_email su) as [e|]; [|discriminate].
  destruct (is_empty e); [discriminate|].
  intros [= <-]. split; reflexivity.
Qed.

End TimestampFacts.

(** C9, as stated, fails for [fromJSON]: it takes both timestamps from the
    payload. A payload updated before it was created gives a user whose
    [lastUpdate] is before its [createdAt]; a payload updated in 2030 gives
    a user whose [lastUpdate] goes back when [setBio] runs in 2025. *)
Lemma fromJSON_keeps_payload_timestamps :
  fromJSON payload_backwards 0 0
  = Ok (payload_user (Some 1704067200000) (Some 1577836800000))
  /\ ~ Date_le (Some 1704067200000) (Some 1577836800000)
  /\ fromJSON payload_ahead 1750000000000 1750000000000
     = Ok (payload_user (Some 1704067200000) (Some 1893456000000))
  /\ _lastUpdate
       (setBio (js "hello") 1750000000000
          (payload_user (Some 1704067200000) (Some 1893456000000)))
     = Some 1750000000000
  /\ ~ Date_le (Some 1893456000000) (Some 1750000000000).
Proof.
  split; [vm_compute; reflexivity|]. split; [cbn; lia|].
  split; [vm_compute; reflexivity|]. split; [reflexivity|]. cbn; lia.
Qed.

(** C9, amended. Under a clock that never goes back: [initialize] gives a
    user with [createdAt <= lastUpdate], both no later than the clock; and
    from any user whose timestamps are so ordered, every history of
    successful mutating calls ends in a user with the same [createdAt],
    with [createdAt <= lastUpdate], with timestamps again so ordered, and
    with a [lastUpdate] no earlier than at the start. *)
Theorem lastUpdate_never_goes_back :
  (forall hashID email displayName id_ generated now1 now2 u,
      now1 <= now2 ->
      initialize hashID email displayName id_ generated now1 now2 = Ok u ->
      timestamps_ok now2 u)
  /\ (forall t u history u',
         timestamps_ok t u -> clock_ordered t history ->
         run history u = Ok u' ->
         timestamps_ok (last_reading t history) u'
         /\ createdAt u' = createdAt u
         /\ Date_le (createdAt u') (_lastUpdate u')
         /\ Date_le (_lastUpdate u) (_lastUpdate u')).
Proof.
  split.
  - intros hashID email displayName id_ generated now1 now2 u Hle.
    unfold initialize.
    destruct (is_empty email); [discriminate|].
    destruct (is_empty displayName); [discriminate|].
    destruct (validateEmail email); [|discriminate].
    cbn [bind]. intros [= <-].
    exists now1, now2. repeat split; lia.
  - intros t u history u' Hok Hclock Hrun.
    destruct (run_keeps_timestamps history Hok Hclock Hrun) as (Hok' & Hle & Hc).
    split; [assumption|]. split; [assumption|].
    split; [|assumption]. exact (timestamps_ok_le Hok').
Qed.

Lemma lastUpdate_never_goes_back_witness :
  initialize sample_hashID (js "user@example.com") (js "Josef") None
    (js "generated-id") 10 10 = Ok fresh_user
  /\ timestamps_ok 10 fresh_user
  /\ run sample_history fresh_user = Ok (updated_user)
  /\ timestamps_ok 30 updated_user
  /\ Date_le (createdAt updated_user) (_lastUpdate updated_user)
  /\ Date_le (_lastUpdate fresh_user) (_lastUpdate updated_user).
Proof.
  destruct lastUpdate_never_goes_back as [Hinit Hrun].
  assert (Hfresh : initialize sample_hashID (js "user@example.com")
                     (js "Josef") None (js "generated-id") 10 10
                   = Ok fresh_user) by reflexivity.
  assert (H0 : timestamps_ok 10 fresh_user)
    by (apply (Hinit _ _ _ _ _ 10 10 _ (Z.le_refl 10) Hfresh)).
  assert (Hclock : clock_ordered 10 sample_history) by (cbn; lia).
  assert (Hhist : run sample_history fresh_user = Ok updated_user)
    by reflexivity.
  destruct (Hrun 10 fresh_user sample_history updated_user H0 Hclock Hhist)
    as (Hok & _ & Hle & Hmono).
  repeat split; assumption.
Defined.

(* ------------------------------------------------------------------ *)
(** * Verification flags *)

Section VerificationFacts.

Lemma flags_of_updateMetadata v now u :
  verification (_metadata (updateMetadata [U_verification (Some v)] now u))
  = Some v.
Proof. reflexivity. Qed.

Lemma verify_calls_flags (now : Z) (u : MajikUser) :
  (isEmailVerified (verifyEmail now u) = true
   /\ isPhoneVerified (verifyEmail now u) = isPhoneVerified u
   /\ isIdentityVerified (verifyEmail now u) = isIdentityVerified u)
  /\ (isPhoneVerified (verifyPhone now u) = true
      /\ isEmailVerified (verifyPhone now u) = isEmailVerified u
      /\ isIdentityVerified (verifyPhone now u) = isIdentityVerified u)
  /\ (isIdentityVerified (verifyIdentity now u) = true
      /\ isEmailVerified (verifyIdentity now u) = isEmailVerified u
      /\ isPhoneVerified (verifyIdentity now u) = isPhoneVerified u).
Proof.
  unfold isEmailVerified, isPhoneVerified, isIdentityVerified, verifyEmail,
    verifyPhone, verifyIdentity, put_email_verified, put_phone_verified,
    put_identity_verified, currentVerification.
  rewrite !flags_of_updateMetadata.
  destruct (verification (_metadata u)); cbn; repeat split.
Qed.

End VerificationFacts.

(** X1. Each of the six verification calls writes its own flag and leaves
    the other two as the getters read them, also when the user had no
    verification record. *)
Theorem verification_call_writes_one_flag (now : Z) (u : MajikUser) :
  (isEmailVerified (verifyEmail now u) = true
   /\ isPhoneVerified (verifyEmail now u) = isPhoneVerified u
   /\ isIdentityVerified (verifyEmail now u) = isIdentityVerified u)
  /\ (isEmailVerified (unverifyEmail now u) = false
      /\ isPhoneVerified (unverifyEmail now u) = isPhoneVerified u
      /\ isIdentityVerified (unverifyEmail now u) = isIdentityVerified u)
  /\ (isPhoneVerified (verifyPhone now u) = true
      /\ isEmailVerified (verifyPhone now u) = isEmailVerified u
      /\ isIdentityVerified (verifyPhone now u) = isIdentityVerified u)
  /\ (isPhoneVerified (unverifyPhone now u) = false
      /\ isEmailVerified (unverifyPhone now u) = isEmailVerified u
      /\ isIdentityVerified (unverifyPhone now u) = isIdentityVerified u)
  /\ (isIdentityVerified (verifyIdentity now u) = true
      /\ isEmailVerified (verifyIdentity now u) = isEmailVerified u
      /\ isPhoneVerified (verifyIdentity now u) = isPhoneVerified u)
  /\ (isIdentityVerified (unverifyIdentity now u) = false
      /\ isEmailVerified (unverifyIdentity now u) = isEmailVerified u
      /\ isPhoneVerified (unverifyIdentity now u) = isPhoneVerified u).
Proof.
  unfold isEmailVerified, isPhoneVerified, isIdentityVerified, verifyEmail,
    unverifyEmail, verifyPhone, unverifyPhone, verifyIdentity,
    unverifyIdentity, put_email_verified, put_phone_verified,
    put_identity_verified, currentVerification.
  rewrite !flags_of_updateMetadata.
  destruct (verification (_metadata u)); cbn; repeat split.
Qed.

Section VerifyHistories.

Lemma exec_verify_flags c now u u' :
  is_verify_call c = true -> exec c now u = Ok u' ->
  isEmailVerified u' = (isEmailVerified u || is_VerifyEmail c)%bool
  /\ isPhoneVerified u' = (isPhoneVerified u || is_VerifyPhone c)%bool
  /\ isIdentityVerified u'
     = (isIdentityVerified u || is_VerifyIdentity c)%bool.
Proof.
  destruct (verify_calls_flags now u) as (He & Hp & Hi).
  destruct c; try discriminate; intros _ [= <-]; cbn [exec is_VerifyEmail
    is_VerifyPhone is_VerifyIdentity].
  - destruct He as (-> & -> & ->). now rewrite orb_true_r, !orb_false_r.
  - destruct Hp as (-> & -> & ->). now rewrite orb_true_r, !orb_false_r.
  - destruct Hi as (-> & -> & ->). now rewrite orb_true_r, !orb_false_r.
Qed.

Lemma run_verify_flags history : forall u u',
  forallb is_verify_call (calls history) = true ->
  run history u = Ok u' ->
  isEmailVerified u'
  = (isEmailVerified u || existsb is_VerifyEmail (calls history))%bool
  /\ isPhoneVerified u'
     = (isPhoneVerified u || existsb is_VerifyPhone (calls history))%bool
  /\ isIdentityVerified u'
     = (isIdentityVerified u
        || existsb is_VerifyIdentity (calls history))%bool.
Proof.
  induction history as [|[c now] rest IH]; intros u u' Hall Hrun.
  - cbn in Hrun. injection Hrun as <-. cbn. now rewrite !orb_false_r.
  - cbn [calls map fst forallb] in Hall. apply andb_prop in Hall as [Hc Hrest].
    cbn [run] in Hrun.
    destruct (exec c now u) as [u1|] eqn:E; [|discriminate].
    cbn [bind] in Hrun.
    destruct (@exec_verify_flags c now u u1 Hc E) as (E1 & E2 & E3).
    destruct (IH u1 u' Hrest Hrun) as (F1 & F2 & F3).
    cbn [calls map fst existsb]. fold (calls rest).
    rewrite F1, F2, F3, E1, E2, E3. now rewrite !orb_assoc.
Qed.

End VerifyHistories.

(** X2. A history made of [verifyEmail], [verifyPhone] and
    [verifyIdentity] calls, in any order and number, always runs to its
    end, and the user is fully verified after it exactly when each flag
    was set before or its call is in the history. *)
Theorem full_verification_by_history
  (history : list (call * Z)) (u : MajikUser) :
  forallb is_verify_call (calls history) = true ->
  exists u',
    run history u = Ok u'
    /\ isFullyVerified u'
       = ((isEmailVerified u || existsb is_VerifyEmail (calls history))
          && (isPhoneVerified u || existsb is_VerifyPhone (calls history))
          && (isIdentityVerified u
              || existsb is_VerifyIdentity (calls history)))%bool.
Proof.
  intros Hall.
  assert (Hruns : exists u', run history u = Ok u').
  { clear - Hall. revert u.
    induction history as [|[c now] rest IH]; intros u.
    - now exists u.
    - cbn [calls map fst forallb] in Hall.
      apply andb_prop in Hall as [Hc Hrest].
      cbn [run]. destruct c; try discriminate; cbn [exec bind]; now apply IH. }
  destruct Hruns as (u' & Hrun). exists u'. split; [exact Hrun|].
  unfold isFullyVerified.
  destruct (@run_verify_flags history u u' Hall Hrun) as (-> & -> & ->).
  reflexivity.
Qed.

Lemma full_verification_by_history_witness :
  isFullyVerified fresh_user = false
  /\ exists u',
       run [(VerifyPhone, 11); (VerifyIdentity, 12); (VerifyEmail, 13)]
         fresh_user = Ok u'
       /\ isFullyVerified u' = true.
Proof.
  split; [reflexivity|].
  destruct (@full_verification_by_history
              [(VerifyPhone, 11); (VerifyIdentity, 12); (VerifyEmail, 13)]
              fresh_user eq_refl) as (u' & Hrun & Hfull).
  exists u'. split; [exact Hrun|]. rewrite Hfull. reflexivity.
Defined.

(** X3. Changing the email or the phone of a fully verified user clears
    that one flag: the user is no longer fully verified, and the two other
    flags stay set. *)
Theorem contact_change_ends_full_verification
  (value : jsstring) (now : Z) (u : MajikUser) :
  isFullyVerified u = true ->
  (forall u', set_email value now u = Ok u' ->
              isFullyVerified u' = false
              /\ isPhoneVerified u' = true /\ isIdentityVerified u' = true)
  /\ (isFullyVerified (setPhone value now u) = false
      /\ isEmailVerified (setPhone value now u) = true
      /\ isIdentityVerified (setPhone value now u) = true).
Proof.
  unfold isFullyVerified, isEmailVerified, isPhoneVerified,
    isIdentityVerified.
  intros Hfull. split.
  - intros u'. unfold set_email.
    destruct (validateEmail value); [|discriminate]. cbn [bind].
    intros [= <-]. unfold clear_email_verified.
    cbn [with_email _metadata updateTimestamp].
    destruct (verification (_metadata u)) as [v|]; [|discriminate].
    cbn. apply andb_prop in Hfull as [H12 H3].
    apply andb_prop in H12 as [H1 H2]. now rewrite H2, H3.
  - unfold setPhone, clear_phone_verified.
    cbn [updateMetadata merge fold_left assign _metadata updateTimestamp
           with_metadata verification].
    destruct (verification (_metadata u)) as [v|]; [|discriminate].
    cbn. apply andb_prop in Hfull as [H12 H3].
    apply andb_prop in H12 as [H1 H2]. rewrite H1, H3. now rewrite andb_false_r.
Qed.

Lemma contact_change_ends_full_verification_witness :
  isFullyVerified verified_user = true
  /\ isFullyVerified (setPhone (js "+639123456789") 3000 verified_user)
     = false
  /\ isEmailVerified (setPhone (js "+639123456789") 3000 verified_user)
     = true.
Proof.
  destruct (@contact_change_ends_full_verification (js "+639123456789") 3000
              verified_user eq_refl) as (_ & H1 & H2 & _).
  split; [reflexivity|]. split; assumption.
Defined.

(* ------------------------------------------------------------------ *)
(** * Restriction and settings *)

Section SettingsFacts.

Lemma obj_spread_nil (V : Type) (obj : object V) : obj_spread obj [] = obj.
Proof. reflexivity. Qed.

End SettingsFacts.

(** X4. After [restrict(until)] the user is restricted at a clock reading
    [t] always when no expiry was given, exactly while [t] is before a
    valid expiry, and never when the expiry is an invalid date; after
    [unrestrict] the user is not restricted and the expiry is gone. *)
Theorem restriction_follows_expiry (t e now : Z) (u : MajikUser) :
  isCurrentlyRestricted t (restrict None now u) = true
  /\ isCurrentlyRestricted t (restrict (Some (Some e)) now u) = (t <? e)
  /\ isCurrentlyRestricted t (restrict (Some None) now u) = false
  /\ isCurrentlyRestricted t (unrestrict now u) = false
  /\ restrictedUntil (system (_settings (unrestrict now u))) = None
  /\ isCurrentlyRestricted t
       (unrestrict (now + 1) (restrict (Some (Some e)) now u)) = false.
Proof. repeat split. Qed.

(** X5. [updateSettings] merges the [system] record key by key: an update
    that carries [system] without the [restrictedUntil] key keeps the
    expiry that was set, so a restriction renewed that way still ends at
    the old expiry; and an update without [system] leaves the restriction
    as it was. *)
Theorem updateSettings_keeps_unmentioned_expiry
  (t e now now' : Z) (u : MajikUser) (b : bool) (other : object jsval) :
  isCurrentlyRestricted t
    (updateSettings
       (mkSettingsUpdates None (Some (mkSystemUpdate true None)) other) now'
       (restrict (Some (Some e)) now u))
  = (t <? e)
  /\ isCurrentlyRestricted t
       (updateSettings (mkSettingsUpdates (Some b) None other) now' u)
     = isCurrentlyRestricted t u
  /\ isCurrentlyRestricted t (enableNotifications now' u)
     = isCurrentlyRestricted t u
  /\ isCurrentlyRestricted t (disableNotifications now' u)
     = isCurrentlyRestricted t u.
Proof. repeat split. Qed.

Section FrameFacts.

Lemma clear_email_verified_frame u :
  let u' := clear_email_verified u in
  id u' = id u /\ _email u' = _email u /\ _displayName u' = _displayName u
  /\ _hash u' = _hash u /\ _settings u' = _settings u.
Proof.
  cbv zeta. unfold clear_email_verified.
  destruct (verification (_metadata u)); repeat split.
Qed.

Lemma clear_phone_verified_frame u :
  let u' := clear_phone_verified u in
  id u' = id u /\ _email u' = _email u /\ _displayName u' = _displayName u
  /\ _hash u' = _hash u /\ _settings u' = _settings u.
Proof.
  cbv zeta. unfold clear_phone_verified.
  destruct (verification (_metadata u)); repeat split.
Qed.

(** What one successful call leaves alone. *)
Lemma exec_frame c now u u' :
  exec c now u = Ok u' ->
  id u' = id u
  /\ (is_Set_email c = false -> _email u' = _email u)
  /\ (is_Set_displayName c = false -> _displayName u' = _displayName u)
  /\ (is_Set_hash c = false -> _hash u' = _hash u)
  /\ (is_settings_call c = false -> _settings u' = _settings u)
  /\ (is_settings_call c = true -> _metadata u' = _metadata u).
Proof.
  destruct c; cbn [exec is_Set_email is_Set_displayName is_Set_hash
                     is_settings_call].
  - unfold set_fullNameObject. destruct (_ || _)%bool; [discriminate|].
    intros [= <-]. repeat split; discriminate.
  - unfold set_email. destruct (validateEmail value); [|discriminate].
    cbn [bind]. intros [= <-].
    destruct (clear_email_verified_frame (with_email value u))
      as (E1 & E2 & E3 & E4 & E5).
    cbn [updateTimestamp id _email _displayName _hash _settings].
    rewrite E1, E3, E4, E5. repeat split; discriminate.
  - unfold set_displayName. destruct (_ || _)%bool; [discriminate|].
    intros [= <-]. repeat split; discriminate.
  - unfold set_hash. destruct (_ || _)%bool; [discriminate|].
    intros [= <-]. repeat split; discriminate.
  - intros [= <-]. repeat split; discriminate.
  - intros [= <-]. repeat split; discriminate.
  - intros [= <-]. unfold setPhone.
    destruct (clear_phone_verified_frame
                (updateMetadata [U_phone (Some value)] now u))
      as (E1 & E2 & E3 & E4 & E5).
    rewrite E1, E2, E3, E4, E5. repeat split; discriminate.
  - intros [= <-]. repeat split; discriminate.
  - unfold setBirthdate.
    match goal with |- bind ?r _ = _ -> _ => destruct r end; [|discriminate].
    cbn [bind]. intros [= <-]. repeat split; discriminate.
  - intros [= <-]. repeat split; discriminate.
  - intros [= <-]. repeat split; discriminate.
  - intros [= <-]. repeat split; discriminate.
  - intros [= <-]. repeat split; discriminate.
  - intros [= <-]. repeat split; discriminate.
  - intros [= <-]. unfold removeSocialLink.
    destruct (social_links (_metadata u)); repeat split; discriminate.
  - intros [= <-]. repeat split; discriminate.
  - intros [= <-]. repeat split; discriminate.
  - intros [= <-]. repeat split; discriminate.
  - intros [= <-]. repeat split; discriminate.
  - intros [= <-]. repeat split; discriminate.
  - intros [= <-]. repeat split; discriminate.
  - intros [= <-]. repeat split; discriminate.
  - intros [= <-]. repeat split; discriminate.
  - intros [= <-]. repeat split; discriminate.
  - intros [= <-]. repeat split; discriminate.
  - intros [= <-]. repeat split; discriminate.
  - intros [= <-]. repeat split; discriminate.
  - intros [= <-]. repeat split; discriminate.
  - intros [= <-]. repeat split; discriminate.
Qed.

End FrameFacts.

(** X6. Through every history of successful calls the id stays what it
    was, and the email, the display name and the hash change only by
    their own setters: a history without [set hash] keeps the hash (it is
    never recomputed), one without [set email] keeps the email, one
    without [set displayName] keeps the display name. *)
Theorem identity_fields_change_only_by_their_setters
  (history : list (call * Z)) :
  forall u u', run history u = Ok u' ->
    id u' = id u
    /\ (existsb is_Set_hash (calls history) = false -> _hash u' = _hash u)
    /\ (existsb is_Set_email (calls history) = false -> _email u' = _email u)
    /\ (existsb is_Set_displayName (calls history) = false ->
        _displayName u' = _displayName u).
Proof.
  induction history as [|[c now] rest IH]; intros u u' Hrun.
  - cbn in Hrun. injection Hrun as <-. repeat split.
  - cbn [run] in Hrun.
    destruct (exec c now u) as [u1|] eqn:E; [|discriminate].
    cbn [bind] in Hrun.
    destruct (@exec_frame c now u u1 E) as (F1 & F2 & F3 & F4 & _).
    destruct (IH u1 u' Hrun) as (G1 & G2 & G3 & G4).
    cbn [calls map fst existsb]. fold (calls rest).
    split; [congruence|].
    repeat split; intros H; apply orb_false_elim in H as [Hc Hrest].
    + rewrite (G2 Hrest). exact (F4 Hc).
    + rewrite (G3 Hrest). exact (F2 Hc).
    + rewrite (G4 Hrest). exact (F3 Hc).
Qed.

Lemma identity_fields_change_only_by_their_setters_witness :
  run sample_history fresh_user = Ok updated_user
  /\ id updated_user = id fresh_user
  /\ _hash updated_user = _hash fresh_user
  /\ _displayName updated_user = _displayName fresh_user.
Proof.
  destruct (@identity_fields_change_only_by_their_setters sample_history
              fresh_user updated_user eq_refl) as (H1 & H2 & _ & H4).
  split; [reflexivity|]. split; [exact H1|].
  split; [exact (H2 eq_refl)|exact (H4 eq_refl)].
Defined.

(** X7. A call that writes the settings leaves the metadata as it was, and
    every other call leaves the settings as they were. *)
Theorem settings_and_metadata_are_written_apart
  (c : call) (now : Z) (u u' : MajikUser) :
  exec c now u = Ok u' ->
  if is_settings_call c then _metadata u' = _metadata u
  else _settings u' = _settings u.
Proof.
  intros E. destruct (@exec_frame c now u u' E) as (_ & _ & _ & _ & F5 & F6).
  destruct (is_settings_call c); auto.
Qed.

Lemma settings_and_metadata_are_written_apart_witness :
  _metadata (restrict None 3000 verified_user) = _metadata verified_user
  /\ _settings (setBio (js "hello") 3000 verified_user)
     = _settings verified_user.
Proof.
  split.
  - exact (@settings_and_metadata_are_written_apart (Restrict None) 3000
             verified_user _ eq_refl).
  - exact (@settings_and_metadata_are_written_apart (SetBio (js "hello")) 3000
             verified_user _ eq_refl).
Defined.

(* ------------------------------------------------------------------ *)
(** * Profile completion *)

Section CompletionFacts.

Lemma completedFields_le u : (completedFields u <= 7)%nat.
Proof.
  unfold completedFields.
  exact (filter_length_le (fun b : bool => b) (completed u)).
Qed.

Lemma percentage_table n : (n <= 7)%nat ->
  Math_round_div (Z.of_nat n * 100) 7
  = nth n [0; 14; 29; 43; 57; 71; 86; 100] 0.
Proof.
  intros H.
  do 8 (destruct n as [|n]; [reflexivity|]). lia.
Qed.

End CompletionFacts.

(** X8. [getProfileCompletionPercentage] is one of 0, 14, 29, 43, 57, 71,
    86 and 100, by the number of fields that count; it is 100 exactly when
    all seven count and 0 exactly when none does. A name without picture,
    phone, gender, birthdate, address and bio gives 14. *)
Theorem completion_percentage_values (u : MajikUser) :
  getProfileCompletionPercentage u
  = nth (completedFields u) [0; 14; 29; 43; 57; 71; 86; 100] 0
  /\ 0 <= getProfileCompletionPercentage u <= 100
  /\ (getProfileCompletionPercentage u = 100
      <-> forallb (fun b => b) (completed u) = true)
  /\ (getProfileCompletionPercentage u = 0
      <-> existsb (fun b => b) (completed u) = false).
Proof.
  unfold getProfileCompletionPercentage.
  rewrite (percentage_table (completedFields_le u)).
  split; [reflexivity|].
  unfold completedFields, completed. cbv zeta.
  match goal with
  | |- context [filter _ [?b1; ?b2; ?b3; ?b4; ?b5; ?b6; ?b7]] =>
      destruct b1, b2, b3, b4, b5, b6, b7
  end;
    cbn; repeat split; intros; try lia; try discriminate; try reflexivity.
Qed.

(** X9. A profile that [hasCompleteProfile] calls complete scores at
    least 57, and exactly 57 when it has no picture, no bio and an address
    without any key; a profile that scores 100 is complete. *)
Theorem complete_profile_and_percentage (u : MajikUser) :
  (hasCompleteProfile u = true -> 57 <= getProfileCompletionPercentage u)
  /\ (getProfileCompletionPercentage u = 100 -> hasCompleteProfile u = true)
  /\ (hasCompleteProfile u = true ->
      truthy_str (picture (_metadata u)) = false ->
      truthy_str (bio (_metadata u)) = false ->
      (forall a, address (_metadata u) = Some a -> address_keys a = 0%nat) ->
      getProfileCompletionPercentage u = 57).
Proof.
  unfold getProfileCompletionPercentage.
  rewrite (percentage_table (completedFields_le u)).
  unfold hasCompleteProfile, completedFields, completed.
  destruct (name (_metadata u)); destruct (truthy_str (phone (_metadata u)));
    destruct (truthy_str (birthdate (_metadata u)));
    destruct (gender (_metadata u));
    destruct (truthy_str (picture (_metadata u)));
    destruct (truthy_str (bio (_metadata u)));
    destruct (address (_metadata u)) as [a|];
    try destruct (Nat.ltb 0 (address_keys a)) eqn:Ea;
    cbn; repeat split; intros; try lia; try discriminate; try reflexivity.
  all: match goal with
       | H : forall a0, Some ?a = Some a0 -> _ |- _ =>
           specialize (H a eq_refl); rewrite H in Ea; discriminate
       end.
Qed.

Lemma complete_profile_and_percentage_witness :
  hasCompleteProfile bare_complete_user = true
  /\ getProfileCompletionPercentage bare_complete_user = 57.
Proof.
  destruct (complete_profile_and_percentage bare_complete_user)
    as (_ & _ & H).
  split; [reflexivity|].
  apply H; try reflexivity.
  intros a [= <-]. reflexivity.
Defined.

Section CompletionGrowth.

Lemma completed_clear_phone_verified u :
  completed (clear_phone_verified u) = completed u.
Proof.
  unfold clear_phone_verified.
  now destruct (verification (_metadata u)).
Qed.

(** The score by the seven answers of the filter. *)
Lemma percentage_of_completed u :
  getProfileCompletionPercentage u
  = nth (List.length (filter (fun b => b) (completed u)))
      [0; 14; 29; 43; 57; 71; 86; 100] 0.
Proof.
  unfold getProfileCompletionPercentage.
  now rewrite (percentage_table (completedFields_le u)).
Qed.

End CompletionGrowth.

(** X10. Storing a non-empty bio, picture or phone never lowers the
    completion percentage, and raises it when that field did not count
    before. *)
Theorem completion_grows_with_fields
  (value : jsstring) (now : Z) (u : MajikUser) :
  value <> [] ->
  (getProfileCompletionPercentage u
   <= getProfileCompletionPercentage (setBio value now u)
   /\ (truthy_str (bio (_metadata u)) = false ->
       getProfileCompletionPercentage u
       < getProfileCompletionPercentage (setBio value now u)))
  /\ (getProfileCompletionPercentage u
      <= getProfileCompletionPercentage (setPicture value now u)
      /\ (truthy_str (picture (_metadata u)) = false ->
          getProfileCompletionPercentage u
          < getProfileCompletionPercentage (setPicture value now u)))
  /\ (getProfileCompletionPercentage u
      <= getProfileCompletionPercentage (setPhone value now u)
      /\ (truthy_str (phone (_metadata u)) = false ->
          getProfileCompletionPercentage u
          < getProfileCompletionPercentage (setPhone value now u))).
Proof.
  intros Hne. destruct value as [|c value]; [congruence|]. clear Hne.
  rewrite !percentage_of_completed.
  unfold setPhone. rewrite completed_clear_phone_verified.
  unfold completed, setBio, setPicture. cbv zeta.
  cbn [updateMetadata merge fold_left assign _metadata updateTimestamp
         with_metadata name picture phone gender birthdate address bio].
  cbn [truthy_str is_empty negb].
  generalize (truthy_str (bio (_metadata u))).
  generalize (truthy_str (picture (_metadata u))).
  generalize (truthy_str (phone (_metadata u))).
  generalize (truthy_str (birthdate (_metadata u))).
  generalize (match name (_metadata u) with Some _ => true | None => false end).
  generalize (match gender (_metadata u) with Some _ => true | None => false end).
  generalize (match address (_metadata u) with
              | Some a => Nat.ltb 0 (address_keys a)
              | None => false
              end).
  intros b1 b2 b3 b4 b5 b6 b7.
  destruct b1, b2, b3, b4, b5, b6, b7; cbn;
    repeat split; intros; try lia; try discriminate.
Qed.

Lemma completion_grows_with_fields_witness :
  getProfileCompletionPercentage fresh_user = 0
  /\ getProfileCompletionPercentage (setBio (js "hello") 20 fresh_user) = 14.
Proof.
  destruct (@completion_grows_with_fields (js "hello") 20 fresh_user)
    as ((_ & H) & _); [discriminate|].
  specialize (H eq_refl).
  split; reflexivity.
Defined.

(* ------------------------------------------------------------------ *)
(** * Social links *)

Section ObjectFacts.

Variable V : Type.

Lemma string_eqb_neq (s t : jsstring) : JsString.eqb s t = false <-> s <> t.
Proof.
  split.
  - intros H E. apply string_eqb_eq in E. congruence.
  - intros H. destruct (JsString.eqb s t) eqn:E; [|reflexivity].
    apply string_eqb_eq in E. contradiction.
Qed.

Lemma obj_get_set_other (key other : jsstring) (v : V) (obj : object V) :
  other <> key -> obj_get other (obj_set key v obj) = obj_get other obj.
Proof.
  intros Hne. induction obj as [|[k w] rest IH]; cbn [obj_set obj_get].
  - apply not_eq_sym in Hne. apply string_eqb_neq in Hne. now rewrite Hne.
  - destruct (JsString.eqb k key) eqn:E; cbn [obj_get].
    + apply string_eqb_eq in E. subst k.
      apply not_eq_sym in Hne. apply string_eqb_neq in Hne. now rewrite Hne.
    + destruct (JsString.eqb k other); [reflexivity|exact IH].
Qed.

Lemma obj_get_None (key : jsstring) (obj : object V) :
  ~ In key (keys obj) -> obj_get key obj = None.
Proof.
  induction obj as [|[k w] rest IH]; cbn [obj_get keys map fst In];
    [reflexivity|].
  intros H. destruct (JsString.eqb k key) eqn:E.
  - apply string_eqb_eq in E. tauto.
  - apply IH. tauto.
Qed.

Lemma keys_obj_set (key : jsstring) (v : V) (obj : object V) :
  forall k, In k (keys (obj_set key v obj)) <-> k = key \/ In k (keys obj).
Proof.
  induction obj as [|[k0 w] rest IH]; intros k;
    cbn [obj_set keys map fst In].
  - split; intros [H|H]; auto; contradiction.
  - destruct (JsString.eqb k0 key) eqn:E; cbn [keys map fst In].
    + apply string_eqb_eq in E. subst k0. split; [tauto|].
      intros [H|H]; auto.
    + fold (keys (obj_set key v rest)). rewrite IH. fold (keys rest). tauto.
Qed.

Lemma NoDup_obj_set (key : jsstring) (v : V) (obj : object V) :
  NoDup (keys obj) -> NoDup (keys (obj_set key v obj)).
Proof.
  induction obj as [|[k0 w] rest IH]; cbn [obj_set keys map fst]; intros H.
  - constructor; [intros []|constructor].
  - inversion H as [|? ? Hnotin Hrest]; subst.
    destruct (JsString.eqb k0 key) eqn:E; cbn [keys map fst].
    + exact H.
    + constructor; [|exact (IH Hrest)].
      fold (keys (obj_set key v rest)). rewrite keys_obj_set.
      apply string_eqb_neq in E. intros [->|Hin]; [congruence|].
      exact (Hnotin Hin).
Qed.

Lemma keys_obj_delete (key : jsstring) (obj : object V) :
  forall k, In k (keys (obj_delete key obj)) -> In k (keys obj).
Proof.
  induction obj as [|[k0 w] rest IH]; intros k; cbn [obj_delete keys map fst];
    [auto|].
  destruct (JsString.eqb k0 key); cbn [keys map fst In].
  - fold (keys rest). auto.
  - fold (keys (obj_delete key rest)) (keys rest). intros [H|H]; auto.
Qed.

Lemma NoDup_obj_delete (key : jsstring) (obj : object V) :
  NoDup (keys obj) -> NoDup (keys (obj_delete key obj)).
Proof.
  induction obj as [|[k0 w] rest IH]; cbn [obj_delete keys map fst]; intros H;
    [constructor|].
  inversion H as [|? ? Hnotin Hrest]; subst.
  destruct (JsString.eqb k0 key); cbn [keys map fst]; [exact Hrest|].
  constructor; [|exact (IH Hrest)].
  intros Hin. apply Hnotin. exact (keys_obj_delete _ _ _ Hin).
Qed.

Lemma obj_get_delete (key : jsstring) (obj : object V) :
  NoDup (keys obj) -> obj_get key (obj_delete key obj) = None.
Proof.
  induction obj as [|[k0 w] rest IH]; cbn [obj_delete keys map fst];
    intros H; [reflexivity|].
  inversion H as [|? ? Hnotin Hrest]; subst.
  destruct (JsString.eqb k0 key) eqn:E.
  - apply string_eqb_eq in E. subst k0. now apply obj_get_None.
  - cbn [obj_get]. rewrite E. exact (IH Hrest).
Qed.

Lemma obj_get_delete_other (key other : jsstring) (obj : object V) :
  other <> key -> obj_get other (obj_delete key obj) = obj_get other obj.
Proof.
  intros Hne. induction obj as [|[k0 w] rest IH]; cbn [obj_delete obj_get];
    [reflexivity|].
  destruct (JsString.eqb k0 key) eqn:E; cbn [obj_get].
  - apply string_eqb_eq in E. subst k0.
    apply not_eq_sym in Hne. apply string_eqb_neq in Hne. now rewrite Hne.
  - destruct (JsString.eqb k0 other); [reflexivity|exact IH].
Qed.

End ObjectFacts.

(** X11. After [setSocialLink(platform, url)] the link of that platform is
    [url], the link of every other platform is what it was, and the keys
    of the map stay distinct; this holds also when the user had no map. *)
Theorem setSocialLink_then_lookup
  (platform url : jsstring) (now : Z) (u : MajikUser) :
  socialLink platform (setSocialLink platform url now u) = Some url
  /\ (forall other, other <> platform ->
        socialLink other (setSocialLink platform url now u)
        = socialLink other u)
  /\ (links_distinct u -> links_distinct (setSocialLink platform url now u)).
Proof.
  unfold socialLink, links_distinct, setSocialLink.
  cbn [updateMetadata merge fold_left assign _metadata updateTimestamp
         with_metadata social_links].
  split; [apply obj_get_set|]. split.
  - intros other Hne. rewrite obj_get_set_other by assumption.
    now destruct (social_links (_metadata u)).
  - destruct (social_links (_metadata u)); intros H.
    + now apply NoDup_obj_set.
    + apply NoDup_obj_set. constructor.
Qed.

(** X12. For a user whose link keys are distinct, after
    [removeSocialLink(platform)] that platform has no link, every other
    platform keeps its link, and the keys stay distinct. *)
Theorem removeSocialLink_then_lookup
  (platform : jsstring) (now : Z) (u : MajikUser) :
  links_distinct u ->
  socialLink platform (removeSocialLink platform now u) = None
  /\ (forall other, other <> platform ->
        socialLink other (removeSocialLink platform now u)
        = socialLink other u)
  /\ links_distinct (removeSocialLink platform now u).
Proof.
  unfold socialLink, links_distinct, removeSocialLink.
  destruct (social_links (_metadata u)) as [links|] eqn:E.
  - cbn [updateMetadata merge fold_left assign _metadata updateTimestamp
           with_metadata social_links].
    intros H. split; [now apply obj_get_delete|]. split.
    + intros other Hne. now apply obj_get_delete_other.
    + now apply NoDup_obj_delete.
  - rewrite E. intros _. repeat split.
Qed.

Lemma removeSocialLink_then_lookup_witness :
  socialLink (js "X") linked_user = Some (js "https://x.com/josef")
  /\ socialLink (js "X") (removeSocialLink (js "X") 3000 linked_user) = None
  /\ socialLink (js "Website URL")
       (removeSocialLink (js "X") 3000 linked_user)
     = Some (js "https://thezelijah.world").
Proof.
  assert (H : links_distinct linked_user).
  { cbn. repeat constructor; cbn; intuition discriminate. }
  destruct (@removeSocialLink_then_lookup (js "X") 3000 linked_user H)
    as (H1 & H2 & _).
  split; [reflexivity|]. split; [exact H1|].
  rewrite H2 by discriminate. reflexivity.
Defined.

(** X13. [removeSocialLink] on a user without a map of links returns
    before anything is written: the user is unchanged, [lastUpdate]
    included. With a map, even one without that platform, the call stamps
    [lastUpdate] with the clock. *)
Theorem removeSocialLink_without_links_is_silent
  (platform : jsstring) (now : Z) (u : MajikUser) :
  (social_links (_metadata u) = None ->
   removeSocialLink platform now u = u)
  /\ (social_links (_metadata u) <> None ->
      _lastUpdate (removeSocialLink platform now u) = Some now).
Proof.
  unfold removeSocialLink. split.
  - now intros ->.
  - destruct (social_links (_metadata u)); [reflexivity|congruence].
Qed.

Lemma removeSocialLink_without_links_is_silent_witness :
  removeSocialLink (js "X") 3000 fresh_user = fresh_user
  /\ _lastUpdate (removeSocialLink (js "Threads") 3000 linked_user)
     = Some 3000.
Proof.
  destruct (removeSocialLink_without_links_is_silent (js "X") 3000 fresh_user)
    as (H1 & _).
  destruct (removeSocialLink_without_links_is_silent (js "Threads") 3000
              linked_user) as (_ & H2).
  split; [apply H1; reflexivity|apply H2; discriminate].
Defined.

(* ------------------------------------------------------------------ *)
(** * What [validate] looks at *)

(** X14. The report of [validate] is valid exactly when its nine checks
    pass: the id, email, display name and hash are not empty, the email
    has the shape of the pattern, the two timestamps are valid dates, and
    the phone and the birthdate, when they are there and not empty, have
    the shape of their patterns. Nothing else is looked at. *)
Theorem validate_passes_iff_checks (u : MajikUser) :
  isValid (validate u) = all_checks u.
Proof.
  unfold validate, all_checks, validateEmail. cbn [isValid].
  destruct (is_empty (id u)), (is_empty (_email u)),
    (is_empty (_displayName u)), (is_empty (_hash u)),
    (test_literal emailRegex (_email u)), (isInvalid (createdAt u)),
    (isInvalid (_lastUpdate u));
    cbn [push_if negb andb app];
    (destruct (phone (_metadata u)) as [p|];
     [destruct (is_empty p), (test_literal phoneRegex p)|]);
    cbn [push_if negb andb orb app];
    (destruct (birthdate (_metadata u)) as [b|];
     [destruct (is_empty b), (test_literal dateRegex b)|]);
    reflexivity.
Qed.

Section ValidateBlindSpots.

Lemma validate_same_inputs u u' :
  id u' = id u -> _email u' = _email u -> _displayName u' = _displayName u ->
  _hash u' = _hash u -> createdAt u' = createdAt u ->
  isInvalid (_lastUpdate u') = isInvalid (_lastUpdate u) ->
  phone (_metadata u') = phone (_metadata u) ->
  birthdate (_metadata u') = birthdate (_metadata u) ->
  validate u' = validate u.
Proof.
  intros H1 H2 H3 H4 H5 H6 H7 H8. unfold validate.
  now rewrite H1, H2, H3, H4, H5, H6, H7, H8.
Qed.

End ValidateBlindSpots.

(** X15. [validate] does not look at the bio, the picture, the social
    links, the name or the display name's content: for a user with a valid
    [lastUpdate], storing any bio, picture, link or name, or any non-blank
    display name, gives a user with the same report, markup or not. *)
Theorem validate_ignores_free_text
  (value platform : jsstring) (full : FullName) (now : Z) (u : MajikUser) :
  isInvalid (_lastUpdate u) = false ->
  validate (setBio value now u) = validate u
  /\ validate (setPicture value now u) = validate u
  /\ validate (setSocialLink platform value now u) = validate u
  /\ validate (setName full now u) = validate u
  /\ (forall u', set_displayName value now u = Ok u' ->
                 _displayName u <> [] -> validate u' = validate u).
Proof.
  intros Hl.
  repeat split; try (apply validate_same_inputs; try reflexivity;
                     now rewrite Hl).
  intros u'. unfold set_displayName.
  destruct (is_empty value) eqn:Ev; [discriminate|]. cbn [orb].
  destruct (Nat.eqb _ _); [discriminate|]. intros [= <-] Hne.
  apply is_empty_false in Hne.
  unfold validate.
  cbn [updateTimestamp with_displayName id _email _displayName _hash
         _metadata createdAt _lastUpdate isInvalid].
  now rewrite Hl, Ev, Hne.
Qed.

Lemma validate_ignores_free_text_witness :
  isValid (validate verified_user) = true
  /\ isValid
       (validate
          (setBio (js "<script>alert(1)</script>") 3000 verified_user))
     = true.
Proof.
  destruct (@validate_ignores_free_text (js "<script>alert(1)</script>")
              (js "X") (mkFullName [] [] None None) 3000 verified_user
              eq_refl) as (H & _).
  split; [reflexivity|]. rewrite H. reflexivity.
Defined.

(* ------------------------------------------------------------------ *)
(** * [initialize] *)

(** X16. A user that [initialize] returns has the id that was given,
    untrimmed, unless that was absent or blank, in which case it has the
    generated one; its hash is the digest of that id; no verification flag
    is set; it is not restricted at any time; it has no social link; its
    completion percentage is 0 and its profile is not complete. *)
Theorem initialize_gives_bare_user
  (hashID : jsstring -> jsstring) (email_ displayName_ : jsstring)
  (id_ : option jsstring) (generated : jsstring) (now1 now2 : Z)
  (u : MajikUser) :
  initialize hashID email_ displayName_ id_ generated now1 now2 = Ok u ->
  id u = chosen_id id_ generated
  /\ _hash u = hashID (chosen_id id_ generated)
  /\ _email u = email_ /\ _displayName u = displayName_
  /\ isEmailVerified u = false /\ isPhoneVerified u = false
  /\ isIdentityVerified u = false
  /\ (forall t, isCurrentlyRestricted t u = false)
  /\ (forall platform, socialLink platform u = None)
  /\ getProfileCompletionPercentage u = 0
  /\ hasCompleteProfile u = false.
Proof.
  unfold initialize.
  destruct (is_empty email_); [discriminate|].
  destruct (is_empty displayName_); [discriminate|].
  destruct (validateEmail email_); [|discriminate].
  cbn [bind]. intros [= <-]. repeat split.
Qed.

Lemma initialize_gives_bare_user_witness :
  initialize sample_hashID (js "user@example.com") (js "Josef")
    (Some (js " my-id ")) (js "generated-id") 10 10 = Ok spaced_id_user
  /\ id spaced_id_user = js " my-id "
  /\ getProfileCompletionPercentage spaced_id_user = 0.
Proof.
  assert (H : initialize sample_hashID (js "user@example.com") (js "Josef")
                (Some (js " my-id ")) (js "generated-id") 10 10
              = Ok spaced_id_user) by reflexivity.
  destruct (@initialize_gives_bare_user _ _ _ _ _ _ _ _ H)
    as (H1 & _ & _ & _ & _ & _ & _ & _ & _ & H2 & _).
  split; [exact H|]. split; [exact H1|exact H2].
Defined.

(** X17. A user that [initialize] returns passes [validate], given that
    the generator and the digest give non-empty strings. *)
Theorem initialized_user_validates
  (hashID : jsstring -> jsstring) (email_ displayName_ : jsstring)
  (id_ : option jsstring) (generated : jsstring) (now1 now2 : Z)
  (u : MajikUser) :
  (forall i, hashID i <> []) -> generated <> [] ->
  initialize hashID email_ displayName_ id_ generated now1 now2 = Ok u ->
  validate u = mkReport true [].
Proof.
  intros Hhash Hgen. unfold initialize.
  destruct (is_empty email_) eqn:Ee; [discriminate|].
  destruct (is_empty displayName_) eqn:En; [discriminate|].
  destruct (validateEmail email_) as [[]|] eqn:Ev; [|discriminate].
  cbn [bind]. intros [= <-].
  unfold validate.
  cbn [constructor data_id data_email data_displayName data_hash
         data_metadata data_settings data_createdAt data_lastUpdate
         Date_of_Date id _email _displayName _hash _metadata createdAt
         _lastUpdate phone birthdate isInvalid].
  rewrite Ee, En, Ev.
  assert (Hid : is_empty
                  match id_ with
                  | Some i => if is_empty (trim i) then generated else i
                  | None => generated
                  end = false).
  { apply is_empty_false. destruct id_ as [i|]; [|assumption].
    destruct (is_empty (trim i)) eqn:Ei; [assumption|].
    intros ->. discriminate. }
  rewrite Hid.
  pose proof (Hhash match id_ with
                    | Some i => if is_empty (trim i) then generated else i
                    | None => generated
                    end) as Hh.
  apply is_empty_false in Hh. rewrite Hh. reflexivity.
Qed.

Lemma initialized_user_validates_witness :
  validate fresh_user = mkReport true [].
Proof.
  apply (@initialized_user_validates sample_hashID (js "user@example.com")
           (js "Josef") None (js "generated-id") 10 10 fresh_user).
  - intros i. discriminate.
  - discriminate.
  - reflexivity.
Defined.

(** X18. [initialize] and the [displayName] setter do not draw the same
    line: a display name that is not empty but blank is accepted by
    [initialize], with a well-formed email, and refused by the setter. *)
Theorem blank_displayName_passes_initialize_only
  (hashID : jsstring -> jsstring) (email_ blank : jsstring)
  (id_ : option jsstring) (generated : jsstring) (now1 now2 now : Z)
  (u0 : MajikUser) :
  blank <> [] -> trim blank = [] -> validateEmail email_ = Ok tt ->
  (exists u,
      initialize hashID email_ blank id_ generated now1 now2 = Ok u
      /\ _displayName u = blank)
  /\ set_displayName blank now u0 = Throw "Display name cannot be empty".
Proof.
  intros Hne Hblank Hemail. apply is_empty_false in Hne. split.
  - unfold initialize.
    rewrite (validateEmail_not_empty _ Hemail), Hne, Hemail. cbn [bind].
    eexists. split; reflexivity.
  - unfold set_displayName. now rewrite Hne, Hblank.
Qed.

Lemma blank_displayName_passes_initialize_only_witness :
  (exists u,
      initialize sample_hashID (js "user@example.com") (js "   ") None
        (js "generated-id") 10 10 = Ok u
      /\ _displayName u = js "   ")
  /\ set_displayName (js "   ") 20 fresh_user
     = Throw "Display name cannot be empty".
Proof.
  apply (@blank_displayName_passes_initialize_only sample_hashID
           (js "user@example.com") (js "   ") None (js "generated-id")
           10 10 20 fresh_user); [discriminate|reflexivity|reflexivity].
Defined.

(** X19. [setName] and the [fullNameObject] setter do not draw the same
    line either: a name whose first or last part is blank is refused by
    the setter and stored by [setName]. *)
Theorem blank_name_passes_setName_only
  (value : FullName) (now : Z) (u : MajikUser) :
  trim (first_name value) = [] \/ trim (last_name value) = [] ->
  set_fullNameObject value now u
  = Throw "Full name must contain first and last names"
  /\ name (_metadata (setName value now u)) = Some value.
Proof.
  intros H. split; [|reflexivity].
  unfold set_fullNameObject.
  destruct H as [-> | ->]; [reflexivity|].
  now rewrite orb_true_r.
Qed.

Lemma blank_name_passes_setName_only_witness :
  set_fullNameObject (mkFullName (js " ") (js "Fabian") None None) 20
    fresh_user
  = Throw "Full name must contain first and last names"
  /\ name (_metadata
             (setName (mkFullName (js " ") (js "Fabian") None None) 20
                fresh_user))
     = Some (mkFullName (js " ") (js "Fabian") None None).
Proof.
  apply (@blank_name_passes_setName_only
           (mkFullName (js " ") (js "Fabian") None None) 20 fresh_user).
  left. reflexivity.
Defined.

(* ------------------------------------------------------------------ *)
(** * [fromJSON] and [fromSupabase] *)

Section FactoryFacts.

Lemma required_string_cases v what :
  (nonempty_string v = true /\ exists s, required_string v what = Ok s)
  \/ (nonempty_string v = false
      /\ required_string v what
         = Throw ("Invalid user data: missing or invalid " ++ what)).
Proof.
  destruct v as [| |b|n|s]; try (right; split; reflexivity).
  cbn. destruct (is_empty s); [right|left]; split; try reflexivity.
  now exists s.
Qed.

Lemma split_head_no_sep sep s : ~ In sep (hd [] (split_on sep s)).
Proof.
  induction s as [|c s IH]; cbn [split_on hd]; [intros []|].
  destruct (N.eqb c sep) eqn:E; cbn [hd]; [intros []|].
  destruct (split_on sep s) as [|piece rest]; cbn [hd In] in *.
  - apply N.eqb_neq in E. intros [H|[]]. congruence.
  - apply N.eqb_neq in E. intros [H|H]; [congruence|auto].
Qed.

Lemma reserved_not_set (extra_ : object jsval) : forall acc key,
  reserved_key key = true -> obj_get key acc = None ->
  obj_get key
    (fold_left
       (fun acc kv =>
          if reserved_key (fst kv) then acc
          else obj_set (fst kv) (snd kv) acc)
       extra_ acc) = None.
Proof.
  induction extra_ as [|[k v] rest IH]; intros acc key Hres Hacc;
    cbn [fold_left fst snd]; [exact Hacc|].
  destruct (reserved_key k) eqn:Ek; [now apply IH|].
  apply IH; [exact Hres|].
  rewrite obj_get_set_other; [exact Hacc|].
  intros ->. congruence.
Qed.

End FactoryFacts.

(** X20. [fromJSON] returns exactly when the id, email, display name and
    hash of the payload are non-empty strings, whatever else the payload
    holds; when it throws, the message names the first of the four, in
    that order, that is not. *)
Theorem fromJSON_accepts_iff_required_strings
  (data : MajikUserJSON) (now1 now2 : Z) :
  succeeded (fromJSON data now1 now2)
  = (nonempty_string (json_id data) && nonempty_string (json_email data)
     && nonempty_string (json_displayName data)
     && nonempty_string (json_hash data))%bool
  /\ (nonempty_string (json_id data) = false ->
      fromJSON data now1 now2
      = Throw "Invalid user data: missing or invalid id")
  /\ (nonempty_string (json_id data) = true ->
      nonempty_string (json_email data) = false ->
      fromJSON data now1 now2
      = Throw "Invalid user data: missing or invalid email")
  /\ (nonempty_string (json_id data) = true ->
      nonempty_string (json_email data) = true ->
      nonempty_string (json_displayName data) = false ->
      fromJSON data now1 now2
      = Throw "Invalid user data: missing or invalid displayName")
  /\ (nonempty_string (json_id data) = true ->
      nonempty_string (json_email data) = true ->
      nonempty_string (json_displayName data) = true ->
      nonempty_string (json_hash data) = false ->
      fromJSON data now1 now2
      = Throw "Invalid user data: missing or invalid hash").
Proof.
  unfold fromJSON.
  destruct (required_string_cases (json_id data) "id")
    as [(-> & i & ->)|(-> & ->)];
    destruct (required_string_cases (json_email data) "email")
      as [(-> & e & ->)|(-> & ->)];
    destruct (required_string_cases (json_displayName data) "displayName")
      as [(-> & n & ->)|(-> & ->)];
    destruct (required_string_cases (json_hash data) "hash")
      as [(-> & h & ->)|(-> & ->)];
    cbn [bind succeeded andb]; repeat split; intros; try discriminate;
    reflexivity.
Qed.

Lemma fromJSON_accepts_iff_required_strings_witness :
  fromJSON
    (mkJSON (VString (js "u-3")) (VNumber 7) VNull (VString (js "h"))
       None None None None) 0 0
  = Throw "Invalid user data: missing or invalid email".
Proof.
  destruct (fromJSON_accepts_iff_required_strings
              (mkJSON (VString (js "u-3")) (VNumber 7) VNull
                 (VString (js "h")) None None None None) 0 0)
    as (_ & _ & H & _).
  apply H; reflexivity.
Defined.

(** X21. [fromJSON] reads the clock only for a timestamp that the payload
    lacks or has as an empty string: with both timestamps there, the
    result does not depend on the clock; a timestamp that is missing
    becomes the clock reading taken for it. A payload without metadata and
    settings gives a user with no verification flag set, notifications on
    and no restriction. *)
Theorem fromJSON_reads_clock_only_for_missing_timestamps
  (data : MajikUserJSON) (now1 now2 : Z) (u : MajikUser) :
  fromJSON data now1 now2 = Ok u ->
  (truthy_str (json_createdAt data) = true ->
   truthy_str (json_lastUpdate data) = true ->
   forall other1 other2, fromJSON data other1 other2 = Ok u)
  /\ (truthy_str (json_createdAt data) = false -> createdAt u = Some now1)
  /\ (truthy_str (json_lastUpdate data) = false ->
      _lastUpdate u = Some now2)
  /\ (json_metadata data = None ->
      isEmailVerified u = false /\ isPhoneVerified u = false
      /\ isIdentityVerified u = false)
  /\ (json_settings data = None ->
      notifications (_settings u) = true
      /\ forall t, isCurrentlyRestricted t u = false).
Proof.
  unfold fromJSON.
  destruct (required_string (json_id data) "id"); [|discriminate].
  destruct (required_string (json_email data) "email"); [|discriminate].
  destruct (required_string (json_displayName data) "displayName");
    [|discriminate].
  destruct (required_string (json_hash data) "hash"); [|discriminate].
  cbn [bind]. intros [= <-]. unfold date_or_now, truthy_str.
  repeat split.
  - destruct (json_createdAt data) as [c|]; [|discriminate].
    destruct (json_lastUpdate data) as [l|]; [|discriminate].
    destruct (is_empty c); [discriminate|].
    destruct (is_empty l); [discriminate|]. reflexivity.
  - cbn. destruct (json_createdAt data) as [c|]; [|reflexivity].
    destruct (is_empty c); [reflexivity|discriminate].
  - cbn. destruct (json_lastUpdate data) as [l|]; [|reflexivity].
    destruct (is_empty l); [reflexivity|discriminate].
  - cbn. now rewrite H.
  - cbn. now rewrite H.
  - cbn. now rewrite H.
  - cbn. now rewrite H.
  - cbn. now rewrite H.
Qed.

Lemma fromJSON_reads_clock_only_for_missing_timestamps_witness :
  fromJSON payload_backwards 5 6
  = Ok (payload_user (Some 1704067200000) (Some 1577836800000))
  /\ fromJSON payload_backwards 0 0
     = Ok (payload_user (Some 1704067200000) (Some 1577836800000)).
Proof.
  assert (H : fromJSON payload_backwards 5 6
              = Ok (payload_user (Some 1704067200000) (Some 1577836800000)))
    by (vm_compute; reflexivity).
  destruct (@fromJSON_reads_clock_only_for_missing_timestamps
              payload_backwards 5 6 _ H) as (Hclock & _).
  split; [exact H|]. apply Hclock; reflexivity.
Defined.

(** X22. [fromSupabase] returns exactly when the record has a non-empty id
    and a non-empty email. The user it returns has the digest of the id as
    hash; its email and phone flags say whether the record has a
    confirmation time for them, and its identity flag is not set; its
    settings hold none of the three keys read by name; and when the record
    names no display name, the display name is the email up to its first
    [@] and so contains none. *)
Theorem fromSupabase_maps_record
  (hashID : jsstring -> jsstring) (su : SupabaseUser) :
  succeeded (fromSupabase hashID su)
  = (negb (is_empty (su_id su)) && truthy_str (su_email su))%bool
  /\ forall u, fromSupabase hashID su = Ok u ->
       id u = su_id su
       /\ _hash u = hashID (su_id su)
       /\ isEmailVerified u = truthy_str (su_email_confirmed_at su)
       /\ isPhoneVerified u = truthy_str (su_phone_confirmed_at su)
       /\ isIdentityVerified u = false
       /\ (forall key, reserved_key key = true ->
                       obj_get key (extra (_settings u)) = None)
       /\ (su_user_metadata su = None ->
           ~ In (char "@") (_displayName u)).
Proof.
  unfold fromSupabase. split.
  - destruct (is_empty (su_id su)); [reflexivity|].
    destruct (su_email su) as [e|]; [|reflexivity]. cbn [truthy_str negb andb].
    now destruct (is_empty e).
  - intros u.
    destruct (is_empty (su_id su)); [discriminate|].
    destruct (su_email su) as [e|]; [|discriminate].
    destruct (is_empty e); [discriminate|].
    intros [= <-].
    cbn [constructor id _hash _settings _displayName data_id data_hash
           data_settings data_displayName].
    split; [reflexivity|]. split; [reflexivity|].
    split; [unfold isEmailVerified, metadata_of_supabase; cbn;
            now destruct (su_user_metadata su)|].
    split; [unfold isPhoneVerified, metadata_of_supabase; cbn;
            now destruct (su_user_metadata su)|].
    split; [unfold isIdentityVerified, metadata_of_supabase; cbn;
            now destruct (su_user_metadata su)|].
    split.
    + intros key Hkey. unfold settings_of_supabase.
      destruct (su_app_metadata su) as [am|]; cbn [extra]; [|reflexivity].
      now apply reserved_not_set.
    + intros ->. cbn [first_truthy]. apply split_head_no_sep.
Qed.

Lemma fromSupabase_maps_record_witness :
  fromSupabase sample_hashID confirmed_record = Ok confirmed_user
  /\ isEmailVerified confirmed_user = true
  /\ isPhoneVerified confirmed_user = false
  /\ _displayName confirmed_user = js "josef"
  /\ obj_get (js "is_restricted") (extra (_settings confirmed_user)) = None
  /\ obj_get (js "provider") (extra (_settings confirmed_user))
     = Some (VString (js "email")).
Proof.
  assert (H : fromSupabase sample_hashID confirmed_record = Ok confirmed_user)
    by (vm_compute; reflexivity).
  destruct (fromSupabase_maps_record sample_hashID confirmed_record)
    as (_ & Hmap).
  destruct (Hmap confirmed_user H) as (_ & _ & He & Hp & _ & Hres & _).
  split; [exact H|]. split; [rewrite He; reflexivity|].
  split; [rewrite Hp; reflexivity|]. split; [reflexivity|].
  split; [apply Hres; reflexivity|reflexivity].
Defined.

(* ------------------------------------------------------------------ *)
(** * From calendar fields to a day and back *)

(** The twelve months, one goal each. *)
Ltac each_month m :=
  let C := fresh "C" in
  assert (C : m = 0 \/ m = 1 \/ m = 2 \/ m = 3 \/ m = 4 \/ m = 5 \/ m = 6
              \/ m = 7 \/ m = 8 \/ m = 9 \/ m = 10 \/ m = 11) by lia;
  repeat (destruct C as [C|C]); subst m.

(** Evaluation of the month tables at a known month. *)
Ltac month_tables :=
  cbn [monthStart Z.leb Z.eqb Z.compare Pos.compare Pos.compare_cont Pos.eqb
         orb andb negb].

(** The month after a known month. *)
Ltac next_month :=
  repeat match goal with
         | |- context [monthStart ?l (?a + 1)] =>
             let v := eval vm_compute in (a + 1) in
             change (a + 1) with v
         end.

(** Case analysis on every comparison of the goal. *)
Ltac split_ltb :=
  repeat match goal with
         | |- context [?a <? ?b] => destruct (Z.ltb_spec a b)
         end.

Section CalendarInverse.

Lemma DayFromYear_mono y1 y2 : y1 <= y2 -> DayFromYear y1 <= DayFromYear y2.
Proof.
  intros H. unfold DayFromYear. Z.div_mod_to_equations. lia.
Qed.

(** The year of a day is the one whose days include it. *)
Lemma YearFromDay_unique y d :
  DayFromYear y <= d < DayFromYear (y + 1) -> YearFromDay d = y.
Proof.
  intros H. pose proof (YearFromDay_spec d) as S.
  destruct (Z.lt_trichotomy (YearFromDay d) y) as [Hlt|[Heq|Hgt]];
    [|exact Heq|].
  - pose proof (@DayFromYear_mono (YearFromDay d + 1) y ltac:(lia)). lia.
  - pose proof (@DayFromYear_mono (y + 1) (YearFromDay d) ltac:(lia)). lia.
Qed.

Lemma monthStart_DaysInMonth y m : 0 <= m <= 11 ->
  monthStart (InLeapYear y) m + DaysInMonth y m
  = if m =? 11 then 365 + InLeapYear y
    else monthStart (InLeapYear y) (m + 1).
Proof.
  intros H. unfold DaysInMonth. generalize (InLeapYear y). intros leap.
  each_month m; next_month; month_tables; lia.
Qed.

(** The month and the date of a day within the year. *)
Lemma monthOfDay_inverse leap m d :
  0 <= leap <= 1 -> 0 <= m <= 11 ->
  1 <= d <= (if m =? 1 then 28 + leap
             else if ((m =? 3) || (m =? 5) || (m =? 8) || (m =? 10))%bool
                  then 30 else 31) ->
  monthOfDay leap (monthStart leap m + d - 1) = m.
Proof.
  intros Hl Hm.
  each_month m; month_tables; intros Hd; unfold monthOfDay; split_ltb; lia.
Qed.

(** The date of a day never passes the length of its month. *)
Lemma date_within_month leap d : 0 <= leap <= 1 -> 0 <= d < 365 + leap ->
  let m := monthOfDay leap d in
  d - monthStart leap m + 1
  <= (if m =? 1 then 28 + leap
      else if ((m =? 3) || (m =? 5) || (m =? 8) || (m =? 10))%bool
           then 30 else 31).
Proof.
  intros Hl Hd. cbv zeta. unfold monthOfDay. split_ltb; month_tables; lia.
Qed.

(** Fields of a real date give a day that has these fields. *)
Lemma fields_of_MakeDay y m d :
  0 <= m <= 11 -> 1 <= d <= DaysInMonth y m ->
  let t := MakeDate (MakeDay y m d) 0 in
  YearFromTime t = y /\ MonthFromTime t = m /\ DateFromTime t = d.
Proof.
  intros Hm Hd. cbv zeta.
  pose proof (InLeapYear_01 y) as Hl.
  assert (Hday : Day (MakeDate (MakeDay y m d) 0)
                 = DayFromYear y + monthStart (InLeapYear y) m + d - 1).
  { unfold Day, MakeDate, MakeDay, msPerDay.
    rewrite Z.add_0_r, Z.div_mul by lia.
    rewrite Z.div_small, Z.mod_small by lia. rewrite !Z.add_0_r. lia. }
  pose proof (monthStart_DaysInMonth y Hm) as Hend.
  assert (Hstart : 0 <= monthStart (InLeapYear y) m).
  { clear - Hm Hl. revert Hl. generalize (InLeapYear y). intros leap Hl.
    each_month m; next_month; month_tables; lia. }
  assert (Hnext : monthStart (InLeapYear y) m + DaysInMonth y m
                  <= 365 + InLeapYear y).
  { clear - Hm Hl. unfold DaysInMonth. revert Hl. generalize (InLeapYear y).
    intros leap Hl. each_month m; next_month; month_tables; lia. }
  assert (Hy : YearFromTime (MakeDate (MakeDay y m d) 0) = y).
  { unfold YearFromTime. rewrite Hday. apply YearFromDay_unique.
    rewrite DayFromYear_succ. unfold DaysInYear. lia. }
  assert (Hdwy : DayWithinYear (MakeDate (MakeDay y m d) 0)
                 = monthStart (InLeapYear y) m + d - 1).
  { unfold DayWithinYear. rewrite Hy, Hday. lia. }
  assert (Hmo : MonthFromTime (MakeDate (MakeDay y m d) 0) = m).
  { unfold MonthFromTime. rewrite Hy, Hdwy.
    apply monthOfDay_inverse; [exact Hl|exact Hm|].
    unfold DaysInMonth in Hd. exact Hd. }
  split; [exact Hy|]. split; [exact Hmo|].
  unfold DateFromTime. rewrite Hmo, Hy, Hdwy. lia.
Qed.

(** The fields of every instant are those of a real date. *)
Lemma fields_are_calendar_date t :
  is_calendar_date (YearFromTime t) (MonthFromTime t + 1) (DateFromTime t)
  = true.
Proof.
  pose proof (DayWithinYear_range t) as Hd.
  pose proof (InLeapYear_01 (YearFromTime t)) as Hl.
  destruct (month_range Hl Hd) as [Hm Hdate].
  pose proof (date_within_month Hl Hd) as Htight. cbv zeta in Htight.
  fold (MonthFromTime t) in Hm, Hdate, Htight.
  fold (DateFromTime t) in Hdate, Htight.
  unfold is_calendar_date, DaysInMonth.
  replace (MonthFromTime t + 1 - 1) with (MonthFromTime t) by lia.
  repeat (apply andb_true_intro; split); apply Z.leb_le; lia.
Qed.

End CalendarInverse.

(* ------------------------------------------------------------------ *)
(** * The text of a calendar date *)

Section DateTextFacts.

Lemma Z_range_In n : forall lo k,
  lo <= k < lo + Z.of_nat n -> In k (Z_range lo n).
Proof.
  induction n as [|n IH]; intros lo k H; [lia|].
  cbn [Z_range In]. destruct (Z.eq_dec lo k) as [E|E]; [now left|right].
  apply IH. lia.
Qed.

Lemma forallb_Z_range (P : Z -> bool) lo n :
  forallb P (Z_range lo n) = true ->
  forall k, lo <= k < lo + Z.of_nat n -> P k = true.
Proof.
  intros H k Hk. rewrite forallb_forall in H. apply H. now apply Z_range_In.
Qed.

(** A digit character and its value. *)
Lemma digit_char a : 0 <= a <= 9 ->
  is_digit (digit a) = true
  /\ N.eqb (digit a) (char "-") = false
  /\ Z.of_N (digit a) - 48 = a.
Proof.
  intros H. destruct (digit_ok H) as [H1 H2].
  split; [exact H1|]. split; [|exact H2].
  apply N.eqb_neq. unfold digit. change (char "-") with 45%N. lia.
Qed.

Lemma char_digit c : is_digit c = true ->
  exists a, 0 <= a <= 9 /\ c = digit a.
Proof.
  unfold is_digit, in_range. intros H. apply andb_prop in H as [H1 H2].
  apply N.leb_le in H1, H2. exists (Z.of_N c - 48). unfold digit. split; lia.
Qed.

Lemma digits_four y : 0 <= y <= 9999 ->
  digits 4 y
  = [digit ((y / 1000) mod 10); digit ((y / 100) mod 10);
     digit ((y / 10) mod 10); digit (y mod 10)].
Proof.
  intros H. cbn [digits].
  change (10 ^ Z.of_nat 3) with 1000. change (10 ^ Z.of_nat 2) with 100.
  change (10 ^ Z.of_nat 1) with 10. change (10 ^ Z.of_nat 0) with 1.
  now rewrite Z.div_1_r.
Qed.

Lemma digits_two n : 0 <= n <= 99 ->
  digits 2 n = [digit ((n / 10) mod 10); digit (n mod 10)].
Proof.
  intros H. cbn [digits].
  change (10 ^ Z.of_nat 1) with 10. change (10 ^ Z.of_nat 0) with 1.
  now rewrite Z.div_1_r.
Qed.

Lemma split_on_other sep c s :
  N.eqb c sep = false ->
  split_on sep (c :: s)
  = match split_on sep s with
    | piece :: rest => (c :: piece) :: rest
    | [] => [[c]]
    end.
Proof. intros H. cbn [split_on]. now rewrite H. Qed.

Lemma split_on_sep sep s : split_on sep (sep :: s) = [] :: split_on sep s.
Proof. cbn [split_on]. now rewrite N.eqb_refl. Qed.

(** The ten units of a date text, by the values of its eight digits. *)
Lemma date_text_of_digits a1 a2 a3 a4 b1 b2 c1 c2 :
  0 <= a1 <= 9 -> 0 <= a2 <= 9 -> 0 <= a3 <= 9 -> 0 <= a4 <= 9 ->
  0 <= b1 <= 9 -> 0 <= b2 <= 9 -> 0 <= c1 <= 9 -> 0 <= c2 <= 9 ->
  let s := [digit a1; digit a2; digit a3; digit a4; char "-";
            digit b1; digit b2; char "-"; digit c1; digit c2] in
  is_YYYY_MM_DD s = true
  /\ date_numbers s
     = [1000 * a1 + 100 * a2 + 10 * a3 + a4; 10 * b1 + b2; 10 * c1 + c2].
Proof.
  intros A1 A2 A3 A4 B1 B2 C1 C2. cbv zeta.
  destruct (digit_char A1) as (D1 & N1 & V1).
  destruct (digit_char A2) as (D2 & N2 & V2).
  destruct (digit_char A3) as (D3 & N3 & V3).
  destruct (digit_char A4) as (D4 & N4 & V4).
  destruct (digit_char B1) as (D5 & N5 & V5).
  destruct (digit_char B2) as (D6 & N6 & V6).
  destruct (digit_char C1) as (D7 & N7 & V7).
  destruct (digit_char C2) as (D8 & N8 & V8).
  split.
  - unfold is_YYYY_MM_DD.
    rewrite D1, D2, D3, D4, D5, D6, D7, D8, N.eqb_refl. reflexivity.
  - unfold date_numbers.
    rewrite (@split_on_other _ _ _ N1), (@split_on_other _ _ _ N2),
      (@split_on_other _ _ _ N3), (@split_on_other _ _ _ N4), split_on_sep,
      (@split_on_other _ _ _ N5), (@split_on_other _ _ _ N6), split_on_sep,
      (@split_on_other _ _ _ N7), (@split_on_other _ _ _ N8).
    cbn [split_on map Number_of_digits fold_left].
    rewrite V1, V2, V3, V4, V5, V6, V7, V8.
    f_equal; [lia|]. f_equal; [lia|]. f_equal. lia.
Qed.

(** A string of the strict form is such a text. *)
Lemma shaped_is_date_text s : is_YYYY_MM_DD s = true ->
  exists y m d,
    0 <= y <= 9999 /\ 0 <= m <= 99 /\ 0 <= d <= 99
    /\ s = digits 4 y ++ js "-" ++ digits 2 m ++ js "-" ++ digits 2 d
    /\ date_numbers s = [y; m; d].
Proof.
  unfold is_YYYY_MM_DD.
  destruct s
    as [|y1 [|y2 [|y3 [|y4 [|h1 [|m1 [|m2 [|h2 [|d1 [|d2 [|x s]]]]]]]]]]];
    try discriminate.
  intros H.
  repeat match type of H with
         | (_ && _)%bool = true => apply andb_prop in H as [H ?]
         end.
  repeat match goal with
         | E : N.eqb _ _ = true |- _ => apply N.eqb_eq in E; subst
         end.
  repeat match goal with
         | E : is_digit ?c = true |- _ =>
             let a := fresh "a" in
             destruct (char_digit _ E) as (a & ? & ?); clear E; subst c
         end.
  match goal with
  | |- context [[digit ?a1; digit ?a2; digit ?a3; digit ?a4; _;
                  digit ?b1; digit ?b2; _; digit ?c1; digit ?c2]] =>
      exists (1000 * a1 + 100 * a2 + 10 * a3 + a4), (10 * b1 + b2),
        (10 * c1 + c2);
      destruct (@date_text_of_digits a1 a2 a3 a4 b1 b2 c1 c2) as [_ Hn];
      try assumption;
      split; [lia|]; split; [lia|]; split; [lia|]; split; [|exact Hn];
      rewrite digits_four, !digits_two by lia
  end.
  cbn [app js map list_ascii_of_string].
  repeat f_equal; Z.div_mod_to_equations; lia.
Qed.

(** The text written for three numbers has the strict form and reads
    back as these numbers. *)
Lemma date_text_reads_back y m d :
  0 <= y <= 9999 -> 0 <= m <= 99 -> 0 <= d <= 99 ->
  let s := digits 4 y ++ js "-" ++ digits 2 m ++ js "-" ++ digits 2 d in
  is_YYYY_MM_DD s = true /\ date_numbers s = [y; m; d].
Proof.
  intros Hy Hm Hd. cbv zeta.
  rewrite digits_four, !digits_two by lia.
  cbn [app js map list_ascii_of_string].
  assert (R : forall n k, 0 <= (n / k) mod 10 <= 9).
  { intros n k. pose proof (Z.mod_pos_bound (n / k) 10). lia. }
  assert (R0 : forall n, 0 <= n mod 10 <= 9).
  { intros n. pose proof (Z.mod_pos_bound n 10). lia. }
  destruct (@date_text_of_digits ((y / 1000) mod 10) ((y / 100) mod 10)
              ((y / 10) mod 10) (y mod 10) ((m / 10) mod 10) (m mod 10)
              ((d / 10) mod 10) (d mod 10)) as [Hs Hn]; auto.
  split; [exact Hs|].
  change (N_of_ascii "-") with (char "-"). rewrite Hn.
  repeat f_equal; Z.div_mod_to_equations; lia.
Qed.

End DateTextFacts.

(* ------------------------------------------------------------------ *)
(** * [YYYYMMDDToDate] and [dateToYYYYMMDD] *)

Section CalendarCheck.

Lemma monthStart_range leap k : 0 <= leap <= 1 ->
  0 <= monthStart leap k <= 335.
Proof.
  intros H. unfold monthStart.
  repeat match goal with
         | |- context [if ?b then _ else _] => destruct b
         end; lia.
Qed.

(** What the three comparisons of [YYYYMMDDToDate] come to. *)
Lemma calendar_check y m d :
  0 <= y <= 9999 -> 0 <= m <= 99 -> 0 <= d <= 99 ->
  exists t,
    Date_of_fields y (m - 1) d = Some t
    /\ (negb (getFullYear t =? y) || negb (getMonth t =? m - 1)
        || negb (getDate t =? d))%bool
       = negb ((100 <=? y) && is_calendar_date y m d)
    /\ ((100 <=? y) && is_calendar_date y m d = true ->
        t = MakeDate (MakeDay y (m - 1) d) 0)%bool.
Proof.
  intros Hy Hm Hd.
  set (yr := if ((0 <=? y) && (y <=? 99))%bool then 1900 + y else y).
  assert (Hyr : (y <= 99 /\ yr = 1900 + y) \/ (100 <= y /\ yr = y)).
  { subst yr. destruct (Z.leb_spec 0 y); [|lia].
    destruct (Z.leb_spec y 99); cbn [andb]; lia. }
  set (t := MakeDate (MakeDay yr (m - 1) d) 0).
  pose proof (InLeapYear_01 (yr + (m - 1) / 12)) as Hl.
  pose proof (monthStart_range ((m - 1) mod 12) Hl) as Hs.
  assert (Hday : Day t = DayFromYear (yr + (m - 1) / 12)
                         + monthStart (InLeapYear (yr + (m - 1) / 12))
                             ((m - 1) mod 12) + d - 1).
  { subst t. unfold Day, MakeDate, MakeDay, msPerDay.
    rewrite Z.add_0_r, Z.div_mul by lia. reflexivity. }
  assert (Hq : -1 <= (m - 1) / 12 <= 8) by (Z.div_mod_to_equations; lia).
  assert (Hclip : Z.abs t <= maxTime).
  { subst t. unfold MakeDate, MakeDay, msPerDay, maxTime.
    fold yr.
    pose proof (@DayFromYear_mono (yr + (m - 1) / 12) 11908 ltac:(lia)) as U.
    pose proof (@DayFromYear_mono 99 (yr + (m - 1) / 12) ltac:(lia)) as L.
    assert (DayFromYear 11908 <= 4000000) by (vm_compute; discriminate).
    assert (-700000 <= DayFromYear 99) by (vm_compute; discriminate).
    lia. }
  exists t. split.
  { unfold Date_of_fields, UTC, LocalTZA, TimeClip. fold yr.
    rewrite Z.sub_0_r. fold t.
    destruct (Z.leb_spec (Z.abs t) maxTime); [reflexivity|lia]. }
  unfold getFullYear, getMonth, getDate, LocalTime, LocalTZA.
  rewrite !Z.add_0_r.
  destruct ((100 <=? y) && is_calendar_date y m d)%bool eqn:Hvalid.
  - apply andb_prop in Hvalid as [H100 Hcal]. apply Z.leb_le in H100.
    destruct Hyr as [[? ?]|[_ Eyr]]; [lia|].
    unfold is_calendar_date in Hcal.
    repeat match type of Hcal with
           | (_ && _)%bool = true => apply andb_prop in Hcal as [Hcal ?]
           end.
    repeat match goal with
           | E : (_ <=? _) = true |- _ => apply Z.leb_le in E
           end.
    destruct (@fields_of_MakeDay y (m - 1) d) as (F1 & F2 & F3);
      [lia|lia|].
    cbv zeta in F1, F2, F3. subst t. rewrite Eyr.
    rewrite F1, F2, F3, !Z.eqb_refl. split; [reflexivity|]. reflexivity.
  - split; [|discriminate]. cbn [negb].
    destruct (Z.eqb_spec (YearFromTime t) y) as [Ey|]; [|reflexivity].
    destruct (Z.eqb_spec (MonthFromTime t) (m - 1)) as [Em|]; [|reflexivity].
    destruct (Z.eqb_spec (DateFromTime t) d) as [Ed|]; [|reflexivity].
    exfalso.
    pose proof (fields_are_calendar_date t) as Hreal.
    rewrite Ey, Em, Ed in Hreal.
    replace (m - 1 + 1) with m in Hreal by lia.
    rewrite Hreal, andb_true_r in Hvalid.
    apply Z.leb_gt in Hvalid.
    destruct Hyr as [[_ Eyr]|[? _]]; [|lia].
    pose proof (YearFromDay_spec (Day t)) as S.
    fold (YearFromTime t) in S. rewrite Ey, Hday in S.
    pose proof (@DayFromYear_mono (y + 2) (yr + (m - 1) / 12) ltac:(lia)) as M.
    pose proof (DayFromYear_succ (y + 1)) as S1.
    replace (y + 1 + 1) with (y + 2) in S1 by lia.
    unfold DaysInYear in S1. pose proof (InLeapYear_01 (y + 1)). lia.
Qed.

Lemma YYYYMMDDToDate_shape_cases (s : jsstring) :
  (is_YYYY_MM_DD s = false ->
   YYYYMMDDToDate s = Throw "Invalid ISO date format. Expected YYYY-MM-DD")
  /\ (is_YYYY_MM_DD s = true ->
      exists y m d,
        date_numbers s = [y; m; d]
        /\ YYYYMMDDToDate s
           = if ((100 <=? y) && is_calendar_date y m d)%bool
             then Ok (Some (MakeDate (MakeDay y (m - 1) d) 0))
             else Throw "Invalid calendar date").
Proof.
  unfold YYYYMMDDToDate. rewrite dateRegex_shape. split.
  - now intros ->.
  - intros Hs. rewrite Hs. cbn [negb].
    destruct (shaped_is_date_text s Hs)
      as (y & m & d & Hy & Hm & Hd & _ & Hn).
    exists y, m, d. split; [exact Hn|].
    fold (date_numbers s). rewrite Hn.
    destruct (calendar_check Hy Hm Hd) as (t & -> & Hcheck & Ht).
    rewrite Hcheck.
    destruct ((100 <=? y) && is_calendar_date y m d)%bool; cbn [negb];
      [|reflexivity].
    now rewrite (Ht eq_refl).
Qed.

End CalendarCheck.

(** X23. [YYYYMMDDToDate] returns exactly on the strings of the form
    [YYYY-MM-DD] that name a real calendar date in year 100 or later, and
    then gives midnight of that date; every string of that form with a
    year from 0000 to 0099, a month outside 01 to 12 or a day that the
    month does not have is refused as no calendar date, and every other
    string as badly formed. *)
Theorem YYYYMMDDToDate_accepts_real_dates (s : jsstring) :
  (is_YYYY_MM_DD s = false ->
   YYYYMMDDToDate s = Throw "Invalid ISO date format. Expected YYYY-MM-DD")
  /\ (is_YYYY_MM_DD s = true ->
      exists y m d,
        date_numbers s = [y; m; d]
        /\ YYYYMMDDToDate s
           = if ((100 <=? y) && is_calendar_date y m d)%bool
             then Ok (Some (MakeDate (MakeDay y (m - 1) d) 0))
             else Throw "Invalid calendar date").
Proof. exact (YYYYMMDDToDate_shape_cases s). Qed.

Lemma YYYYMMDDToDate_accepts_real_dates_witness :
  YYYYMMDDToDate (js "2023-2-28")
  = Throw "Invalid ISO date format. Expected YYYY-MM-DD".
Proof.
  destruct (YYYYMMDDToDate_accepts_real_dates (js "2023-2-28")) as [H _].
  apply H. reflexivity.
Defined.

Section DateTextByCases.

(** [String] of a year, by evaluation over every year a [Date] can
    hold. *)
Lemma year_text_checked :
  forallb year_text_ok (Z_range (-271821) (Z.to_nat 547582)) = true.
Proof. vm_compute. reflexivity. Qed.

Lemma pad_checked : forallb pad_ok (Z_range 0 100) = true.
Proof. vm_compute. reflexivity. Qed.

Lemma String_of_year y : -271821 <= y <= 275760 ->
  is_four_digits (String_of_int y) = four_digit_year y
  /\ (four_digit_year y = true -> String_of_int y = digits 4 y).
Proof.
  intros H.
  pose proof (@forallb_Z_range year_text_ok _ _ year_text_checked y) as C.
  unfold year_text_ok in C. specialize (C ltac:(lia)).
  destruct (four_digit_year y).
  - apply andb_prop in C as [C1 C2].
    split; [exact C1|]. intros _. now apply string_eqb_eq.
  - apply negb_true_iff in C. split; [exact C|discriminate].
Qed.

Lemma padStart_two n : 0 <= n <= 99 ->
  padStart 2 "0" (String_of_int n) = digits 2 n.
Proof.
  intros H. apply string_eqb_eq.
  apply (@forallb_Z_range pad_ok _ _ pad_checked n). lia.
Qed.

Lemma strict_form_length s : is_YYYY_MM_DD s = true ->
  List.length s = 10%nat.
Proof.
  destruct s as [|? [|? [|? [|? [|? [|? [|? [|? [|? [|? [|? s]]]]]]]]]]];
    cbn [is_YYYY_MM_DD]; intros H; try discriminate H. reflexivity.
Qed.

(** A text with two-digit month and day has the strict form exactly when
    its year part is four digits. *)
Lemma strict_form_by_year ys m d :
  0 <= m <= 99 -> 0 <= d <= 99 ->
  is_YYYY_MM_DD (ys ++ js "-" ++ digits 2 m ++ js "-" ++ digits 2 d)
  = is_four_digits ys.
Proof.
  intros Hm Hd. rewrite !digits_two by lia.
  assert (Hm1 : 0 <= (m / 10) mod 10 <= 9) by (Z.div_mod_to_equations; lia).
  assert (Hm2 : 0 <= m mod 10 <= 9) by (Z.div_mod_to_equations; lia).
  assert (Hd1 : 0 <= (d / 10) mod 10 <= 9) by (Z.div_mod_to_equations; lia).
  assert (Hd2 : 0 <= d mod 10 <= 9) by (Z.div_mod_to_equations; lia).
  destruct (digit_char Hm1) as (M1 & _ & _).
  destruct (digit_char Hm2) as (M2 & _ & _).
  destruct (digit_char Hd1) as (D1 & _ & _).
  destruct (digit_char Hd2) as (D2 & _ & _).
  destruct ys as [|y1 [|y2 [|y3 [|y4 [|y5 ys]]]]].
  6: { cbn [is_four_digits].
       match goal with |- ?b = false => destruct b eqn:E end; [|reflexivity].
       apply strict_form_length in E.
       rewrite !length_app in E. simpl in E. lia. }
  all: cbn [app js map list_ascii_of_string is_YYYY_MM_DD is_four_digits];
    try reflexivity.
  rewrite M1, M2, D1, D2, !N.eqb_refl, !andb_true_r. reflexivity.
Qed.

(** The text [dateToYYYYMMDD] writes, by the fields of the date. *)
Lemma dateToYYYYMMDD_text t :
  dateToYYYYMMDD (Some t)
  = Ok (String_of_int (YearFromTime t) ++ js "-"
        ++ digits 2 (MonthFromTime t + 1) ++ js "-"
        ++ digits 2 (DateFromTime t)).
Proof.
  pose proof (DayWithinYear_range t) as Hd.
  destruct (month_range (InLeapYear_01 (YearFromTime t)) Hd) as [Hm Hdate].
  fold (MonthFromTime t) in Hm, Hdate. fold (DateFromTime t) in Hdate.
  unfold dateToYYYYMMDD, getFullYear, getMonth, getDate, LocalTime, LocalTZA.
  rewrite !Z.add_0_r, !padStart_two by lia. reflexivity.
Qed.

End DateTextByCases.

(** X24. For every date a [Date] object can hold, [dateToYYYYMMDD] returns
    a text, and [YYYYMMDDToDate] reads that text back as midnight of the
    same day exactly when the year is from 1000 to 9999; for every other
    year the text has no four-digit year (the year is written unpadded)
    and [YYYYMMDDToDate] refuses it as badly formed. *)
Theorem YYYYMMDDToDate_of_dateToYYYYMMDD (t : Z) :
  Z.abs t <= maxTime ->
  exists s,
    dateToYYYYMMDD (Some t) = Ok s
    /\ is_YYYY_MM_DD s = four_digit_year (getFullYear t)
    /\ YYYYMMDDToDate s
       = if four_digit_year (getFullYear t)
         then Ok (Some (Day t * msPerDay))
         else Throw "Invalid ISO date format. Expected YYYY-MM-DD".
Proof.
  intros Ht.
  pose proof (year_bounds t Ht) as Hy.
  pose proof (DayWithinYear_range t) as Hd.
  destruct (month_range (InLeapYear_01 (YearFromTime t)) Hd) as [Hm Hdate].
  fold (MonthFromTime t) in Hm, Hdate. fold (DateFromTime t) in Hdate.
  rewrite dateToYYYYMMDD_text. eexists. split; [reflexivity|].
  unfold getFullYear, LocalTime, LocalTZA. rewrite Z.add_0_r.
  destruct (String_of_year Hy) as [Hfour Hs].
  assert (Hform : is_YYYY_MM_DD
                    (String_of_int (YearFromTime t) ++ js "-"
                     ++ digits 2 (MonthFromTime t + 1) ++ js "-"
                     ++ digits 2 (DateFromTime t))
                  = four_digit_year (YearFromTime t)).
  { rewrite strict_form_by_year by lia. exact Hfour. }
  split; [exact Hform|].
  destruct (YYYYMMDDToDate_shape_cases
              (String_of_int (YearFromTime t) ++ js "-"
               ++ digits 2 (MonthFromTime t + 1) ++ js "-"
               ++ digits 2 (DateFromTime t))) as [Hbad Hgood].
  destruct (four_digit_year (YearFromTime t)) eqn:E.
  - unfold four_digit_year in E.
    apply andb_prop in E as [E1 E2]. apply Z.leb_le in E1, E2.
    rewrite (Hs eq_refl) in *.
    destruct (@date_text_reads_back (YearFromTime t) (MonthFromTime t + 1)
                (DateFromTime t)) as [_ Hn]; [lia|lia|lia|].
    cbv zeta in Hn.
    destruct (Hgood Hform) as (y & m & d & Hn' & ->).
    rewrite Hn in Hn'. injection Hn' as <- <- <-.
    rewrite fields_are_calendar_date.
    destruct (Z.leb_spec 100 (YearFromTime t)); [|lia]. cbn [andb].
    replace (MonthFromTime t + 1 - 1) with (MonthFromTime t) by lia.
    rewrite date_fields. unfold MakeDate. now rewrite Z.add_0_r.
  - exact (Hbad Hform).
Qed.

Lemma YYYYMMDDToDate_of_dateToYYYYMMDD_witness :
  exists s,
    dateToYYYYMMDD (Some 0) = Ok s
    /\ is_YYYY_MM_DD s = four_digit_year (getFullYear 0)
    /\ YYYYMMDDToDate s
       = if four_digit_year (getFullYear 0)
         then Ok (Some (Day 0 * msPerDay))
         else Throw "Invalid ISO date format. Expected YYYY-MM-DD".
Proof.
  apply (YYYYMMDDToDate_of_dateToYYYYMMDD 0). vm_compute. discriminate.
Defined.

(** X25. The other way round: when [YYYYMMDDToDate] takes a string,
    [dateToYYYYMMDD] of the date it returns is that string again exactly
    for years from 1000 on; for the years 0100 to 0999 it is another text,
    with the zeros of the year dropped, which [YYYYMMDDToDate] would not
    take. *)
Theorem dateToYYYYMMDD_of_YYYYMMDDToDate (s : jsstring) (date : Date) :
  YYYYMMDDToDate s = Ok date ->
  exists y m d text,
    date_numbers s = [y; m; d]
    /\ 100 <= y <= 9999
    /\ dateToYYYYMMDD date = Ok text
    /\ (1000 <= y -> text = s)
    /\ (y < 1000 -> is_YYYY_MM_DD text = false).
Proof.
  intros H.
  destruct (YYYYMMDDToDate_shape_cases s) as [Hbad Hgood].
  destruct (is_YYYY_MM_DD s) eqn:Hs;
    [|rewrite (Hbad eq_refl) in H; discriminate H].
  destruct (shaped_is_date_text s Hs)
    as (y & m & d & Hy & Hm & Hd & Htext & Hn).
  destruct (Hgood eq_refl) as (y' & m' & d' & Hn' & Hr).
  rewrite Hn in Hn'. injection Hn' as <- <- <-.
  rewrite Hr in H.
  destruct ((100 <=? y) && is_calendar_date y m d)%bool eqn:Hc;
    [|discriminate H].
  injection H as <-.
  apply andb_prop in Hc as [H100 Hcal]. apply Z.leb_le in H100.
  unfold is_calendar_date in Hcal.
  repeat match type of Hcal with
         | (_ && _)%bool = true => apply andb_prop in Hcal as [Hcal ?]
         end.
  repeat match goal with
         | E : (_ <=? _) = true |- _ => apply Z.leb_le in E
         end.
  destruct (@fields_of_MakeDay y (m - 1) d) as (F1 & F2 & F3); [lia|lia|].
  cbv zeta in F1, F2, F3.
  exists y, m, d. eexists. split; [exact Hn|]. split; [lia|].
  rewrite dateToYYYYMMDD_text, F1, F2, F3.
  replace (m - 1 + 1) with m by lia.
  split; [reflexivity|].
  destruct (@String_of_year y ltac:(lia)) as [Hfour Hys].
  unfold four_digit_year in Hfour, Hys. split.
  - intros H1000.
    destruct (Z.leb_spec 1000 y); [|lia].
    destruct (Z.leb_spec y 9999); [|lia]. cbn [andb] in Hys.
    rewrite (Hys eq_refl). symmetry. exact Htext.
  - intros Hlt. destruct (Z.leb_spec 1000 y); [lia|]. cbn [andb] in Hfour.
    rewrite strict_form_by_year by lia. exact Hfour.
Qed.

Lemma dateToYYYYMMDD_of_YYYYMMDDToDate_witness :
  exists y m d text,
    date_numbers (js "0999-12-31") = [y; m; d]
    /\ 100 <= y <= 9999
    /\ dateToYYYYMMDD (Some (-30610310400000)) = Ok text
    /\ (1000 <= y -> text = js "0999-12-31")
    /\ (y < 1000 -> is_YYYY_MM_DD text = false).
Proof.
  apply (@dateToYYYYMMDD_of_YYYYMMDDToDate (js "0999-12-31")
           (Some (-30610310400000))).
  vm_compute. reflexivity.
Defined.

Section BirthdateFacts.

Lemma In_push_if (b : bool) (m x : string) (errs : list string) :
  In x (push_if b m errs) <-> In x errs \/ (b = true /\ m = x).
Proof.
  unfold push_if. destruct b.
  - rewrite in_app_iff. cbn [In]. intuition congruence.
  - intuition congruence.
Qed.

(** When [validate] reports the birthdate. *)
Lemma birthdate_error_iff (u : MajikUser) :
  In "Invalid birthdate format"%string (errors (validate u))
  <-> exists b, birthdate (_metadata u) = Some b
                /\ is_empty b = false /\ test_literal dateRegex b = false.
Proof.
  unfold validate. cbv zeta. cbn [errors].
  assert (Hrest : forall errs,
    ~ In "Invalid birthdate format"%string errs ->
    (In "Invalid birthdate format"%string
       match birthdate (_metadata u) with
       | Some b =>
           push_if (negb (is_empty b) && negb (test_literal dateRegex b))
             "Invalid birthdate format" errs
       | None => errs
       end
     <-> exists b, birthdate (_metadata u) = Some b
                   /\ is_empty b = false
                   /\ test_literal dateRegex b = false)).
  { intros errs Hno. destruct (birthdate (_metadata u)) as [b|].
    - rewrite In_push_if. split.
      + intros [Hin|[Hb _]]; [contradiction|].
        apply andb_prop in Hb as [B1 B2].
        apply negb_true_iff in B1, B2. now exists b.
      + intros (b' & E & B1 & B2). injection E as <-. right.
        now rewrite B1, B2.
    - split; [contradiction|]. intros (b' & E & _). discriminate E. }
  apply Hrest.
  destruct (phone (_metadata u)) as [p|];
    destruct (validateEmail (_email u)) as [?|e];
    rewrite ?In_push_if, ?in_app_iff, ?In_push_if; cbn [In];
    intuition discriminate.
Qed.

End BirthdateFacts.

(** X26. [setBirthdate] with a [Date] object always returns and stores the
    text of [dateToYYYYMMDD]; [validate] on the same user then reports
    'Invalid birthdate format' exactly when the year of the date is
    outside 1000 to 9999, the text having no four-digit year. *)
Theorem setBirthdate_of_Date_and_validate (t now : Z) (u : MajikUser) :
  Z.abs t <= maxTime ->
  exists u' text,
    setBirthdate (inr (Some t)) now u = Ok u'
    /\ dateToYYYYMMDD (Some t) = Ok text
    /\ birthdate (_metadata u') = Some text
    /\ (In "Invalid birthdate format"%string (errors (validate u'))
        <-> four_digit_year (getFullYear t) = false).
Proof.
  intros Ht.
  pose proof (year_bounds t Ht) as Hy.
  pose proof (DayWithinYear_range t) as Hd.
  destruct (month_range (InLeapYear_01 (YearFromTime t)) Hd) as [Hm Hdate].
  fold (MonthFromTime t) in Hm, Hdate. fold (DateFromTime t) in Hdate.
  unfold setBirthdate. cbn [isInvalid]. rewrite dateToYYYYMMDD_text.
  cbn [bind]. eexists. eexists. split; [reflexivity|].
  split; [reflexivity|]. split; [reflexivity|].
  rewrite birthdate_error_iff.
  cbn [updateMetadata updateTimestamp with_metadata _metadata merge
       fold_left assign birthdate].
  unfold getFullYear, LocalTime, LocalTZA. rewrite Z.add_0_r.
  destruct (String_of_year Hy) as [Hfour _].
  set (text := String_of_int (YearFromTime t) ++ js "-"
               ++ digits 2 (MonthFromTime t + 1) ++ js "-"
               ++ digits 2 (DateFromTime t)).
  assert (Hform : test_literal dateRegex text
                  = is_four_digits (String_of_int (YearFromTime t))).
  { rewrite dateRegex_shape. subst text. apply strict_form_by_year; lia. }
  assert (Hne : is_empty text = false).
  { subst text. destruct (String_of_int (YearFromTime t)); reflexivity. }
  rewrite <- Hfour, <- Hform. split.
  - intros (b & E & _ & B). injection E as <-. exact B.
  - intros B. exists text. auto.
Qed.

Lemma setBirthdate_of_Date_and_validate_witness :
  exists u' text,
    setBirthdate (inr (Some 0)) 0 fresh_user = Ok u'
    /\ dateToYYYYMMDD (Some 0) = Ok text
    /\ birthdate (_metadata u') = Some text
    /\ (In "Invalid birthdate format"%string (errors (validate u'))
        <-> four_digit_year (getFullYear 0) = false).
Proof.
  apply (setBirthdate_of_Date_and_validate 0 0 fresh_user).
  vm_compute. discriminate.
Defined.

Section TagFacts.

Lemma rmatch_Lit a i c s (k : cont) :
  rmatch (Lit a) i (c :: s) k = if N.eqb (char a) c then k (S i) s else None.
Proof. reflexivity. Qed.

Lemma rmatch_Class p i c s (k : cont) :
  rmatch (Class p) i (c :: s) k = if p c then k (S i) s else None.
Proof. reflexivity. Qed.

Lemma rmatch_Cat r1 r2 i s (k : cont) :
  rmatch (Cat r1 r2) i s k = rmatch r1 i s (fun i' s' => rmatch r2 i' s' k).
Proof. reflexivity. Qed.

(** [[^>]*>] inside a match: the greedy loop stops at the first [>], and
    no shorter run ends before a [>]. *)
Lemma star_not_gt (k : cont) (s : jsstring) : forall i,
  rmatch (Star (Class not_gt)) i s (fun i' s' => rmatch (Lit ">") i' s' k)
  = match after_gt s with
    | Some (n, rest) => k (S (i + n)) rest
    | None => None
    end.
Proof.
  induction s as [|c s IH]; intros i; rewrite rmatch_Star.
  - reflexivity.
  - cbn [after_gt]. rewrite rmatch_Class, rmatch_Lit. unfold not_gt.
    rewrite (N.eqb_sym (char ">") c).
    destruct (N.eqb c (char ">")) eqn:E; cbn [negb].
    + now rewrite Nat.add_0_r.
    + assert (L : Nat.ltb (List.length s) (List.length (c :: s)) = true)
        by (apply Nat.ltb_lt; cbn [List.length]; lia).
      rewrite L, IH.
      destruct (after_gt s) as [[n rest]|]; [|reflexivity].
      rewrite Nat.add_succ_r. cbn [Nat.add].
      now destruct (k (S (S (i + n))) rest).
Qed.

Lemma match_at_anyTag i s :
  match_at anyTag i s
  = match s with
    | c :: s' =>
        if N.eqb (char "<") c
        then match after_gt s' with
             | Some (n, rest) => Some (S (S (i + n)), rest)
             | None => None
             end
        else None
    | [] => None
    end.
Proof.
  unfold match_at, anyTag. destruct s as [|c s]; [reflexivity|].
  rewrite rmatch_Cat, rmatch_Lit.
  destruct (N.eqb (char "<") c); [|reflexivity].
  rewrite rmatch_Cat, star_not_gt. now destruct (after_gt s) as [[n rest]|].
Qed.

Lemma search_anyTag s : forall i,
  match search anyTag i s with Some _ => true | None => false end
  = has_tag s.
Proof.
  induction s as [|c s IH]; intros i; cbn [search has_tag];
    rewrite match_at_anyTag; [reflexivity|].
  destruct (N.eqb (char "<") c); cbn [andb orb]; [|apply IH].
  destruct (after_gt s) as [[n rest]|]; [reflexivity|apply IH].
Qed.

(** [/<[^>]*>/.test(s)], said without the pattern. *)
Lemma test_anyTag s : test_literal anyTag s = has_tag s.
Proof.
  unfold test_literal, test.
  cbn [global source lastIndex Nat.ltb Nat.leb skipn].
  rewrite <- (search_anyTag s 0).
  now destruct (search anyTag 0 s) as [[b e]|].
Qed.

Lemma after_gt_shorter s : forall n rest,
  after_gt s = Some (n, rest) -> (List.length rest < List.length s)%nat.
Proof.
  induction s as [|c s IH]; intros n rest; cbn [after_gt]; [discriminate|].
  destruct (N.eqb c (char ">")).
  - intros [= _ <-]. cbn [List.length]. lia.
  - destruct (after_gt s) as [[m r]|]; [|discriminate].
    intros [= _ <-]. specialize (IH m r eq_refl). cbn [List.length]. lia.
Qed.

Lemma after_gt_app s q : forall n rest,
  after_gt s = Some (n, rest) -> after_gt (s ++ q) = Some (n, rest ++ q).
Proof.
  induction s as [|c s IH]; intros n rest; cbn [after_gt app];
    [discriminate|].
  destruct (N.eqb c (char ">")).
  - now intros [= <- <-].
  - destruct (after_gt s) as [[m r]|]; [|discriminate].
    intros [= <- <-]. now rewrite (IH m r eq_refl).
Qed.

Lemma no_gt_no_tag s : after_gt s = None -> has_tag s = false.
Proof.
  induction s as [|c s IH]; cbn [after_gt has_tag]; [reflexivity|].
  destruct (N.eqb c (char ">")); [discriminate|].
  destruct (after_gt s) as [[m r]|]; [discriminate|].
  intros _. rewrite (IH eq_refl). now rewrite andb_false_r.
Qed.

(** A text without [>] is left as it is by the tag removal. *)
Lemma replace_loop_no_gt s : forall fuel i,
  after_gt s = None -> replace_loop anyTag [] fuel i s = s.
Proof.
  induction s as [|c s IH]; intros fuel i H; destruct fuel as [|fuel];
    try reflexivity.
  cbn [replace_loop]. rewrite match_at_anyTag. cbn [after_gt] in H.
  destruct (N.eqb c (char ">")); [discriminate|].
  destruct (after_gt s) as [[m r]|] eqn:E; [discriminate|].
  rewrite IH by reflexivity. now destruct (N.eqb (char "<") c).
Qed.

(** What the tag removal returns holds no [<] with a [>] after it. *)
Lemma replace_loop_no_tag : forall fuel i s,
  (List.length s < fuel)%nat ->
  has_tag (replace_loop anyTag [] fuel i s) = false.
Proof.
  induction fuel as [|fuel IH]; intros i s H; [lia|].
  cbn [replace_loop]. rewrite match_at_anyTag.
  destruct s as [|c s]; [reflexivity|]. cbn [List.length] in H.
  destruct (N.eqb (char "<") c) eqn:Hc.
  - destruct (after_gt s) as [[n rest]|] eqn:E.
    + pose proof (after_gt_shorter s E) as L.
      assert (L' : Nat.ltb (List.length rest) (List.length (c :: s)) = true)
        by (apply Nat.ltb_lt; cbn [List.length]; lia).
      rewrite L'. cbn [app]. apply IH. lia.
    + rewrite replace_loop_no_gt by exact E.
      cbn [has_tag]. rewrite E, (no_gt_no_tag s E).
      now rewrite andb_false_r.
    - cbn [has_tag]. rewrite Hc. cbn [andb orb]. apply IH. lia.
Qed.

Lemma has_tag_app_r p s : has_tag (p ++ s) = false -> has_tag s = false.
Proof.
  induction p as [|c p IH]; cbn [app has_tag]; [auto|].
  intros H. apply orb_false_elim in H as [_ H]. auto.
Qed.

Lemma has_tag_app_l s q : has_tag (s ++ q) = false -> has_tag s = false.
Proof.
  induction s as [|c s IH]; cbn [app has_tag]; [auto|].
  intros H. apply orb_false_elim in H as [H1 H2].
  rewrite (IH H2), orb_false_r.
  destruct (N.eqb (char "<") c); [|reflexivity]. cbn [andb] in *.
  destruct (after_gt s) as [[n rest]|] eqn:E; [|reflexivity].
  now rewrite (after_gt_app s q E) in H1.
Qed.

Lemma trimStart_suffix s : exists p, s = p ++ trimStart s.
Proof.
  induction s as [|c s [p IH]]; [now exists []|]. cbn [trimStart].
  destruct (is_space c).
  - exists (c :: p). cbn [app]. now rewrite <- IH.
  - now exists [].
Qed.

Lemma trimEnd_prefix s : exists q, s = trimEnd s ++ q.
Proof.
  unfold trimEnd. destruct (trimStart_suffix (rev s)) as [p H].
  exists (rev p). rewrite <- rev_app_distr, <- H. now rewrite rev_involutive.
Qed.

Lemma trim_no_tag s : has_tag s = false -> has_tag (trim s) = false.
Proof.
  intros H. unfold trim.
  destruct (trimStart_suffix s) as [p Hp].
  destruct (trimEnd_prefix (trimStart s)) as [q Hq].
  rewrite Hp in H. apply has_tag_app_r in H.
  rewrite Hq in H. now apply has_tag_app_l in H.
Qed.

Lemma hardenedFallback_no_tag input :
  test_literal anyTag (hardenedFallback input) = false.
Proof.
  unfold hardenedFallback. rewrite test_anyTag. apply trim_no_tag.
  unfold replace_all. apply replace_loop_no_tag. lia.
Qed.

End TagFacts.

(** X27. When the sanitizer throws, what [sanitizeInput] returns holds no
    complete tag: [/<[^>]*>/] does not match it, there being no [<] with
    a [>] anywhere after it. *)
Theorem sanitizeInput_fallback_leaves_no_tag
  (f : sanitizer) (input : jsstring) (message : string) :
  f input (mkConfig [] [] (Some true)) = Throw message ->
  test_literal anyTag (sanitizeInput (Some f) input) = false.
Proof.
  intros Hthrow. unfold sanitizeInput. rewrite Hthrow.
  destruct (is_empty input); [reflexivity|]. apply hardenedFallback_no_tag.
Qed.

Lemma sanitizeInput_fallback_leaves_no_tag_witness :
  test_literal anyTag
    (sanitizeInput (Some (fun _ _ => Throw "unavailable"))
       (js "<<b>i>x</b> ><"))
  = false.
Proof.
  apply (@sanitizeInput_fallback_leaves_no_tag
           (fun _ _ => Throw "unavailable") (js "<<b>i>x</b> ><")
           "unavailable").
  reflexivity.
Defined.

Section PatternFacts.

(** [test] on a pattern without the [g] flag: the answer of a fresh
    literal, and nothing written. *)
Lemma test_not_global r s :
  test (mkRegExp r false 0) s = (test_literal r s, mkRegExp r false 0).
Proof.
  unfold test_literal, test. cbn [global source lastIndex].
  destruct (Nat.ltb (List.length s) 0); [reflexivity|].
  now destruct (search r 0 (skipn 0 s)) as [[b e]|].
Qed.

(** [test] on the [g] pattern writes [lastIndex] only: 0 on a miss. *)
Lemma test_global r n s :
  exists b n', test (mkRegExp r true n) s = (b, mkRegExp r true n')
               /\ (b = false -> n' = O).
Proof.
  unfold test. cbn [global source lastIndex set_lastIndex].
  destruct (Nat.ltb (List.length s) n); [now exists false, O|].
  destruct (search r n (skipn n s)) as [[b e]|];
    [exists true, e|exists false, O]; split; auto; discriminate.
Qed.

Lemma some_test_patterns n input :
  let literal := existsb (fun r => test_literal r input) literal_patterns in
  exists b n',
    some_test (patterns_at n) input = (b, patterns_at n')
    /\ (literal = true -> b = true /\ n' = n)
    /\ (b = false -> n' = O).
Proof.
  cbv zeta. unfold patterns_at, literal_patterns, DANGER_PATTERNS.
  cbn [firstn app map source existsb some_test].
  rewrite !test_not_global.
  repeat match goal with
         | |- context [if test_literal ?r input then _ else _] =>
             destruct (test_literal r input); cbn [orb];
             [exists true, n; repeat split; auto; discriminate|]
         end.
  destruct (test_global (Alt anyTag anyEntity) n input) as (b & n' & -> & Hb).
  exists b, n'. destruct b.
  - repeat split; auto; discriminate.
  - repeat split; auto; discriminate.
Qed.

End PatternFacts.

(** X28. An input that is not blank and holds one of the words of the
    three patterns without the [g] flag (a listed tag name, a listed
    handler attribute or a listed scheme) is flagged by [checkForHTMLTags]
    whatever the sanitizer and whatever [lastIndex] earlier calls left on
    the fourth pattern, and the call writes nothing. *)
Theorem checkForHTMLTags_flags_listed_words
  (san : option sanitizer) (n : nat) (input : jsstring) :
  is_empty (trim input) = false ->
  existsb (fun r => test_literal r input) literal_patterns = true ->
  checkForHTMLTags san (patterns_at n) input = (true, patterns_at n).
Proof.
  intros Hblank Hlit. unfold checkForHTMLTags.
  assert (Hne : is_empty input = false) by (now destruct input).
  rewrite Hne, Hblank. cbn [orb].
  destruct (some_test_patterns n input) as (b & n' & -> & H & _).
  cbv zeta in H. destruct (H Hlit) as [-> ->]. reflexivity.
Qed.

Lemma checkForHTMLTags_flags_listed_words_witness :
  checkForHTMLTags None (patterns_at 7) (js "JavaScript:alert(1)")
  = (true, patterns_at 7).
Proof.
  apply (@checkForHTMLTags_flags_listed_words None 7
           (js "JavaScript:alert(1)")); reflexivity.
Defined.

(** X29. The array of patterns changes only in [lastIndex] of its fourth
    entry, and a call of [checkForHTMLTags] on a non-blank input that
    answers false leaves it as the module loaded it: only after an answer
    of true can the next call start from a moved [lastIndex]. *)
Theorem checkForHTMLTags_false_leaves_patterns_fresh
  (san : option sanitizer) (n : nat) (input : jsstring) :
  exists n',
    snd (checkForHTMLTags san (patterns_at n) input) = patterns_at n'
    /\ (is_empty (trim input) = false ->
        fst (checkForHTMLTags san (patterns_at n) input) = false ->
        patterns_at n' = DANGER_PATTERNS).
Proof.
  unfold checkForHTMLTags.
  destruct (is_empty input || is_empty (trim input))%bool eqn:Hb.
  - exists n. split; [reflexivity|]. intros Hblank _.
    rewrite Hblank, orb_false_r in Hb. destruct input; discriminate.
  - destruct (some_test_patterns n input) as (b & n' & -> & _ & H0).
    exists n'. destruct b; [split; [reflexivity|discriminate]|].
    rewrite (H0 eq_refl).
    destruct san as [f|]; [destruct (f input _)|]; split; reflexivity.
Qed.

(* ------------------------------------------------------------------ *)
(** * The shared verification record *)

Section StoreFacts.

Lemma read_write_same f st : forall r,
  Shared.read r (Shared.write r f st) = option_map f (Shared.read r st).
Proof.
  unfold Shared.read.
  induction st as [|v st IH]; intros [|r]; cbn; auto.
Qed.

Lemma read_alloc_old v st r :
  (r < List.length st)%nat ->
  Shared.read r (snd (Shared.alloc v st)) = Shared.read r st.
Proof.
  intros H. unfold Shared.read, Shared.alloc. cbn [snd].
  now apply nth_error_app1.
Qed.

Lemma read_alloc_new v st :
  Shared.read (fst (Shared.alloc v st)) (snd (Shared.alloc v st)) = Some v.
Proof.
  unfold Shared.read, Shared.alloc. cbn [fst snd].
  rewrite nth_error_app2 by lia. now rewrite Nat.sub_diag.
Qed.

Lemma read_Some_lt st r v :
  Shared.read r st = Some v -> (r < List.length st)%nat.
Proof.
  unfold Shared.read. intros H. apply nth_error_Some. congruence.
Qed.

Lemma assign_verification_twice m a b :
  assign (assign m (U_verification a)) (U_verification b)
  = assign m (U_verification b).
Proof. reflexivity. Qed.

(** On the instance that is written, the store says what [User] says. *)
Lemma view_set_email value now o st o' st' :
  Shared.set_email value now o st = Ok (o', st') ->
  User.set_email value now (Shared.view st o) = Ok (Shared.view st' o').
Proof.
  unfold Shared.set_email, User.set_email.
  destruct (validateEmail value); [|discriminate]. cbn [bind].
  intros [= <- <-]. f_equal.
  unfold Shared.view, Shared.record_of, clear_email_verified.
  cbn [Shared.verification_ref Shared.fields].
  destruct (Shared.verification_ref o) as [r|]; [|reflexivity].
  rewrite read_write_same.
  cbn [with_email with_metadata _metadata assign verification].
  now destruct (Shared.read r st).
Qed.

Lemma view_setPhone value now o st :
  Shared.view (snd (Shared.setPhone value now o st))
    (fst (Shared.setPhone value now o st))
  = User.setPhone value now (Shared.view st o).
Proof.
  unfold Shared.setPhone, User.setPhone. cbn [fst snd].
  unfold Shared.view, Shared.record_of, clear_phone_verified.
  cbn [Shared.verification_ref Shared.fields].
  destruct (Shared.verification_ref o) as [r|]; [|reflexivity].
  rewrite read_write_same.
  cbn [updateMetadata updateTimestamp merge fold_left with_metadata
       _metadata assign verification].
  now destruct (Shared.read r st).
Qed.

Lemma view_put_email_verified b now o st :
  Shared.view (snd (Shared.put_email_verified b now o st))
    (fst (Shared.put_email_verified b now o st))
  = User.put_email_verified b now (Shared.view st o).
Proof.
  unfold Shared.put_email_verified, User.put_email_verified.
  cbv zeta.
  destruct (Shared.alloc _ st) as [r st'] eqn:E. cbn [fst snd].
  unfold Shared.view, Shared.record_of.
  cbn [Shared.verification_ref Shared.fields].
  pose proof (read_alloc_new
                (mkVerification b
                   (phone_verified (Shared.currentVerification st o))
                   (identity_verified (Shared.currentVerification st o)))
                st) as R.
  rewrite E in R. cbn [fst snd] in R. rewrite R.
  unfold Shared.currentVerification, User.currentVerification,
    Shared.record_of.
  reflexivity.
Qed.

End StoreFacts.

(** X30. [clone] is one level deep: the clone has the verification record
    of the original, not a copy. For an original with a record, a
    successful [email] setter on the clone clears the email flag of the
    original, and [setPhone] on the clone its phone flag, while nothing
    else of the original changes; [verifyEmail] and [unverifyEmail] on
    the clone build a new record and leave the original as it was. *)
Theorem clone_shares_verification_record
  (value : jsstring) (now : Z) (o : Shared.instance) (st : Shared.store)
  (v : Verification) :
  Shared.record_of st o = Some v ->
  (forall c' st',
      Shared.set_email value now (Shared.clone o) st = Ok (c', st') ->
      isEmailVerified (Shared.view st' o) = false
      /\ Shared.view st' o = clear_email_verified (Shared.view st o))
  /\ (let st' := snd (Shared.setPhone value now (Shared.clone o) st) in
      isPhoneVerified (Shared.view st' o) = false
      /\ Shared.view st' o = clear_phone_verified (Shared.view st o))
  /\ (forall b,
        let st' := snd (Shared.put_email_verified b now (Shared.clone o) st) in
        Shared.view st' o = Shared.view st o).
Proof.
  unfold Shared.record_of. intros Hrec.
  destruct (Shared.verification_ref o) as [r|] eqn:Hr; [|discriminate].
  split; [|split].
  - intros c' st'. unfold Shared.set_email.
    destruct (validateEmail value); [|discriminate]. cbn [bind].
    cbn [Shared.clone Shared.verification_ref]. rewrite Hr.
    intros [= _ <-].
    unfold Shared.view, Shared.record_of, isEmailVerified,
      clear_email_verified.
    rewrite Hr, read_write_same, Hrec.
    cbn [option_map with_metadata _metadata assign verification
         email_verified]. split; reflexivity.
  - cbv zeta. unfold Shared.setPhone. cbn [snd Shared.clone
      Shared.verification_ref]. rewrite Hr.
    unfold Shared.view, Shared.record_of, isPhoneVerified,
      clear_phone_verified.
    rewrite Hr, read_write_same, Hrec.
    cbn [option_map with_metadata _metadata assign verification
         phone_verified]. split; reflexivity.
  - intros b. cbv zeta. unfold Shared.put_email_verified. cbv zeta.
    destruct (Shared.alloc _ st) as [r' st'] eqn:E. cbn [snd].
    unfold Shared.view, Shared.record_of. rewrite Hr.
    pose proof (@read_alloc_old
                  (mkVerification b
                     (phone_verified
                        (Shared.currentVerification st (Shared.clone o)))
                     (identity_verified
                        (Shared.currentVerification st (Shared.clone o))))
                  st r (read_Some_lt st r Hrec)) as R.
    rewrite E in R. cbn [snd] in R. now rewrite R.
Qed.

Lemma clone_shares_verification_record_witness :
  isEmailVerified (Shared.view Shared.sample_store Shared.sample_instance)
  = true
  /\ match Shared.set_email (js "new@example.com") 3000
             (Shared.clone Shared.sample_instance) Shared.sample_store with
     | Ok (_, st') =>
         isEmailVerified (Shared.view st' Shared.sample_instance) = false
     | Throw _ => False
     end.
Proof.
  split; [reflexivity|].
  destruct (@clone_shares_verification_record (js "new@example.com") 3000
              Shared.sample_instance Shared.sample_store
              (mkVerification true true true) eq_refl) as [Hemail _].
  destruct (Shared.set_email (js "new@example.com") 3000
              (Shared.clone Shared.sample_instance) Shared.sample_store)
    as [[c' st']|message] eqn:E.
  - exact (proj1 (Hemail c' st' eq_refl)).
  - vm_compute in E. discriminate E.
Defined.
